(** * did/ion: encoding primitives, key commitments, the BTC signer/verifier,
      state-change validation and the Sidetree operation builders.

    The development follows the Go sources of package [ion]: the first part
    embeds the library routines the package calls with a fixed behaviour
    ([encoding/base64], [strings.Split], [fmt] verbs), the second the package
    itself, over the cryptographic and JSON libraries taken as parameters. *)

From Stdlib Require Import ZArith List String Ascii Lia.
From Stdlib.Strings Require Import Byte.
From Stdlib.Numbers Require Import DecimalString HexadecimalString.
From Stdlib.Numbers Require HexadecimalFacts HexadecimalPos HexadecimalN.
From stdpp Require Import gmap strings list.
From coqutil Require Import Z.bitblast.
Import ListNotations.

Local Open Scope Z_scope.

(** ** Go values *)

(** A Go [error] is represented by its message ([err.Error()]); a function
    returning [(T, error)] returns a [result T], one returning [error] alone
    an [option error], [None] being [nil]. *)
Definition error : Type := string.

Inductive result (A : Type) : Type :=
| Ok (a : A)
| Err (e : error).
Arguments Ok {A} a.
Arguments Err {A} e.

Definition is_Ok {A} (r : result A) : bool :=
  match r with Ok _ => true | Err _ => false end.

(** [uint(b)] and [byte(z)]: a byte as a number, and the low eight bits of a
    number as a byte. *)
Definition Z_of_byte (b : byte) : Z := Z.of_N (Byte.to_N b).

Definition byte_of_Z (z : Z) : byte :=
  match Byte.of_N (Z.to_N (z mod 256)) with
  | Some b => b
  | None => x00
  end.

(** [[]byte(s)] *)
Definition bytes_of_string (s : string) : list byte := list_byte_of_string s.

(** [strconv.Itoa] on a non-negative offset. *)
Definition itoa (n : Z) : string :=
  DecimalString.NilZero.string_of_int (Z.to_int n).

(** ** encoding/base64, [RawURLEncoding] *)
Module base64.

(** The URL-safe alphabet; [RawURLEncoding] uses it without padding and in
    the non-strict mode. *)
Definition encodeURL : string :=
  "ABCDEFGHIJKLMNOPQRSTUVWXYZabcdefghijklmnopqrstuvwxyz0123456789-_".

(** [enc.encode[v]] *)
Definition encode (v : Z) : ascii :=
  nth (Z.to_nat v) (list_ascii_of_string encodeURL) "A"%char.

(** [enc.decodeMap[c]]: the position of [c] in the alphabet, 0xFF for a
    byte outside of it. *)
Fixpoint index_from (c : ascii) (s : string) (i : Z) : Z :=
  match s with
  | EmptyString => 255
  | String a s' => if Ascii.eqb a c then i else index_from c s' (i + 1)
  end.

Definition decodeMap (c : ascii) : Z := index_from c encodeURL 0.

(** [enc.encode[val>>k&0x3F]] *)
Definition sextet (val k : Z) : ascii := encode (Z.land (Z.shiftr val k) 63).

(** [Encoding.EncodeToString] without padding: three source bytes give four
    characters, a remainder of two gives three, a remainder of one two. *)
Fixpoint EncodeToString (src : list byte) : string :=
  match src with
  | [] => ""
  | [b0] =>
      let val := Z.shiftl (Z_of_byte b0) 16 in
      String (sextet val 18) (String (sextet val 12) "")
  | [b0; b1] =>
      let val := Z.lor (Z.shiftl (Z_of_byte b0) 16) (Z.shiftl (Z_of_byte b1) 8) in
      String (sextet val 18) (String (sextet val 12) (String (sextet val 6) ""))
  | b0 :: b1 :: b2 :: rest =>
      let val := Z.lor (Z.lor (Z.shiftl (Z_of_byte b0) 16)
                              (Z.shiftl (Z_of_byte b1) 8)) (Z_of_byte b2) in
      String (sextet val 18) (String (sextet val 12)
        (String (sextet val 6) (String (sextet val 0) (EncodeToString rest))))
  end.

Definition CorruptInputError (pos : Z) : error :=
  "illegal base64 data at input byte " +:+ itoa pos.

(** The end of [decodeQuantum]: [dlen] six-bit values ([dlen] is 2, 3 or 4)
    are packed into [val] and the first [dlen - 1] bytes of it are written.
    In the non-strict mode the unused low bits are not inspected. *)
Definition assemble (dbuf : list Z) : list byte :=
  let d i := nth i dbuf 0 in
  let val := Z.lor (Z.lor (Z.lor (Z.shiftl (d 0%nat) 18) (Z.shiftl (d 1%nat) 12))
                          (Z.shiftl (d 2%nat) 6)) (d 3%nat) in
  firstn (List.length dbuf - 1)
         [byte_of_Z (Z.shiftr val 16); byte_of_Z (Z.shiftr val 8); byte_of_Z val].

Definition isNewline (c : ascii) : bool :=
  Ascii.eqb c "010"%char || Ascii.eqb c "013"%char.

(** [Encoding.Decode], the loop over [decodeQuantum] flattened into one
    recursion over the input: [si] is the offset of the next input byte and
    [dbuf] the six-bit values of the quantum being read.  Line feeds and
    carriage returns are skipped; any other byte outside the alphabet is
    corrupt (without padding, "=" is one of them); the input may end after
    0, 2 or 3 values of a quantum, not after 1.  The bytes decoded before an
    error are dropped: no caller in the package reads them. *)
Fixpoint decode (src : string) (si : Z) (dbuf : list Z) : result (list byte) :=
  match src with
  | EmptyString =>
      match dbuf with
      | [] => Ok []
      | [_] => Err (CorruptInputError (si - 1))
      | _ => Ok (assemble dbuf)
      end
  | String c rest =>
      let out := decodeMap c in
      if (out =? 255)%Z then
        if isNewline c then decode rest (si + 1) dbuf
        else Err (CorruptInputError si)
      else
        let dbuf' := dbuf ++ [out] in
        if (List.length dbuf' =? 4)%nat then
          match decode rest (si + 1) [] with
          | Ok tl => Ok (assemble dbuf' ++ tl)
          | Err e => Err e
          end
        else decode rest (si + 1) dbuf'
  end.

Definition DecodeString (s : string) : result (list byte) := decode s 0 [].

(** A byte of the alphabet, and the number of them in a string. *)
Definition inAlphabet (c : ascii) : bool := negb (decodeMap c =? 255).

Fixpoint countAlphabet (s : string) : nat :=
  match s with
  | EmptyString => 0
  | String c rest => (if inAlphabet c then 1 else 0) + countAlphabet rest
  end.

(** The spec's "valid unpadded URL-safe base64", by its two rules (alphabet
    and padding): every byte is of the alphabet, which leaves out "=", white
    space and line breaks, and the length is not one more than a multiple of
    four.  This is the spec's notion, not the decoder's: [decode] above
    accepts more. *)
Definition valid (s : string) : bool :=
  forallb inAlphabet (list_ascii_of_string s)
  && negb (String.length s mod 4 =? 1)%nat.

(** A string without its carriage returns and line feeds. *)
Fixpoint withoutLineBreaks (s : string) : string :=
  match s with
  | EmptyString => EmptyString
  | String c rest =>
      if isNewline c then withoutLineBreaks rest else String c (withoutLineBreaks rest)
  end.

End base64.

(** ** strings *)
Module strings.

(** [strings.Split(s, sep)] for a one-byte separator: the pieces of [s]
    between the occurrences of [sep]; the empty string gives one empty
    piece. *)
Fixpoint Split (s : string) (sep : ascii) : list string :=
  match s with
  | EmptyString => [""]
  | String c rest =>
      if Ascii.eqb c sep then "" :: Split rest sep
      else match Split rest sep with
           | piece :: pieces => String c piece :: pieces
           | [] => [String c ""]
           end
  end.

(** The number of occurrences of a byte, [strings.Count] for a one-byte
    pattern. *)
Fixpoint Count (s : string) (sep : ascii) : nat :=
  match s with
  | EmptyString => 0
  | String c rest => (if Ascii.eqb c sep then 1 else 0) + Count rest sep
  end.

(** [strings.HasPrefix] and [strings.Contains]. *)
Fixpoint HasPrefix (s prefix : string) {struct prefix} : bool :=
  match prefix, s with
  | EmptyString, _ => true
  | String a prefix', String b s' => Ascii.eqb a b && HasPrefix s' prefix'
  | String _ _, EmptyString => false
  end.

Fixpoint Contains (s substr : string) : bool :=
  HasPrefix s substr ||
  match s with
  | EmptyString => false
  | String _ s' => Contains s' substr
  end.

(** [strings.Index]: the offset of the first occurrence of [substr] in [s],
    -1 when there is none. *)
Fixpoint Index (s substr : string) : Z :=
  if HasPrefix s substr then 0
  else match s with
       | EmptyString => -1
       | String _ s' => let i := Index s' substr in if i <? 0 then -1 else i + 1
       end.

(** [unicode.IsSpace] on the UTF-8 encoding of a rune of one, two or three
    bytes: U+0009 to U+000D and U+0020; U+0085 and U+00A0; U+1680, U+2000 to
    U+200A, U+2028, U+2029, U+202F, U+205F and U+3000.  A byte sequence that
    is not the encoding of a rune decodes to [utf8.RuneError], which is no
    space. *)
Definition code (c : ascii) : Z := Z.of_N (N_of_ascii c).

Definition isSpace1 (a : ascii) : bool :=
  ((9 <=? code a) && (code a <=? 13)) || (code a =? 32).

Definition isSpace2 (a b : ascii) : bool :=
  (code a =? 0xC2) && ((code b =? 0x85) || (code b =? 0xA0)).

Definition isSpace3 (a b c : ascii) : bool :=
  ((code a =? 0xE1) && (code b =? 0x9A) && (code c =? 0x80))
  || ((code a =? 0xE2) && (code b =? 0x80)
      && (((0x80 <=? code c) && (code c <=? 0x8A))
          || (code c =? 0xA8) || (code c =? 0xA9) || (code c =? 0xAF)))
  || ((code a =? 0xE2) && (code b =? 0x81) && (code c =? 0x9F))
  || ((code a =? 0xE3) && (code b =? 0x80) && (code c =? 0x80)).

(** [strings.TrimLeftFunc(s, unicode.IsSpace)]: the leading white-space runes
    are dropped. *)
Fixpoint TrimLeftSpace (s : string) : string :=
  match s with
  | EmptyString => EmptyString
  | String a s1 =>
      if isSpace1 a then TrimLeftSpace s1
      else match s1 with
           | EmptyString => s
           | String b s2 =>
               if isSpace2 a b then TrimLeftSpace s2
               else match s2 with
                    | EmptyString => s
                    | String c s3 => if isSpace3 a b c then TrimLeftSpace s3 else s
                    end
           end
  end.

(** [strings.TrimRightFunc(s, unicode.IsSpace)] on the reversed string: the
    last byte comes first. *)
Fixpoint TrimRightSpaceRev (s : string) : string :=
  match s with
  | EmptyString => EmptyString
  | String a s1 =>
      if isSpace1 a then TrimRightSpaceRev s1
      else match s1 with
           | EmptyString => s
           | String b s2 =>
               if isSpace2 b a then TrimRightSpaceRev s2
               else match s2 with
                    | EmptyString => s
                    | String c s3 => if isSpace3 c b a then TrimRightSpaceRev s3 else s
                    end
           end
  end.

(** [strings.Join] with a one-byte separator. *)
Fixpoint Join (elems : list string) (sep : ascii) : string :=
  match elems with
  | [] => EmptyString
  | [piece] => piece
  | piece :: rest => piece +:+ String sep (Join rest sep)
  end.

(** [strings.TrimSpace] *)
Definition TrimSpace (s : string) : string :=
  String.rev (TrimRightSpaceRev (String.rev (TrimLeftSpace s))).

End strings.

(** ** fmt and strconv, as used by [toCompactHex] *)
Module fmt.

(** [fmt.Sprintf("%x", num)] for a [*big.Int]: lower-case hexadecimal
    digits without leading zeros, a minus sign first for a negative
    number. *)
Definition Sprintf_x (num : Z) : string :=
  HexadecimalString.NilZero.string_of_int (Z.to_hex_int num).

Fixpoint zeros (n : nat) : string :=
  match n with
  | O => ""
  | S n' => String "0" (zeros n')
  end.

(** [fmt.Sprintf("%064s", s)]: [s] padded on the left with zeros up to a
    width of 64, unchanged when it is at least that long. *)
Definition Sprintf_064s (s : string) : string :=
  zeros (64 - String.length s) +:+ s.

End fmt.

Module strconv.

Definition hexDigit (c : ascii) : option Z :=
  let n := Z.of_N (N_of_ascii c) in
  if (48 <=? n) && (n <=? 57) then Some (n - 48)
  else if (97 <=? n) && (n <=? 102) then Some (n - 97 + 10)
  else if (65 <=? n) && (n <=? 70) then Some (n - 65 + 10)
  else None.

(** [strconv.ParseUint(s, 16, 8)] on a string of two bytes: both must be
    hexadecimal digits (no sign, no underscore); the value always fits
    eight bits. *)
Definition ParseUint_16_8 (c1 c2 : ascii) : result Z :=
  match hexDigit c1, hexDigit c2 with
  | Some d1, Some d2 => Ok (16 * d1 + d2)
  | _, _ => Err "strconv.ParseUint: invalid syntax"
  end.

End strconv.

(** ** logrus *)

(** What [logrus.WithError(err).Error(msg)] appends to the log. *)
Record LogEntry : Type := { entry_message : string; entry_error : error }.

Definition Log : Type := list LogEntry.

(** A computation of the package: it reads and extends the log, the only
    state the package touches, and returns a value. *)
Definition M (A : Type) : Type := Log -> A * Log.

Definition ret {A} (a : A) : M A := fun l => (a, l).

(** Sequencing of [(T, error)] computations: [if err != nil { return err }]. *)
Definition bind {A B} (m : M (result A)) (k : A -> M (result B)) : M (result B) :=
  fun l =>
    match m l with
    | (Ok a, l') => k a l'
    | (Err e, l') => (Err e, l')
    end.

Definition lift {A} (r : result A) : M (result A) := ret r.

Definition logError (msg : string) (err : error) (l : Log) : Log :=
  l ++ [{| entry_message := msg; entry_error := err |}].

(** [if err != nil { logrus.WithError(err).Error(msg); return err }] *)
Definition logged {A} (msg : string) (m : M (result A)) : M (result A) :=
  fun l =>
    match m l with
    | (Err e, l') => (Err e, logError msg e l')
    | (Ok a, l') => (Ok a, l')
    end.

(** Case analysis on the steps of a computation whose outcome [H] states. *)
Ltac run_steps H :=
  repeat match type of H with
         | match ?x with _ => _ end = _ =>
             first [destruct x as [[?|?] ?] eqn:? | destruct x as [?|?] eqn:?]
         | (let (_, _) := ?x in _) = _ => destruct x as [[?|?] ?] eqn:?
         end.

Declare Scope ion_scope.
Delimit Scope ion_scope with ion.
Notation "x <- m ;; k" := (bind m (fun x => k))
  (at level 100, m at next level, right associativity) : ion_scope.

(** ** The libraries the package is linked against

    [crypto/sha256], [go-multihash], [go-json], [jcs], [ssi-sdk/crypto] and
    [crypto/ecdsa] over the curve of [btcec] are taken as they are: the
    package only composes them.  [json.Marshal] takes a value of any type;
    [ecdsa.Sign] is applied to the package's [zeroReader], which makes it a
    function of the key and the digest.  The contents of a DID document and of
    a service endpoint are left open as well. *)
Class Libraries : Type := {
  sha256_Sum256 : list byte -> list byte;
  multihash_Encode : list byte -> Z -> result (list byte);
  json_Marshal : forall T : Type, T -> result (list byte);
  jcs_Transform : list byte -> result (list byte);
  PublicKeyJWK : Type;
  JWK : Type;
  JWKFromPublicKeyJWK : PublicKeyJWK -> result JWK;
  ecdsa_PublicKey : Type;
  ecdsa_PrivateKey : Type;
  ecdsa_Sign : ecdsa_PrivateKey -> list byte -> result (Z * Z);
  ecdsa_VerifyASN1 : ecdsa_PublicKey -> list byte -> list byte -> bool;
  Document : Type;
  ServiceEndpoint : Type
}.

(** ** Package ion *)
Section Ion.

Context {L : Libraries}.

(** [multihash.SHA2_256] *)
Definition SHA2_256 : Z := 0x12.

(** *** Hashing and encoding *)

(** [Hash]: SHA-256, not multihashed. *)
Definition Hash (data : list byte) : list byte := sha256_Sum256 data.

(** [Multihash]: the SHA-256 digest of the data in a multihash frame. *)
Definition Multihash (data : list byte) : M (result (list byte)) :=
  let hashed := sha256_Sum256 data in
  logged "could not multi-hash the given data"
         (lift (multihash_Encode hashed SHA2_256)).

Definition Encode (data : list byte) : string := base64.EncodeToString data.

Definition HashEncode (data : list byte) : M (result string) :=
  (hashed <- Multihash data ;;
   ret (Ok (Encode hashed)))%ion.

Definition EncodeString (data : string) : string := Encode (bytes_of_string data).

Definition EncodeAny {T : Type} (data : T) : result string :=
  match json_Marshal T data with
  | Err err => Err err
  | Ok anyBytes => Ok (Encode anyBytes)
  end.

Definition Decode (data : string) : result (list byte) := base64.DecodeString data.

Definition Canonicalize (data : list byte) : result (list byte) := jcs_Transform data.

Definition CanonicalizeAny {T : Type} (data : T) : result (list byte) :=
  match json_Marshal T data with
  | Err err => Err err
  | Ok anyBytes => Canonicalize anyBytes
  end.

(** *** The public key commitment scheme *)
Definition Commit (key : PublicKeyJWK) : M (result (string * string)) :=
  (gotJWK <- lift (JWKFromPublicKeyJWK key) ;;
   canonicalKey <- logged "could not canonicalize JWK" (lift (CanonicalizeAny gotJWK)) ;;
   let intermediateHash := Hash canonicalKey in
   reveal <- logged "could not generate reveal value" (HashEncode canonicalKey) ;;
   commitment <- logged "could not generate commitment value" (HashEncode intermediateHash) ;;
   ret (Ok (reveal, commitment)))%ion.

(** *** The signer and verifier *)
Record BTCSignerVerifier : Type := {
  publicKey : ecdsa_PublicKey;
  privateKey : ecdsa_PrivateKey
}.

(** [GetJWSHeader]: the map with the single entry "alg". *)
Definition GetJWSHeader (sv : BTCSignerVerifier) : gmap string string :=
  {[ "alg" := "ES256K" ]}.

Definition numTo32bStr (num : Z) : string :=
  let hexStr := fmt.Sprintf_x num in
  fmt.Sprintf_064s hexStr.

(** The loop of [toCompactHex]: one byte for every two characters. *)
Fixpoint parseHexBytes (hex : string) : result (list byte) :=
  match hex with
  | String c1 (String c2 rest) =>
      match strconv.ParseUint_16_8 c1 c2 with
      | Err _ => Err "invalid byte sequence"
      | Ok byteValue =>
          match parseHexBytes rest with
          | Err e => Err e
          | Ok b => Ok (byte_of_Z byteValue :: b)
          end
      end
  | _ => Ok []
  end.

Definition toCompactHex (r s : Z) : result (list byte) :=
  let hex := numTo32bStr r +:+ numTo32bStr s in
  if negb (Z.of_nat (String.length hex) mod 2 =? 0) then
    Err "received invalid unpadded hex"
  else parseHexBytes hex.

Definition Sign (sv : BTCSignerVerifier) (data : list byte) : result (list byte) :=
  let messageHash := Hash data in
  match ecdsa_Sign (privateKey sv) messageHash with
  | Err err => Err err
  | Ok (r, s) => toCompactHex r s
  end.

Definition Verify (sv : BTCSignerVerifier) (data signature : list byte) : bool :=
  let messageHash := Hash data in
  ecdsa_VerifyASN1 (publicKey sv) messageHash signature.

(** [SignJWT]: on each of its three failures the function returns the empty
    string and a [nil] error, as the source does. *)
Definition SignJWT {T : Type} (sv : BTCSignerVerifier) (data : T) : M (result string) :=
  fun l =>
    match EncodeAny (GetJWSHeader sv) with
    | Err err => (Ok "", logError "could not encode header" err l)
    | Ok encodedHeader =>
        match EncodeAny data with
        | Err err => (Ok "", logError "could not encode payload" err l)
        | Ok encodedPayload =>
            let signingContent := encodedHeader +:+ "." +:+ encodedPayload in
            let contentHash := Hash (bytes_of_string signingContent) in
            match Sign sv contentHash with
            | Err _ => (Ok "", l)
            | Ok signed =>
                let encodedSignature := Encode signed in
                let compactJWS :=
                  encodedHeader +:+ "." +:+ encodedPayload +:+ "." +:+ encodedSignature in
                (Ok compactJWS, l)
            end
        end
    end.

(** [VerifyJWS] returns a pair [(bool, error)]. *)
Definition VerifyJWS (sv : BTCSignerVerifier) (jws : string) : bool * option error :=
  let jwsParts := strings.Split jws "." in
  if negb (List.length jwsParts =? 3)%nat then
    (false, Some ("invalid JWS: " +:+ jws))
  else
    let signingContent := nth 0 jwsParts "" +:+ "." +:+ nth 1 jwsParts "" in
    let contentHash := Hash (bytes_of_string signingContent) in
    match Decode (nth 2 jwsParts "") with
    | Err err => (false, Some ("could not decode signature: " +:+ err))
    | Ok decodedSignature => (Verify sv contentHash decodedSignature, None)
    end.

(** *** The model types of the operations *)

(** Modelled from the spec: the declaration of [Service] is in the package's
    model file, which is not among the sources.  The validator reads its id
    and its type; the endpoint is left open. *)
Record Service : Type := {
  Service_ID : string;
  Service_Type : string;
  Service_ServiceEndpoint : ServiceEndpoint
}.

(** Modelled from the spec: the declaration of [PublicKey] is in the
    package's model file.  The validator reads its id. *)
Record PublicKey : Type := {
  PublicKey_ID : string;
  PublicKey_Type : string;
  PublicKey_PublicKeyJWK : PublicKeyJWK;
  PublicKey_Purposes : list string
}.

(** Modelled from the spec: the constants naming the five patch kinds and the
    four operations are declared in the package's model file. *)
Inductive PatchAction : Type :=
| Replace | AddPublicKeys | RemovePublicKeys | AddServices | RemoveServices.

Inductive OperationType : Type :=
| Create | Update | Recover | Deactivate.

(** Modelled from the spec: the five action structs are declared in the
    package's model file.  An element of [Delta.Patches] (a [[]any] in the
    source) is one of them; each carries its [Action] field and the payload
    the builders set. *)
Inductive Patch : Type :=
| ReplaceAction (Action : PatchAction) (document : Document)
| AddServicesAction (Action : PatchAction) (Services : list Service)
| RemoveServicesAction (Action : PatchAction) (IDs : list string)
| AddPublicKeysAction (Action : PatchAction) (PublicKeys : list PublicKey)
| RemovePublicKeysAction (Action : PatchAction) (IDs : list string).

Definition Action (p : Patch) : PatchAction :=
  match p with
  | ReplaceAction a _ | AddServicesAction a _ | RemoveServicesAction a _
  | AddPublicKeysAction a _ | RemovePublicKeysAction a _ => a
  end.

(** Modelled from the spec: [Delta], [SuffixData] and the four requests are
    declared in the package's model file; their fields are those of the
    spec's wire formats, which are the fields the builders set. *)
Record Delta : Type := {
  UpdateCommitment : string;
  Patches : list Patch
}.

Record SuffixData : Type := {
  DeltaHash : string;
  RecoveryCommitment : string
}.

Record CreateRequest : Type := {
  CreateRequest_Type : OperationType;
  CreateRequest_SuffixData : SuffixData;
  CreateRequest_Delta : Delta
}.

Record DeactivateRequest : Type := {
  DeactivateRequest_Type : OperationType;
  DeactivateRequest_DIDSuffix : string;
  DeactivateRequest_RevealValue : string;
  DeactivateRequest_SignedData : string
}.

Record RecoverRequest : Type := {
  RecoverRequest_Type : OperationType;
  RecoverRequest_DIDSuffix : string;
  RecoverRequest_RevealValue : string;
  RecoverRequest_Delta : Delta;
  RecoverRequest_SignedData : string
}.

Record UpdateRequest : Type := {
  UpdateRequest_Type : OperationType;
  UpdateRequest_DIDSuffix : string;
  UpdateRequest_RevealValue : string;
  UpdateRequest_Delta : Delta;
  UpdateRequest_SignedData : string
}.

(** The anonymous structs the builders sign. *)
Record DeactivateSignedData : Type := {
  dsd_DIDSuffix : string;
  dsd_RecoveryKey : PublicKeyJWK
}.

Record RecoverSignedData : Type := {
  rsd_RecoveryCommitment : string;
  rsd_RecoveryKey : PublicKeyJWK;
  rsd_DeltaHash : string
}.

Record UpdateSignedData : Type := {
  usd_UpdateKey : PublicKeyJWK;
  usd_DeltaHash : string
}.

(** *** request.go *)
Definition maxIDLength : Z := 50.
Definition maxServiceTypeLength : Z := 30.

(** [len(s)] on a string: its number of bytes. *)
Definition len (s : string) : Z := Z.of_nat (String.length s).

Definition NewCreateRequest (recoveryKey updateKey : PublicKeyJWK) (document : Document)
  : M (result CreateRequest) :=
  (let patches := [ReplaceAction Replace document] in
   uc <- Commit updateKey ;;
   let updateCommitment := snd uc in
   let delta := {| UpdateCommitment := updateCommitment; Patches := patches |} in
   deltaCanonical <- lift (CanonicalizeAny delta) ;;
   deltaHash <- HashEncode deltaCanonical ;;
   rc <- Commit recoveryKey ;;
   let recoveryCommitment := snd rc in
   let suffixData := {| DeltaHash := deltaHash;
                        RecoveryCommitment := recoveryCommitment |} in
   ret (Ok {| CreateRequest_Type := Create;
              CreateRequest_SuffixData := suffixData;
              CreateRequest_Delta := delta |}))%ion.

(** [fmt.Errorf("failed to sign JWT: %w", err)] *)
Definition wrapSignError {A} (m : M (result A)) : M (result A) :=
  fun l =>
    match m l with
    | (Err err, l') => (Err ("failed to sign JWT: " +:+ err), l')
    | (Ok a, l') => (Ok a, l')
    end.

Definition NewDeactivateRequest (didSuffix : string) (recoveryKey : PublicKeyJWK)
           (signer : BTCSignerVerifier) : M (result DeactivateRequest) :=
  (rc <- Commit recoveryKey ;;
   let revealValue := fst rc in
   let toBeSigned := {| dsd_DIDSuffix := didSuffix; dsd_RecoveryKey := recoveryKey |} in
   signedJWT <- wrapSignError (SignJWT signer toBeSigned) ;;
   ret (Ok {| DeactivateRequest_Type := Deactivate;
              DeactivateRequest_DIDSuffix := didSuffix;
              DeactivateRequest_RevealValue := revealValue;
              DeactivateRequest_SignedData := signedJWT |}))%ion.

Definition NewRecoverRequest (didSuffix : string)
           (recoveryKey nextRecoveryKey nextUpdateKey : PublicKeyJWK)
           (document : Document) (signer : BTCSignerVerifier) : M (result RecoverRequest) :=
  (rc <- Commit recoveryKey ;;
   let revealValue := fst rc in
   let patches := [ReplaceAction Replace document] in
   uc <- Commit nextUpdateKey ;;
   let updateCommitment := snd uc in
   let delta := {| UpdateCommitment := updateCommitment; Patches := patches |} in
   deltaCanonical <- lift (CanonicalizeAny delta) ;;
   deltaHash <- HashEncode deltaCanonical ;;
   nrc <- Commit nextRecoveryKey ;;
   let recoveryCommitment := snd nrc in
   let toBeSigned := {| rsd_RecoveryCommitment := recoveryCommitment;
                        rsd_RecoveryKey := recoveryKey;
                        rsd_DeltaHash := deltaHash |} in
   signedJWT <- SignJWT signer toBeSigned ;;
   ret (Ok {| RecoverRequest_Type := Recover;
              RecoverRequest_DIDSuffix := didSuffix;
              RecoverRequest_RevealValue := revealValue;
              RecoverRequest_Delta := delta;
              RecoverRequest_SignedData := signedJWT |}))%ion.

Record StateChange : Type := {
  ServicesToAdd : list Service;
  ServiceIDsToRemove : list string;
  PublicKeysToAdd : list PublicKey;
  PublicKeyIDsToRemove : list string
}.

(** The four loops of [StateChange.IsValid].  The first two build the index
    of the services and of the public keys to add. *)
Fixpoint indexServices (toAdd : list Service) (services : gmap string Service)
  : result (gmap string Service) :=
  match toAdd with
  | [] => Ok services
  | service :: rest =>
      match services !! Service_ID service with
      | Some _ => Err ("service " +:+ Service_ID service +:+ " duplicated")
      | None =>
          if maxIDLength <? len (Service_ID service) then
            Err ("service<" +:+ Service_ID service +:+ "> id is too long")
          else if maxServiceTypeLength <? len (Service_Type service) then
            Err ("service<" +:+ Service_ID service +:+ "> type "
                 +:+ Service_Type service +:+ " is too long")
          else indexServices rest (<[Service_ID service := service]> services)
      end
  end.

Fixpoint indexPublicKeys (toAdd : list PublicKey) (publicKeys : gmap string PublicKey)
  : result (gmap string PublicKey) :=
  match toAdd with
  | [] => Ok publicKeys
  | publicKey :: rest =>
      match publicKeys !! PublicKey_ID publicKey with
      | Some _ => Err ("public key<" +:+ PublicKey_ID publicKey +:+ "> is duplicated")
      | None =>
          if maxIDLength <? len (PublicKey_ID publicKey) then
            Err ("public key<" +:+ PublicKey_ID publicKey +:+ "> id is too long")
          else indexPublicKeys rest (<[PublicKey_ID publicKey := publicKey]> publicKeys)
      end
  end.

Fixpoint checkServiceIDsToRemove (ids : list string) (services : gmap string Service)
  : option error :=
  match ids with
  | [] => None
  | serviceID :: rest =>
      match services !! serviceID with
      | Some _ => Some ("service<" +:+ serviceID +:+ "> added and removed in same request")
      | None =>
          if maxIDLength <? len serviceID then
            Some ("service<" +:+ serviceID +:+ "> id is too long")
          else checkServiceIDsToRemove rest services
      end
  end.

Fixpoint checkPublicKeyIDsToRemove (ids : list string) (publicKeys : gmap string PublicKey)
  : option error :=
  match ids with
  | [] => None
  | publicKeyID :: rest =>
      match publicKeys !! publicKeyID with
      | Some _ =>
          Some ("public key<" +:+ publicKeyID +:+ "> added and removed in same request")
      | None =>
          if maxIDLength <? len publicKeyID then
            Some ("public key<" +:+ publicKeyID +:+ "> id is too long")
          else checkPublicKeyIDsToRemove rest publicKeys
      end
  end.

Definition IsValid (s : StateChange) : option error :=
  match indexServices (ServicesToAdd s) ∅ with
  | Err err => Some err
  | Ok services =>
      match indexPublicKeys (PublicKeysToAdd s) ∅ with
      | Err err => Some err
      | Ok publicKeys =>
          match checkServiceIDsToRemove (ServiceIDsToRemove s) services with
          | Some err => Some err
          | None => checkPublicKeyIDsToRemove (PublicKeyIDsToRemove s) publicKeys
          end
      end
  end.

(** The patches of an update, in the order the builder appends them. *)
Definition updatePatches (stateChange : StateChange) : list Patch :=
  let patches := [] in
  let patches :=
    if (0 <? List.length (ServicesToAdd stateChange))%nat then
      patches ++ [AddServicesAction AddServices (ServicesToAdd stateChange)]
    else patches in
  let patches :=
    if (0 <? List.length (ServiceIDsToRemove stateChange))%nat then
      patches ++ [RemoveServicesAction RemoveServices (ServiceIDsToRemove stateChange)]
    else patches in
  let patches :=
    if (0 <? List.length (PublicKeysToAdd stateChange))%nat then
      patches ++ [AddPublicKeysAction AddPublicKeys (PublicKeysToAdd stateChange)]
    else patches in
  let patches :=
    if (0 <? List.length (PublicKeyIDsToRemove stateChange))%nat then
      patches ++ [RemovePublicKeysAction RemovePublicKeys (PublicKeyIDsToRemove stateChange)]
    else patches in
  patches.

Definition NewUpdateRequest (didSuffix : string) (updateKey nextUpdateKey : PublicKeyJWK)
           (signer : BTCSignerVerifier) (stateChange : StateChange)
  : M (result UpdateRequest) :=
  match IsValid stateChange with
  | Some err => ret (Err err)
  | None =>
      (let patches := updatePatches stateChange in
       uc <- Commit updateKey ;;
       let revealValue := fst uc in
       nuc <- Commit nextUpdateKey ;;
       let nextUpdateCommitment := snd nuc in
       let delta := {| UpdateCommitment := nextUpdateCommitment; Patches := patches |} in
       deltaCanonical <- lift (CanonicalizeAny delta) ;;
       deltaHash <- HashEncode deltaCanonical ;;
       let toBeSigned := {| usd_UpdateKey := updateKey; usd_DeltaHash := deltaHash |} in
       signedJWT <- SignJWT signer toBeSigned ;;
       ret (Ok {| UpdateRequest_Type := Update;
                  UpdateRequest_DIDSuffix := didSuffix;
                  UpdateRequest_RevealValue := revealValue;
                  UpdateRequest_Delta := delta;
                  UpdateRequest_SignedData := signedJWT |}))%ion
  end.

End Ion.

(** ** Vocabulary of the statements *)
Section Vocabulary.

Context {L : Libraries}.

(** The addition lists of a state change pass their checks: ids are unique
    within each list and at most [maxIDLength] long, service types at most
    [maxServiceTypeLength] long. *)
Definition additionsValid (s : StateChange) : Prop :=
  NoDup (map Service_ID (ServicesToAdd s))
  /\ Forall (fun service => len (Service_ID service) <= maxIDLength
                            /\ len (Service_Type service) <= maxServiceTypeLength)
            (ServicesToAdd s)
  /\ NoDup (map PublicKey_ID (PublicKeysToAdd s))
  /\ Forall (fun publicKey => len (PublicKey_ID publicKey) <= maxIDLength)
            (PublicKeysToAdd s).

(** A removal id the scan of a removal list lets through: it is not the id of
    an addition and is at most [maxIDLength] long. *)
Definition removable (added : list string) (id : string) : Prop :=
  ~ In id added /\ len id <= maxIDLength.

(** An error message references an id when the id occurs in it. *)
Definition references (err : error) (id : string) : Prop :=
  strings.Contains err id = true.

(** The four patch categories of an update in their wire order, and whether
    a state change asks for a category. *)
Definition updateOrder : list PatchAction :=
  [AddServices; RemoveServices; AddPublicKeys; RemovePublicKeys].

Definition requested (s : StateChange) (a : PatchAction) : bool :=
  match a with
  | AddServices => negb (List.length (ServicesToAdd s) =? 0)%nat
  | RemoveServices => negb (List.length (ServiceIDsToRemove s) =? 0)%nat
  | AddPublicKeys => negb (List.length (PublicKeysToAdd s) =? 0)%nat
  | RemovePublicKeys => negb (List.length (PublicKeyIDsToRemove s) =? 0)%nat
  | Replace => false
  end.

(** The number of entries a patch carries. *)
Definition patchSize (p : Patch) : nat :=
  match p with
  | ReplaceAction _ _ => 1
  | AddServicesAction _ services => List.length services
  | RemoveServicesAction _ ids => List.length ids
  | AddPublicKeysAction _ publicKeys => List.length publicKeys
  | RemovePublicKeysAction _ ids => List.length ids
  end.

(** The step of [SignJWT] that signs fails: the header or the payload cannot
    be encoded, or [Sign] returns an error on the digest of the signing
    input. *)
Definition signingFails {T : Type} (sv : BTCSignerVerifier) (data : T) : Prop :=
  match EncodeAny (GetJWSHeader sv), EncodeAny data with
  | Ok encodedHeader, Ok encodedPayload =>
      is_Ok (Sign sv (Hash (bytes_of_string
                              (encodedHeader +:+ "." +:+ encodedPayload)))) = false
  | _, _ => True
  end.

End Vocabulary.

(** ** Two instances of the libraries for the examples

    Stand-ins with the interfaces of the real libraries, small enough to
    compute with.  [libraries] signs every digest with the same pair;
    [unsignable] differs in that [ecdsa.Sign] returns an error. *)
Module Sample.

Definition digest (data : list byte) : list byte :=
  byte_of_Z (Z.of_nat (List.length data)) :: firstn 3 data.

Definition frame (buf : list byte) (code : Z) : result (list byte) :=
  Ok (byte_of_Z code :: byte_of_Z (Z.of_nat (List.length buf)) :: buf).

Definition libraries : Libraries := {|
  sha256_Sum256 := digest;
  multihash_Encode := frame;
  json_Marshal := fun _ _ => Ok (bytes_of_string "{}");
  jcs_Transform := fun data => Ok data;
  PublicKeyJWK := string;
  JWK := string;
  JWKFromPublicKeyJWK := fun key => Ok key;
  ecdsa_PublicKey := unit;
  ecdsa_PrivateKey := unit;
  ecdsa_Sign := fun _ _ => Ok (1, 2);
  ecdsa_VerifyASN1 := fun _ _ _ => false;
  Document := unit;
  ServiceEndpoint := string
|}.

Definition unsignable : Libraries := {|
  sha256_Sum256 := digest;
  multihash_Encode := frame;
  json_Marshal := fun _ _ => Ok (bytes_of_string "{}");
  jcs_Transform := fun data => Ok data;
  PublicKeyJWK := string;
  JWK := string;
  JWKFromPublicKeyJWK := fun key => Ok key;
  ecdsa_PublicKey := unit;
  ecdsa_PrivateKey := unit;
  ecdsa_Sign := fun _ _ => Err "ecdsa: could not sign";
  ecdsa_VerifyASN1 := fun _ _ _ => false;
  Document := unit;
  ServiceEndpoint := string
|}.

Definition signer : @BTCSignerVerifier libraries :=
  @Build_BTCSignerVerifier libraries tt tt.

Definition deadSigner : @BTCSignerVerifier unsignable :=
  @Build_BTCSignerVerifier unsignable tt tt.

Definition service (id : string) : @Service libraries :=
  @Build_Service libraries id "LinkedDomains" "https://example.com".

Definition key (id : string) : @PublicKey libraries :=
  @Build_PublicKey libraries id "JsonWebKey2020" "jwk" ["authentication"].

(** A removal id of 51 characters. *)
Definition longID : string := fmt.zeros 51.

(** Adds a service and a key, removes nothing. *)
Definition additions : @StateChange libraries :=
  {| ServicesToAdd := [service "svc1"]; ServiceIDsToRemove := [];
     PublicKeysToAdd := [key "key1"]; PublicKeyIDsToRemove := [] |}.

(** Adds and removes the service "svc1". *)
Definition contradiction : @StateChange libraries :=
  {| ServicesToAdd := [service "svc1"]; ServiceIDsToRemove := ["svc1"];
     PublicKeysToAdd := []; PublicKeyIDsToRemove := [] |}.

(** Adds and removes "svc1", after an over-long removal id. *)
Definition shadowed : @StateChange libraries :=
  {| ServicesToAdd := [service "svc1"]; ServiceIDsToRemove := [longID; "svc1"];
     PublicKeysToAdd := []; PublicKeyIDsToRemove := [] |}.


(** The signature [toCompactHex 1 2] and the JWS [signer] makes of any
    payload. *)
Definition signature : list byte :=
  repeat x00 31 ++ [x01] ++ repeat x00 31 ++ [x02].

Definition jws : string :=
  "e30.e30.AAAAAAAAAAAAAAAAAAAAAAAAAAAAAAAAAAAAAAAAAAEAAAAAAAAAAAAAAAAAAAAAAAAAAAAAAAAAAAAAAAAAAg".

(** The update request built from [additions]. *)
Definition updated : @UpdateRequest libraries :=
  @Build_UpdateRequest libraries Update "abc123" "EgMCe30"
    (@Build_Delta libraries "EgQDAnt9"
       [AddServicesAction AddServices [service "svc1"];
        AddPublicKeysAction AddPublicKeys [key "key1"]])
    jws.

(** The deactivate request built with [deadSigner]. *)
Definition unsigned : DeactivateRequest :=
  Build_DeactivateRequest Deactivate "abc123" "EgMCe30" "".

End Sample.

(** ** Package crypto: the message rows of the BBS+ signer and verifier *)
Module bbs.

(** [string(b)] *)
Definition string_of_bytes (b : list byte) : string := string_of_list_byte b.

(** A slice expression [s[a:b]] on a string; [None] is the run-time panic of
    a slice out of range. *)
Definition slice (s : string) (a b : Z) : option string :=
  if (0 <=? a) && (a <=? b) && (b <=? len s)
  then Some (substring (Z.to_nat a) (Z.to_nat (b - a)) s)
  else None.

Definition emptyNodePlaceholder : string := "<urn:bnid:_:c14n".
Definition emptyNodePrefixLen : Z := 10.

(** [transformFromBlankNode]; [None] when one of its slice expressions
    panics. *)
Definition transformFromBlankNode (row : string) : option string :=
  let prefixIndex := strings.Index row emptyNodePlaceholder in
  if prefixIndex <? 0 then Some row
  else
    match slice row prefixIndex (len row) with
    | None => None
    | Some tail =>
        let sepIndex := strings.Index tail ">" in
        if sepIndex <? 0 then Some row
        else
          let sepIndex := sepIndex + prefixIndex in
          match slice row 0 prefixIndex,
                slice row (prefixIndex + emptyNodePrefixLen) sepIndex,
                slice row (sepIndex + 1) (len row) with
          | Some prefix, Some blankNode, Some suffix =>
              Some (prefix +:+ blankNode +:+ suffix)
          | _, _, _ => None
          end
    end.

(** The loop of [prepareBBSMessage] over the rows: blank rows are skipped. *)
Fixpoint messageRows (rows : list string) : list (list byte) :=
  match rows with
  | [] => []
  | row :: rest =>
      if String.eqb (strings.TrimSpace row) "" then messageRows rest
      else bytes_of_string row :: messageRows rest
  end.

Definition prepareBBSMessage (msg : list byte) : list (list byte) :=
  let rows := strings.Split (string_of_bytes msg) "010" in
  messageRows rows.

(** The loop of [prepareBBSDerivedMessage]: the rows kept are transformed. *)
Fixpoint derivedMessageRows (rows : list string) : option (list (list byte)) :=
  match rows with
  | [] => Some []
  | row :: rest =>
      if String.eqb (strings.TrimSpace row) "" then derivedMessageRows rest
      else
        match transformFromBlankNode row with
        | None => None
        | Some row' =>
            match derivedMessageRows rest with
            | None => None
            | Some msgs => Some (bytes_of_string row' :: msgs)
            end
        end
  end.

Definition prepareBBSDerivedMessage (msg : list byte) : option (list (list byte)) :=
  let rows := strings.Split (string_of_bytes msg) "010" in
  derivedMessageRows rows.

End bbs.

(** ** Commit over libraries that have a state

    Whether [Commit] depends on the order of calls or on a hidden state is
    not a question the libraries above can be asked: they are functions.
    Here every library call reads a state of the world (caches, pools, the
    logger, anything a library keeps between calls) and leaves a new one, and
    [Commit] and the functions it calls thread that state in the order of the
    source.  [json.Marshal] is the one on a JWK, the only value [Commit]
    marshals. *)
Module stateful.

Class Libraries : Type := {
  World : Type;
  PublicKeyJWK : Type;
  JWK : Type;
  JWKFromPublicKeyJWK : PublicKeyJWK -> World -> result JWK * World;
  json_Marshal : JWK -> World -> result (list byte) * World;
  jcs_Transform : list byte -> World -> result (list byte) * World;
  sha256_Sum256 : list byte -> World -> list byte * World;
  multihash_Encode : list byte -> Z -> World -> result (list byte) * World;
  logrus_Error : string -> error -> World -> World
}.

Section Commit.

Context {L : Libraries}.

Definition M (A : Type) : Type := World -> A * World.

Definition ret {A} (a : A) : M A := fun w => (a, w).

(** [if err != nil { return err }] *)
Definition bind {A B} (m : M (result A)) (k : A -> M (result B)) : M (result B) :=
  fun w =>
    match m w with
    | (Ok a, w') => k a w'
    | (Err e, w') => (Err e, w')
    end.

(** [if err != nil { logrus.WithError(err).Error(msg); return err }] *)
Definition logged {A} (msg : string) (m : M (result A)) : M (result A) :=
  fun w =>
    match m w with
    | (Err e, w') => (Err e, logrus_Error msg e w')
    | (Ok a, w') => (Ok a, w')
    end.

Definition Hash (data : list byte) : M (list byte) := sha256_Sum256 data.

Definition Multihash (data : list byte) : M (result (list byte)) :=
  fun w =>
    let (hashed, w1) := sha256_Sum256 data w in
    logged "could not multi-hash the given data" (multihash_Encode hashed SHA2_256) w1.

Definition HashEncode (data : list byte) : M (result string) :=
  bind (Multihash data) (fun hashed => ret (Ok (Encode hashed))).

Definition Canonicalize (data : list byte) : M (result (list byte)) := jcs_Transform data.

Definition CanonicalizeAny (data : JWK) : M (result (list byte)) :=
  bind (json_Marshal data) (fun anyBytes => Canonicalize anyBytes).

Definition Commit (key : PublicKeyJWK) : M (result (string * string)) :=
  bind (JWKFromPublicKeyJWK key) (fun gotJWK =>
  bind (logged "could not canonicalize JWK" (CanonicalizeAny gotJWK)) (fun canonicalKey =>
  fun w =>
    let (intermediateHash, w1) := Hash canonicalKey w in
    bind (logged "could not generate reveal value" (HashEncode canonicalKey))
         (fun reveal =>
    bind (logged "could not generate commitment value" (HashEncode intermediateHash))
         (fun commitment =>
    ret (Ok (reveal, commitment)))) w1)).



End Commit.

End stateful.

(** The libraries of the package seen as libraries with a state: the state
    is the log, which only the logger changes. *)
Definition withLog (L : Libraries) : stateful.Libraries := {|
  stateful.World := Log;
  stateful.PublicKeyJWK := PublicKeyJWK;
  stateful.JWK := JWK;
  stateful.JWKFromPublicKeyJWK := fun key l => (JWKFromPublicKeyJWK key, l);
  stateful.json_Marshal := fun gotJWK l => (json_Marshal JWK gotJWK, l);
  stateful.jcs_Transform := fun data l => (jcs_Transform data, l);
  stateful.sha256_Sum256 := fun data l => (sha256_Sum256 data, l);
  stateful.multihash_Encode := fun buf code l => (multihash_Encode buf code, l);
  stateful.logrus_Error := logError
|}.

(** ** Package crypto: the BBS+ verifier

    The pairing library [bbs12381g2pub] is taken as it is: the marshalling of
    a public key and [Verify] on a list of messages, a signature and the
    bytes of a public key.  A verifier holds a key: the nil pointer is not
    among the values. *)
Module crypto.

Class Pairing : Type := {
  bbsg2_PublicKey : Type;
  bbsg2_PublicKey_Marshal : bbsg2_PublicKey -> result (list byte);
  bls_Verify : list (list byte) -> list byte -> list byte -> option error
}.

Section Verifier.

Context {P : Pairing}.

Record BBSPlusVerifier : Type := {
  KID : string;
  PublicKey : bbsg2_PublicKey
}.

Definition NewBBSPlusVerifier (kid : string) (pubKey : bbsg2_PublicKey) : BBSPlusVerifier :=
  {| KID := kid; PublicKey := pubKey |}.

Definition GetKeyID (v : BBSPlusVerifier) : string := KID v.

Definition Verify (v : BBSPlusVerifier) (message signature : list byte) : option error :=
  match bbsg2_PublicKey_Marshal (PublicKey v) with
  | Err err => Some err
  | Ok pubKeyBytes => bls_Verify (bbs.prepareBBSMessage message) signature pubKeyBytes
  end.

(** [VerifyDerived]; the outer [None] is a panic of
    [prepareBBSDerivedMessage], which runs after the key is marshalled. *)
Definition VerifyDerived (v : BBSPlusVerifier) (message signature : list byte)
  : option (option error) :=
  match bbsg2_PublicKey_Marshal (PublicKey v) with
  | Err err => Some (Some err)
  | Ok pubKeyBytes =>
      match bbs.prepareBBSDerivedMessage message with
      | None => None
      | Some messages => Some (bls_Verify messages signature pubKeyBytes)
      end
  end.

Definition VerifyMultiple (v : BBSPlusVerifier) (signature : list byte)
           (messages : list (list byte)) : option error :=
  match bbsg2_PublicKey_Marshal (PublicKey v) with
  | Err err => Some err
  | Ok pubKeyBytes => bls_Verify messages signature pubKeyBytes
  end.

(** The utility functions build a verifier without a key id. *)
Definition VerifyBBSMessage (pubKey : bbsg2_PublicKey) (signature message : list byte)
  : option error :=
  let verifier := {| KID := ""; PublicKey := pubKey |} in
  Verify verifier message signature.

Definition VerifyDerivedBBSMessage (pubKey : bbsg2_PublicKey) (signature message : list byte)
  : option (option error) :=
  let verifier := {| KID := ""; PublicKey := pubKey |} in
  VerifyDerived verifier message signature.

End Verifier.

End crypto.

(** ** Big-endian bytes and hexadecimal digits *)

(** [num.FillBytes(make([]byte, n))]: the [n] low bytes of [num], the most
    significant first. *)
Fixpoint bigEndian (n : nat) (num : Z) : list byte :=
  match n with
  | O => []
  | S n' => byte_of_Z (Z.shiftr num (8 * Z.of_nat n')) :: bigEndian n' num
  end.

(** Hexadecimal digits, for the text [toCompactHex] goes through. *)
Module hex.

Import HexadecimalFacts.

(** A digit: its value and the character [fmt] prints for it. *)
Definition digitValue (d : digits) : Z :=
  match d with
  | d0 => 0 | d1 => 1 | d2 => 2 | d3 => 3 | d4 => 4 | d5 => 5 | d6 => 6 | d7 => 7
  | d8 => 8 | d9 => 9 | da => 10 | db => 11 | dc => 12 | dd => 13 | de => 14 | df => 15
  end.

Definition digitChar (d : digits) : ascii :=
  match d with
  | d0 => "0" | d1 => "1" | d2 => "2" | d3 => "3" | d4 => "4" | d5 => "5" | d6 => "6"
  | d7 => "7" | d8 => "8" | d9 => "9" | da => "a" | db => "b" | dc => "c" | dd => "d"
  | de => "e" | df => "f"
  end%char.

(** The string of a list of digits. *)
Fixpoint render (l : list digits) : string :=
  match l with
  | [] => ""
  | d :: l' => String (digitChar d) (render l')
  end.

(** The value of a list of digits, the most significant first. *)
Definition digitsValue (l : list digits) : Z :=
  fold_left (fun acc d => 16 * acc + digitValue d) l 0.

(** The bytes two digits each make. *)
Fixpoint pairs (l : list digits) : list byte :=
  match l with
  | a :: b :: l' => byte_of_Z (16 * digitValue a + digitValue b) :: pairs l'
  | _ => []
  end.

(** The digits [fmt] prints for a number that is not negative. *)
Definition hexDigits (num : Z) : list digits :=
  match to_list (N.to_hex_uint (Z.to_N num)) with
  | [] => [d0]
  | l => l
  end.

End hex.

(** ** Vocabulary of the statements on signed data *)
Section SignedData.

Context {L : Libraries}.

(** [jws] is a compact JWS that [sv] makes of [data]: exactly three
    segments; the first decodes to the JSON of the header, the second to the
    JSON of [data], the third to the signature [Sign] makes of the hash of
    the first two segments joined by a dot. *)
Definition signedBy {T : Type} (sv : BTCSignerVerifier) (data : T) (jws : string) : Prop :=
  exists h p g headerBytes payloadBytes signed,
    strings.Split jws "." = [h; p; g]
    /\ json_Marshal _ (GetJWSHeader sv) = Ok headerBytes /\ Decode h = Ok headerBytes
    /\ json_Marshal T data = Ok payloadBytes /\ Decode p = Ok payloadBytes
    /\ Sign sv (Hash (bytes_of_string (h +:+ "." +:+ p))) = Ok signed
    /\ Decode g = Ok signed.

(** [deltaHash] is the hash of [delta]: the encoded multihash frame of the
    digest of its canonical JSON. *)
Definition hashOfDelta (delta : Delta) (deltaHash : string) : Prop :=
  exists deltaCanonical multiHashed,
    CanonicalizeAny delta = Ok deltaCanonical
    /\ multihash_Encode (sha256_Sum256 deltaCanonical) SHA2_256 = Ok multiHashed
    /\ deltaHash = Encode multiHashed.

End SignedData.

(** ** Further instances for the examples *)
Module Fixture.

(** The libraries of [Sample.libraries] with a verifier that accepts every
    signature. *)
Definition credulous : Libraries := {|
  sha256_Sum256 := Sample.digest;
  multihash_Encode := Sample.frame;
  json_Marshal := fun _ _ => Ok (bytes_of_string "{}");
  jcs_Transform := fun data => Ok data;
  PublicKeyJWK := string;
  JWK := string;
  JWKFromPublicKeyJWK := fun key => Ok key;
  ecdsa_PublicKey := unit;
  ecdsa_PrivateKey := unit;
  ecdsa_Sign := fun _ _ => Ok (1, 2);
  ecdsa_VerifyASN1 := fun _ _ _ => true;
  Document := unit;
  ServiceEndpoint := string
|}.

Definition verifier : @BTCSignerVerifier credulous :=
  @Build_BTCSignerVerifier credulous tt tt.

(** Adds the service "svc1" twice. *)
Definition duplicated : @StateChange Sample.libraries :=
  {| ServicesToAdd := [Sample.service "svc1"; Sample.service "svc1"];
     ServiceIDsToRemove := []; PublicKeysToAdd := []; PublicKeyIDsToRemove := [] |}.

(** Adds a key whose id has 51 characters after a valid one. *)
Definition longKey : @StateChange Sample.libraries :=
  {| ServicesToAdd := [Sample.service "svc1"]; ServiceIDsToRemove := [];
     PublicKeysToAdd := [Sample.key "key1"; Sample.key Sample.longID];
     PublicKeyIDsToRemove := [] |}.

(** The requests the builders return with [Sample.libraries]. *)
Definition created : @CreateRequest Sample.libraries :=
  @Build_CreateRequest Sample.libraries Create
    (Build_SuffixData "EgMCe30" "EgQDAnt9")
    (@Build_Delta Sample.libraries "EgQDAnt9" [@ReplaceAction Sample.libraries Replace tt]).

Definition recovered : @RecoverRequest Sample.libraries :=
  @Build_RecoverRequest Sample.libraries Recover "abc123" "EgMCe30"
    (@Build_Delta Sample.libraries "EgQDAnt9" [@ReplaceAction Sample.libraries Replace tt])
    Sample.jws.

Definition deactivated : DeactivateRequest :=
  Build_DeactivateRequest Deactivate "abc123" "EgMCe30" Sample.jws.


(** The same with a digest that is salted with the number of calls made: a
    library that is not deterministic. *)
Definition salted : stateful.Libraries := {|
  stateful.World := nat;
  stateful.PublicKeyJWK := string;
  stateful.JWK := string;
  stateful.JWKFromPublicKeyJWK := fun key calls => (Ok key, S calls);
  stateful.json_Marshal := fun _ calls => (Ok (bytes_of_string "{}"), S calls);
  stateful.jcs_Transform := fun data calls => (Ok data, S calls);
  stateful.sha256_Sum256 := fun data calls =>
    (byte_of_Z (Z.of_nat calls) :: Sample.digest data, S calls);
  stateful.multihash_Encode := fun buf code calls => (Sample.frame buf code, S calls);
  stateful.logrus_Error := fun _ _ calls => S calls
|}.

(** A stand-in for the pairing library: a key is its own bytes, and a
    signature is accepted when it is the concatenation of the messages. *)
Definition pairing : crypto.Pairing := {|
  crypto.bbsg2_PublicKey := list byte;
  crypto.bbsg2_PublicKey_Marshal := fun key => Ok key;
  crypto.bls_Verify := fun messages signature _ =>
    if String.eqb (string_of_list_byte (concat messages)) (string_of_list_byte signature)
    then None else Some "invalid BLS12-381 signature"
|}.

Definition bbsVerifier : @crypto.BBSPlusVerifier pairing :=
  @crypto.Build_BBSPlusVerifier pairing "key-1" [].

(** Two statements, neither with a blank node placeholder. *)
Definition statements : list byte :=
  bytes_of_string ("<s> <p> <o> ." +:+ String "010" "<s> <q> <o> .").

End Fixture.

(** * Properties *)

(** ** Bytes *)

Lemma Z_of_byte_range (b : byte) : 0 <= Z_of_byte b < 256.
Proof.
  unfold Z_of_byte. pose proof (Byte.to_N_bounded b). lia.
Qed.

Lemma byte_of_Z_spec (z : Z) (b : byte) :
  z mod 256 = Z_of_byte b -> byte_of_Z z = b.
Proof.
  intros H. unfold byte_of_Z. rewrite H. unfold Z_of_byte.
  rewrite N2Z.id, Byte.of_to_N. reflexivity.
Qed.

Lemma Z_of_byte_low8 (b : byte) : Z.land (Z_of_byte b) (Z.ones 8) = Z_of_byte b.
Proof.
  rewrite Z.land_ones by lia. apply Z.mod_small.
  pose proof (Z_of_byte_range b). change (2 ^ 8) with 256. lia.
Qed.

(** ** base64: the alphabet *)

Lemma land_63_range (z : Z) : 0 <= Z.land z 63 < 64.
Proof.
  change 63 with (Z.ones 6). rewrite Z.land_ones by lia.
  change (2 ^ 6) with 64. apply Z.mod_pos_bound. lia.
Qed.

Lemma decodeMap_encode (v : Z) :
  0 <= v < 64 -> base64.decodeMap (base64.encode v) = v.
Proof.
  intros Hv. rewrite <- (Z2Nat.id v) by lia.
  assert (Hn : (Z.to_nat v < 64)%nat) by lia.
  revert Hn. generalize (Z.to_nat v). intros n Hn.
  do 64 (destruct n as [|n]; [reflexivity|]). lia.
Qed.

(** Every character the encoder emits is a letter, a digit, "-" or "_": it is
    neither the separator of a compact JWS nor a line break. *)
Lemma encode_not_dot (v : Z) : 0 <= v < 64 -> Ascii.eqb (base64.encode v) "." = false.
Proof.
  intros Hv. rewrite <- (Z2Nat.id v) by lia.
  assert (Hn : (Z.to_nat v < 64)%nat) by lia.
  revert Hn. generalize (Z.to_nat v). intros n Hn.
  do 64 (destruct n as [|n]; [reflexivity|]). lia.
Qed.

Lemma sextet_not_dot (val k : Z) : Ascii.eqb (base64.sextet val k) "." = false.
Proof. apply encode_not_dot, land_63_range. Qed.

(** ** base64: decoding what the encoder wrote *)

Lemma decode_sextet (val k : Z) (rest : string) (si : Z) (dbuf : list Z) :
  base64.decode (String (base64.sextet val k) rest) si dbuf =
  if (List.length (dbuf ++ [Z.land (Z.shiftr val k) 63]) =? 4)%nat then
    match base64.decode rest (si + 1) [] with
    | Ok tl => Ok (base64.assemble (dbuf ++ [Z.land (Z.shiftr val k) 63]) ++ tl)
    | Err e => Err e
    end
  else base64.decode rest (si + 1) (dbuf ++ [Z.land (Z.shiftr val k) 63]).
Proof.
  pose proof (land_63_range (Z.shiftr val k)) as Hr.
  cbn [base64.decode]. unfold base64.sextet.
  rewrite decodeMap_encode by exact Hr.
  destruct (Z.eqb_spec (Z.land (Z.shiftr val k) 63) 255) as [E|_]; [lia|].
  reflexivity.
Qed.

(** Packing the four six-bit groups of a number gives its low 24 bits. *)
Lemma join_sextets (v : Z) :
  Z.lor (Z.lor (Z.lor (Z.shiftl (Z.land (Z.shiftr v 18) 63) 18)
                      (Z.shiftl (Z.land (Z.shiftr v 12) 63) 12))
               (Z.shiftl (Z.land (Z.shiftr v 6) 63) 6))
        (Z.land (Z.shiftr v 0) 63)
  = Z.land v (Z.ones 24).
Proof.
  rewrite Z.shiftr_0_r. change 63 with (Z.ones 6). Z.bitblast.
Qed.

(** The three bytes of a quantum are its bits 16-23, 8-15 and 0-7. *)
Lemma quantum_bytes (x0 x1 x2 : Z) :
  0 <= x0 < 256 -> 0 <= x1 < 256 -> 0 <= x2 < 256 ->
  let val := Z.lor (Z.lor (Z.shiftl x0 16) (Z.shiftl x1 8)) x2 in
  Z.land val (Z.ones 24) = val
  /\ Z.shiftr val 16 mod 256 = x0 /\ Z.shiftr val 8 mod 256 = x1 /\ val mod 256 = x2.
Proof.
  intros H0 H1 H2 val. subst val.
  assert (E0 : Z.land x0 (Z.ones 8) = x0)
    by (rewrite Z.land_ones by lia; apply Z.mod_small; change (2 ^ 8) with 256; lia).
  assert (E1 : Z.land x1 (Z.ones 8) = x1)
    by (rewrite Z.land_ones by lia; apply Z.mod_small; change (2 ^ 8) with 256; lia).
  assert (E2 : Z.land x2 (Z.ones 8) = x2)
    by (rewrite Z.land_ones by lia; apply Z.mod_small; change (2 ^ 8) with 256; lia).
  change 256 with (2 ^ 8).
  rewrite <- !Z.land_ones by lia.
  rewrite <- E0, <- E1, <- E2.
  repeat split; Z.bitblast.
Qed.

Lemma pack_sextets (x0 x1 x2 : Z) :
  0 <= x0 < 256 -> 0 <= x1 < 256 -> 0 <= x2 < 256 ->
  let val := Z.lor (Z.lor (Z.shiftl x0 16) (Z.shiftl x1 8)) x2 in
  let val' := Z.lor (Z.lor (Z.lor (Z.shiftl (Z.land (Z.shiftr val 18) 63) 18)
                                  (Z.shiftl (Z.land (Z.shiftr val 12) 63) 12))
                           (Z.shiftl (Z.land (Z.shiftr val 6) 63) 6))
                    (Z.land (Z.shiftr val 0) 63) in
  Z.shiftr val' 16 mod 256 = x0 /\ Z.shiftr val' 8 mod 256 = x1 /\ val' mod 256 = x2.
Proof.
  intros H0 H1 H2 val val'.
  destruct (quantum_bytes x0 x1 x2 H0 H1 H2) as (E & B0 & B1 & B2). fold val in E, B0, B1, B2.
  assert (Hv : val' = val) by (unfold val'; rewrite join_sextets; exact E).
  rewrite Hv. auto.
Qed.

Lemma assemble_three (b0 b1 b2 : byte) :
  let val := Z.lor (Z.lor (Z.shiftl (Z_of_byte b0) 16) (Z.shiftl (Z_of_byte b1) 8))
                   (Z_of_byte b2) in
  base64.assemble [Z.land (Z.shiftr val 18) 63; Z.land (Z.shiftr val 12) 63;
                   Z.land (Z.shiftr val 6) 63; Z.land (Z.shiftr val 0) 63]
  = [b0; b1; b2].
Proof.
  intros val. unfold base64.assemble. cbn [List.length Nat.sub firstn nth].
  destruct (pack_sextets _ _ _ (Z_of_byte_range b0) (Z_of_byte_range b1)
                         (Z_of_byte_range b2)) as (E0 & E1 & E2).
  fold val in E0, E1, E2.
  f_equal; [|f_equal; [|f_equal]]; apply byte_of_Z_spec; assumption.
Qed.

(** A final group of three or two six-bit values keeps the bits of the bytes
    it stands for. *)
Lemma join_sextets_3 (v : Z) :
  let v' := Z.lor (Z.lor (Z.shiftl (Z.land (Z.shiftr v 18) 63) 18)
                         (Z.shiftl (Z.land (Z.shiftr v 12) 63) 12))
                  (Z.shiftl (Z.land (Z.shiftr v 6) 63) 6) in
  Z.shiftr v' 16 mod 256 = Z.shiftr v 16 mod 256
  /\ Z.shiftr v' 8 mod 256 = Z.shiftr v 8 mod 256.
Proof.
  intros v'. subst v'. change 256 with (2 ^ 8). change 63 with (Z.ones 6).
  rewrite <- !Z.land_ones by lia. split; Z.bitblast.
Qed.

Lemma join_sextets_2 (v : Z) :
  let v' := Z.lor (Z.shiftl (Z.land (Z.shiftr v 18) 63) 18)
                  (Z.shiftl (Z.land (Z.shiftr v 12) 63) 12) in
  Z.shiftr v' 16 mod 256 = Z.shiftr v 16 mod 256.
Proof.
  intros v'. subst v'. change 256 with (2 ^ 8). change 63 with (Z.ones 6).
  rewrite <- !Z.land_ones by lia. Z.bitblast.
Qed.

Lemma assemble_two (b0 b1 : byte) :
  let val := Z.lor (Z.shiftl (Z_of_byte b0) 16) (Z.shiftl (Z_of_byte b1) 8) in
  base64.assemble [Z.land (Z.shiftr val 18) 63; Z.land (Z.shiftr val 12) 63;
                   Z.land (Z.shiftr val 6) 63]
  = [b0; b1].
Proof.
  intros val. unfold base64.assemble. cbn [List.length Nat.sub firstn nth].
  rewrite Z.lor_0_r.
  destruct (join_sextets_3 val) as (E0 & E1).
  destruct (quantum_bytes _ _ 0 (Z_of_byte_range b0) (Z_of_byte_range b1) ltac:(lia))
    as (_ & B0 & B1 & _).
  rewrite Z.lor_0_r in B0, B1. fold val in B0, B1.
  f_equal; [|f_equal]; apply byte_of_Z_spec; congruence.
Qed.

Lemma assemble_one (b0 : byte) :
  let val := Z.shiftl (Z_of_byte b0) 16 in
  base64.assemble [Z.land (Z.shiftr val 18) 63; Z.land (Z.shiftr val 12) 63] = [b0].
Proof.
  intros val. unfold base64.assemble. cbn [List.length Nat.sub firstn nth].
  rewrite Z.shiftl_0_l, !Z.lor_0_r.
  pose proof (join_sextets_2 val) as E0.
  destruct (quantum_bytes _ 0 0 (Z_of_byte_range b0) ltac:(lia) ltac:(lia))
    as (_ & B0 & _).
  rewrite Z.shiftl_0_l, !Z.lor_0_r in B0. fold val in B0.
  f_equal. apply byte_of_Z_spec. congruence.
Qed.

(** Induction over a list three elements at a time. *)
Lemma list_ind_by_3 {A : Type} (P : list A -> Prop) :
  P [] -> (forall a, P [a]) -> (forall a b, P [a; b]) ->
  (forall a b c l, P l -> P (a :: b :: c :: l)) ->
  forall l, P l.
Proof.
  intros H0 H1 H2 H3.
  fix IH 1. intros [|a [|b [|c l]]];
    [apply H0 | apply H1 | apply H2 | apply H3, IH].
Qed.

(** The decoder reads back what the encoder wrote, from any offset. *)
Lemma decode_EncodeToString (src : list byte) (si : Z) :
  base64.decode (base64.EncodeToString src) si [] = Ok src.
Proof.
  revert si. induction src as [|b0|b0 b1|b0 b1 b2 rest IH] using list_ind_by_3; intros si.
  - reflexivity.
  - cbn [base64.EncodeToString]. rewrite !decode_sextet. cbn [app List.length Nat.eqb].
    cbn [base64.decode]. rewrite assemble_one. reflexivity.
  - cbn [base64.EncodeToString]. rewrite !decode_sextet. cbn [app List.length Nat.eqb].
    cbn [base64.decode]. rewrite assemble_two. reflexivity.
  - cbn [base64.EncodeToString]. rewrite !decode_sextet. cbn [app List.length Nat.eqb].
    rewrite IH, assemble_three. reflexivity.
Qed.

Lemma DecodeString_EncodeToString (src : list byte) :
  base64.DecodeString (base64.EncodeToString src) = Ok src.
Proof. apply decode_EncodeToString. Qed.

Lemma mod4_shift (n : nat) : ((4 + n) mod 4 = n mod 4)%nat.
Proof.
  rewrite (Nat.Div0.add_mod 4), Nat.Div0.mod_same, Nat.add_0_l, Nat.Div0.mod_mod.
  reflexivity.
Qed.

(** What the decoder accepts, said without running it: every byte is of the
    alphabet or a line break, and the bytes of the alphabet do not leave a
    final group of one. *)
Lemma decode_is_Ok (s : string) (si : Z) (dbuf : list Z) :
  (List.length dbuf < 4)%nat ->
  is_Ok (base64.decode s si dbuf) =
  forallb (fun c => base64.inAlphabet c || base64.isNewline c) (list_ascii_of_string s)
  && negb ((List.length dbuf + base64.countAlphabet s) mod 4 =? 1)%nat.
Proof.
  revert si dbuf. induction s as [|c rest IH]; intros si dbuf Hlen.
  - cbn [base64.decode list_ascii_of_string forallb base64.countAlphabet andb].
    destruct dbuf as [|d0 [|d1 [|d2 [|d3 dbuf]]]]; cbn [List.length] in *;
      try reflexivity; lia.
  - cbn [base64.decode list_ascii_of_string forallb base64.countAlphabet].
    unfold base64.inAlphabet at 1 3.
    destruct (base64.decodeMap c =? 255); cbn [negb orb].
    + destruct (base64.isNewline c); cbn [andb]; [|reflexivity].
      rewrite IH by exact Hlen. reflexivity.
    + rewrite length_app. cbn [List.length andb].
      destruct (Nat.eqb_spec (List.length dbuf + 1) 4) as [E|E].
      * pose proof (IH (si + 1) (@nil Z) ltac:(simpl; lia)) as IH0.
        cbn [List.length Nat.add] in IH0.
        replace (List.length dbuf + (1 + base64.countAlphabet rest))%nat
          with (4 + base64.countAlphabet rest)%nat by (clear - E; lia).
        rewrite mod4_shift, <- IH0.
        destruct (base64.decode rest (si + 1) []); reflexivity.
      * rewrite IH by (rewrite length_app; cbn [List.length]; clear - Hlen E; lia).
        rewrite length_app. cbn [List.length]. rewrite <- Nat.add_assoc. reflexivity.
Qed.

Lemma isNewline_not_inAlphabet (c : ascii) :
  base64.isNewline c = true -> base64.inAlphabet c = false.
Proof.
  unfold base64.isNewline. intros H. apply orb_true_iff in H as [H|H];
    apply Ascii.eqb_eq in H; subst c; reflexivity.
Qed.

Lemma forallb_withoutLineBreaks (s : string) :
  forallb (fun c => base64.inAlphabet c || base64.isNewline c) (list_ascii_of_string s)
  = forallb base64.inAlphabet (list_ascii_of_string (base64.withoutLineBreaks s)).
Proof.
  induction s as [|c rest IH]; [reflexivity|].
  cbn [list_ascii_of_string forallb base64.withoutLineBreaks].
  destruct (base64.isNewline c) eqn:E.
  - rewrite (isNewline_not_inAlphabet c E). cbn [orb andb]. exact IH.
  - cbn [list_ascii_of_string forallb]. rewrite orb_false_r, IH. reflexivity.
Qed.

Lemma length_withoutLineBreaks (s : string) :
  forallb base64.inAlphabet (list_ascii_of_string (base64.withoutLineBreaks s)) = true ->
  String.length (base64.withoutLineBreaks s) = base64.countAlphabet s.
Proof.
  induction s as [|c rest IH]; [reflexivity|].
  cbn [base64.withoutLineBreaks base64.countAlphabet].
  destruct (base64.isNewline c) eqn:E.
  - rewrite (isNewline_not_inAlphabet c E). exact IH.
  - cbn [list_ascii_of_string forallb String.length]. intros H.
    apply andb_true_iff in H as [Hc H]. rewrite Hc, (IH H). reflexivity.
Qed.

(** The decoder accepts a string exactly when the string, line breaks left
    out, is valid. *)
Lemma DecodeString_is_Ok (s : string) :
  is_Ok (base64.DecodeString s) = base64.valid (base64.withoutLineBreaks s).
Proof.
  unfold base64.DecodeString, base64.valid.
  rewrite decode_is_Ok by (simpl; lia). rewrite forallb_withoutLineBreaks.
  destruct (forallb base64.inAlphabet
              (list_ascii_of_string (base64.withoutLineBreaks s))) eqn:E;
    [|reflexivity].
  rewrite (length_withoutLineBreaks s E). reflexivity.
Qed.

(** The encoder never writes the separator of a compact JWS. *)
Lemma EncodeToString_no_dot (src : list byte) :
  strings.Count (base64.EncodeToString src) "." = 0%nat.
Proof.
  induction src as [|b0|b0 b1|b0 b1 b2 rest IH] using list_ind_by_3;
    cbn [base64.EncodeToString strings.Count];
    rewrite ?sextet_not_dot; auto.
Qed.

(** ** strings *)

Lemma append_empty (s : string) : "" +:+ s = s.
Proof. reflexivity. Qed.

Lemma append_String (c : ascii) (s t : string) : String c s +:+ t = String c (s +:+ t).
Proof. reflexivity. Qed.

Lemma Split_length (s : string) (sep : ascii) :
  List.length (strings.Split s sep) = S (strings.Count s sep).
Proof.
  induction s as [|c s IH]; cbn [strings.Split strings.Count]; [reflexivity|].
  destruct (Ascii.eqb c sep).
  - cbn [List.length]. rewrite IH. reflexivity.
  - destruct (strings.Split s sep) as [|piece pieces]; cbn [List.length] in *; lia.
Qed.

Lemma Split_no_sep (s : string) (sep : ascii) :
  strings.Count s sep = 0%nat -> strings.Split s sep = [s].
Proof.
  induction s as [|c s IH]; cbn [strings.Split strings.Count]; [reflexivity|].
  destruct (Ascii.eqb c sep); [discriminate|].
  intros H. rewrite IH by exact H. reflexivity.
Qed.

Lemma Split_append (s t : string) (sep : ascii) :
  strings.Count s sep = 0%nat ->
  strings.Split (s +:+ String sep t) sep = s :: strings.Split t sep.
Proof.
  induction s as [|c s IH];
    rewrite ?append_empty, ?append_String; cbn [strings.Split strings.Count].
  - intros _. rewrite Ascii.eqb_refl. reflexivity.
  - destruct (Ascii.eqb c sep); [discriminate|].
    intros H. rewrite IH by exact H. reflexivity.
Qed.

(** The three pieces of a compact serialization whose segments hold no dot. *)
Lemma Split_compact (h p g : string) :
  strings.Count h "." = 0%nat -> strings.Count p "." = 0%nat ->
  strings.Count g "." = 0%nat ->
  strings.Split (h +:+ "." +:+ p +:+ "." +:+ g) "." = [h; p; g].
Proof.
  intros Hh Hp Hg.
  change (h +:+ "." +:+ p +:+ "." +:+ g) with (h +:+ String "." (p +:+ String "." g)).
  rewrite Split_append by exact Hh. rewrite Split_append by exact Hp.
  rewrite Split_no_sep by exact Hg. reflexivity.
Qed.

Lemma HasPrefix_append (p t : string) : strings.HasPrefix (p +:+ t) p = true.
Proof.
  induction p as [|c p IH]; rewrite ?append_String; cbn [strings.HasPrefix];
    [reflexivity|].
  rewrite Ascii.eqb_refl, IH. reflexivity.
Qed.

Lemma Contains_HasPrefix (s p : string) :
  strings.HasPrefix s p = true -> strings.Contains s p = true.
Proof.
  intros H. destruct s; cbn [strings.Contains]; rewrite H; reflexivity.
Qed.

Lemma Contains_middle (pre id post : string) :
  strings.Contains (pre +:+ id +:+ post) id = true.
Proof.
  induction pre as [|c pre IH].
  - rewrite append_empty. apply Contains_HasPrefix, HasPrefix_append.
  - rewrite append_String. cbn [strings.Contains]. rewrite IH. apply orb_true_r.
Qed.

(** ** Hashing, encoding and commitments *)
Section Commitments.

Context {L : Libraries}.

Lemma Multihash_run (data : list byte) (l : Log) :
  Multihash data l =
  match multihash_Encode (sha256_Sum256 data) SHA2_256 with
  | Ok multiHashed => (Ok multiHashed, l)
  | Err err => (Err err, logError "could not multi-hash the given data" err l)
  end.
Proof.
  unfold Multihash, logged, lift, ret.
  destruct (multihash_Encode _ _); reflexivity.
Qed.

Lemma HashEncode_run (data : list byte) (l : Log) :
  HashEncode data l =
  match multihash_Encode (sha256_Sum256 data) SHA2_256 with
  | Ok multiHashed => (Ok (Encode multiHashed), l)
  | Err err => (Err err, logError "could not multi-hash the given data" err l)
  end.
Proof.
  unfold HashEncode, bind. rewrite Multihash_run.
  destruct (multihash_Encode _ _); reflexivity.
Qed.

(** [Commit] step by step: which libraries are called on what, and what is
    logged on each failure. *)
Lemma Commit_run (key : PublicKeyJWK) (l : Log) :
  Commit key l =
  match JWKFromPublicKeyJWK key with
  | Err err => (Err err, l)
  | Ok gotJWK =>
      match CanonicalizeAny gotJWK with
      | Err err => (Err err, logError "could not canonicalize JWK" err l)
      | Ok canonicalKey =>
          match multihash_Encode (sha256_Sum256 canonicalKey) SHA2_256 with
          | Err err =>
              (Err err, logError "could not generate reveal value" err
                          (logError "could not multi-hash the given data" err l))
          | Ok revealHash =>
              match multihash_Encode (sha256_Sum256 (Hash canonicalKey)) SHA2_256 with
              | Err err =>
                  (Err err, logError "could not generate commitment value" err
                              (logError "could not multi-hash the given data" err l))
              | Ok commitmentHash => (Ok (Encode revealHash, Encode commitmentHash), l)
              end
          end
      end
  end.
Proof.
  unfold Commit, bind, logged, lift, ret.
  destruct (JWKFromPublicKeyJWK key) as [gotJWK|err]; [|reflexivity].
  destruct (CanonicalizeAny gotJWK) as [canonicalKey|err]; [|reflexivity].
  rewrite !HashEncode_run.
  destruct (multihash_Encode (sha256_Sum256 canonicalKey) SHA2_256); [|reflexivity].
  rewrite !HashEncode_run.
  destruct (multihash_Encode (sha256_Sum256 (Hash canonicalKey)) SHA2_256); reflexivity.
Qed.

(** A successful [Commit] leaves the log as it found it. *)
Lemma Commit_Ok_log (key : PublicKeyJWK) (l l' : Log) (rc : string * string) :
  Commit key l = (Ok rc, l') -> l' = l.
Proof.
  rewrite Commit_run. intros H.
  repeat match type of H with
         | match ?x with _ => _ end = _ => destruct x
         end; congruence.
Qed.

(** The value of [Commit] does not depend on the log it runs in. *)
Lemma Commit_value (key : PublicKeyJWK) (l1 l2 : Log) :
  fst (Commit key l1) = fst (Commit key l2).
Proof.
  rewrite !Commit_run.
  repeat match goal with
         | |- context [match ?x with _ => _ end] => destruct x
         end; reflexivity.
Qed.

(** C2: when [Commit] succeeds on a key with (reveal, commitment), the reveal
    value is the encoding of the multihash of the canonical key, that is of
    the frame of one SHA-256 digest, and the commitment is the encoding of the
    multihash of [Hash canonicalKey], the raw digest of the same bytes: the
    frame of the digest of the digest, one hash application further. *)
Theorem Commit_reveal_commitment
        (key : PublicKeyJWK) (l l' : Log) (reveal commitment : string) :
  Commit key l = (Ok (reveal, commitment), l') ->
  exists gotJWK canonicalKey revealHash commitmentHash,
    JWKFromPublicKeyJWK key = Ok gotJWK
    /\ CanonicalizeAny gotJWK = Ok canonicalKey
    /\ Multihash canonicalKey l = (Ok revealHash, l)
    /\ multihash_Encode (sha256_Sum256 canonicalKey) SHA2_256 = Ok revealHash
    /\ reveal = Encode revealHash
    /\ Multihash (Hash canonicalKey) l = (Ok commitmentHash, l)
    /\ multihash_Encode (sha256_Sum256 (sha256_Sum256 canonicalKey)) SHA2_256
       = Ok commitmentHash
    /\ commitment = Encode commitmentHash.
Proof.
  rewrite Commit_run. intros H.
  destruct (JWKFromPublicKeyJWK key) as [gotJWK|] eqn:EJ; [|discriminate].
  destruct (CanonicalizeAny gotJWK) as [canonicalKey|] eqn:EC; [|discriminate].
  destruct (multihash_Encode (sha256_Sum256 canonicalKey) SHA2_256)
    as [revealHash|] eqn:ER; [|discriminate].
  destruct (multihash_Encode (sha256_Sum256 (Hash canonicalKey)) SHA2_256)
    as [commitmentHash|] eqn:EM; [|discriminate].
  injection H as <- <- _.
  exists gotJWK, canonicalKey, revealHash, commitmentHash.
  rewrite !Multihash_run, ER, EM. unfold Hash in EM. auto 10.
Qed.

End Commitments.

(** ** Commit over libraries that have a state *)
Section Lifted.

Context {L : Libraries}.

(** The two embeddings of [Commit] agree: over the libraries of the package
    seen as libraries whose state is the log, the stateful [Commit] is
    [Commit]. *)

Lemma stateful_Commit_withLog (key : PublicKeyJWK) (l : Log) :
  stateful.Commit (L := withLog L) key l = Commit key l.
Proof.
  rewrite Commit_run.
  unfold stateful.Commit, stateful.bind, stateful.logged, stateful.CanonicalizeAny,
    stateful.Canonicalize, stateful.HashEncode, stateful.Multihash, stateful.Hash,
    stateful.ret, stateful.bind, stateful.logged.
  cbn [withLog stateful.JWKFromPublicKeyJWK stateful.json_Marshal stateful.jcs_Transform
       stateful.sha256_Sum256 stateful.multihash_Encode stateful.logrus_Error].
  destruct (JWKFromPublicKeyJWK key) as [gotJWK|]; [|reflexivity].
  unfold CanonicalizeAny, Canonicalize.
  destruct (json_Marshal JWK gotJWK) as [anyBytes|]; [|reflexivity].
  destruct (jcs_Transform anyBytes) as [canonicalKey|]; [|reflexivity].
  destruct (multihash_Encode (sha256_Sum256 canonicalKey) SHA2_256); [|reflexivity].
  unfold Hash.
  destruct (multihash_Encode (sha256_Sum256 (sha256_Sum256 canonicalKey)) SHA2_256);
    reflexivity.
Qed.

End Lifted.

Section Hidden.

Context {L : stateful.Libraries}.






End Hidden.


(** ** The signer and verifier *)
Section Signer.

Context {L : Libraries}.

Lemma Encode_no_dot (data : list byte) : strings.Count (Encode data) "." = 0%nat.
Proof. apply EncodeToString_no_dot. Qed.

Lemma Decode_Encode (data : list byte) : Decode (Encode data) = Ok data.
Proof. apply DecodeString_EncodeToString. Qed.

Lemma EncodeAny_no_dot {T : Type} (data : T) (encoded : string) :
  EncodeAny data = Ok encoded -> strings.Count encoded "." = 0%nat.
Proof.
  unfold EncodeAny. destruct (json_Marshal T data); [|discriminate].
  intros [= <-]. apply Encode_no_dot.
Qed.

(** [Sign] hands [ecdsa.Sign] the digest of its argument. *)
Lemma Sign_run (sv : BTCSignerVerifier) (data : list byte) :
  Sign sv data =
  match ecdsa_Sign (privateKey sv) (Hash data) with
  | Err err => Err err
  | Ok (r, s) => toCompactHex r s
  end.
Proof. reflexivity. Qed.

(** [SignJWT] when its two encodings succeed. *)
Lemma SignJWT_encoded {T : Type} (sv : BTCSignerVerifier) (data : T) (l : Log)
      (encodedHeader encodedPayload : string) :
  EncodeAny (GetJWSHeader sv) = Ok encodedHeader ->
  EncodeAny data = Ok encodedPayload ->
  SignJWT sv data l =
  match Sign sv (Hash (bytes_of_string (encodedHeader +:+ "." +:+ encodedPayload))) with
  | Err _ => (Ok "", l)
  | Ok signed =>
      (Ok (encodedHeader +:+ "." +:+ encodedPayload +:+ "." +:+ Encode signed), l)
  end.
Proof.
  intros EH EP. unfold SignJWT. rewrite EH, EP. reflexivity.
Qed.

(** When the signing step fails, [SignJWT] returns the empty string and no
    error. *)
Lemma SignJWT_signingFails {T : Type} (sv : BTCSignerVerifier) (data : T) (l : Log) :
  signingFails sv data -> fst (SignJWT sv data l) = Ok "".
Proof.
  unfold signingFails, SignJWT.
  destruct (EncodeAny (GetJWSHeader sv)); [|reflexivity].
  destruct (EncodeAny data); [|reflexivity].
  cbv zeta. destruct (Sign sv _); [discriminate|reflexivity].
Qed.

(** [VerifyJWS] on a string of three parts. *)
Lemma VerifyJWS_three_parts (sv : BTCSignerVerifier) (jws p0 p1 p2 : string) :
  strings.Split jws "." = [p0; p1; p2] ->
  VerifyJWS sv jws =
  match Decode p2 with
  | Err err => (false, Some ("could not decode signature: " +:+ err))
  | Ok decodedSignature =>
      (ecdsa_VerifyASN1 (publicKey sv)
                        (Hash (Hash (bytes_of_string (p0 +:+ "." +:+ p1))))
                        decodedSignature, None)
  end.
Proof.
  intros H. unfold VerifyJWS. rewrite H. reflexivity.
Qed.

(** C5: signing and verification digest the same value.  With the header and
    the payload encoded, [SignJWT] has [ecdsa.Sign] sign the hash of the hash
    of header "." body; [VerifyJWS] on a JWS of three parts has
    [ecdsa.VerifyASN1] check the decoded third part against the hash of the
    hash of parts[0] "." parts[1]; and on the JWS that [SignJWT] returned the
    digest checked is the digest that was signed. *)
Theorem JWS_double_hash_consistent
        {T : Type} (sv : BTCSignerVerifier) (data : T) (l : Log)
        (encodedHeader encodedPayload : string) :
  EncodeAny (GetJWSHeader sv) = Ok encodedHeader ->
  EncodeAny data = Ok encodedPayload ->
  let digest := Hash (Hash (bytes_of_string (encodedHeader +:+ "." +:+ encodedPayload))) in
  fst (SignJWT sv data l) =
    match ecdsa_Sign (privateKey sv) digest with
    | Ok (r, s) =>
        match toCompactHex r s with
        | Ok signed =>
            Ok (encodedHeader +:+ "." +:+ encodedPayload +:+ "." +:+ Encode signed)
        | Err _ => Ok ""
        end
    | Err _ => Ok ""
    end
  /\ (forall jws p0 p1 p2 signature,
        strings.Split jws "." = [p0; p1; p2] -> Decode p2 = Ok signature ->
        VerifyJWS sv jws =
        (ecdsa_VerifyASN1 (publicKey sv)
                          (Hash (Hash (bytes_of_string (p0 +:+ "." +:+ p1)))) signature,
         None))
  /\ (forall r s signed,
        ecdsa_Sign (privateKey sv) digest = Ok (r, s) ->
        toCompactHex r s = Ok signed ->
        exists jws,
          fst (SignJWT sv data l) = Ok jws
          /\ VerifyJWS sv jws = (ecdsa_VerifyASN1 (publicKey sv) digest signed, None)).
Proof.
  intros EH EP digest.
  assert (Hrun : fst (SignJWT sv data l) =
                 match ecdsa_Sign (privateKey sv) digest with
                 | Ok (r, s) =>
                     match toCompactHex r s with
                     | Ok signed =>
                         Ok (encodedHeader +:+ "." +:+ encodedPayload +:+ "."
                             +:+ Encode signed)
                     | Err _ => Ok ""
                     end
                 | Err _ => Ok ""
                 end).
  { rewrite (SignJWT_encoded sv data l _ _ EH EP), Sign_run. fold digest.
    destruct (ecdsa_Sign (privateKey sv) digest) as [[r s]|]; [|reflexivity].
    destruct (toCompactHex r s); reflexivity. }
  split; [exact Hrun|]. split.
  - intros jws p0 p1 p2 signature HS HD.
    rewrite (VerifyJWS_three_parts sv jws p0 p1 p2 HS), HD. reflexivity.
  - intros r s signed ES EC. eexists. split.
    + rewrite Hrun, ES, EC. reflexivity.
    + rewrite (VerifyJWS_three_parts sv _ encodedHeader encodedPayload (Encode signed)).
      * rewrite Decode_Encode. reflexivity.
      * apply Split_compact;
          [exact (EncodeAny_no_dot _ _ EH) | exact (EncodeAny_no_dot _ _ EP)
          | apply Encode_no_dot].
Qed.

(** C6, as the code has it: [VerifyJWS] returns false together with an error
    on every string that does not split into exactly three parts at the dots
    (that is, that does not hold exactly two dots), with the message
    "invalid JWS: " followed by the string; "only.two" is one of them.  On a
    string of three parts it returns false together with an error, the
    decoder's message after "could not decode signature: ", exactly when the
    third part, carriage returns and line feeds left out, is not valid
    unpadded URL-safe base64; otherwise it returns no error, and its answer
    is the one of [ecdsa.VerifyASN1]. *)
Theorem VerifyJWS_malformed (sv : BTCSignerVerifier) :
  (forall jws,
      List.length (strings.Split jws ".") <> 3%nat ->
      VerifyJWS sv jws = (false, Some ("invalid JWS: " +:+ jws)))
  /\ (forall jws,
        strings.Count jws "." <> 2%nat ->
        VerifyJWS sv jws = (false, Some ("invalid JWS: " +:+ jws)))
  /\ VerifyJWS sv "only.two" = (false, Some "invalid JWS: only.two")
  /\ (forall jws p0 p1 p2 err,
        strings.Split jws "." = [p0; p1; p2] ->
        Decode p2 = Err err ->
        VerifyJWS sv jws = (false, Some ("could not decode signature: " +:+ err)))
  /\ (forall jws p0 p1 p2,
        strings.Split jws "." = [p0; p1; p2] ->
        base64.valid (base64.withoutLineBreaks p2) = false ->
        exists err,
          Decode p2 = Err err
          /\ VerifyJWS sv jws = (false, Some ("could not decode signature: " +:+ err)))
  /\ (forall jws p0 p1 p2,
        strings.Split jws "." = [p0; p1; p2] ->
        base64.valid (base64.withoutLineBreaks p2) = true ->
        exists signature,
          Decode p2 = Ok signature
          /\ VerifyJWS sv jws
             = (ecdsa_VerifyASN1 (publicKey sv)
                                 (Hash (Hash (bytes_of_string (p0 +:+ "." +:+ p1))))
                                 signature, None))
  /\ (forall p2, base64.valid p2 = true -> base64.withoutLineBreaks p2 = p2).
Proof.
  assert (Hparts : forall jws, List.length (strings.Split jws ".") <> 3%nat ->
                               VerifyJWS sv jws = (false, Some ("invalid JWS: " +:+ jws))).
  { intros jws H. unfold VerifyJWS.
    destruct (Nat.eqb_spec (List.length (strings.Split jws ".")) 3);
      [contradiction|reflexivity]. }
  assert (Hdecode : forall jws p0 p1 p2 err,
             strings.Split jws "." = [p0; p1; p2] -> Decode p2 = Err err ->
             VerifyJWS sv jws = (false, Some ("could not decode signature: " +:+ err))).
  { intros jws p0 p1 p2 err HS HD.
    rewrite (VerifyJWS_three_parts sv jws p0 p1 p2 HS), HD. reflexivity. }
  split; [exact Hparts|]. split; [|split; [|split; [exact Hdecode|split; [|split]]]].
  - intros jws H. apply Hparts. rewrite Split_length. lia.
  - apply Hparts. cbv. discriminate.
  - intros jws p0 p1 p2 HS HW.
    destruct (Decode p2) as [decoded|err] eqn:HD.
    + pose proof (DecodeString_is_Ok p2) as HOk. unfold Decode in HD.
      rewrite HD, HW in HOk. discriminate.
    + exists err. split; [reflexivity|]. eapply Hdecode; eauto.
  - intros jws p0 p1 p2 HS HW.
    rewrite (VerifyJWS_three_parts sv jws p0 p1 p2 HS).
    destruct (Decode p2) as [decoded|err] eqn:HD.
    + exists decoded. split; reflexivity.
    + pose proof (DecodeString_is_Ok p2) as HOk. unfold Decode in HD.
      rewrite HD, HW in HOk. discriminate.
  - intros p2 H. unfold base64.valid in H. apply andb_true_iff in H as [H _].
    induction p2 as [|c rest IH]; [reflexivity|].
    cbn [list_ascii_of_string forallb] in H. apply andb_true_iff in H as [Hc H].
    cbn [base64.withoutLineBreaks].
    destruct (base64.isNewline c) eqn:E;
      [rewrite (isNewline_not_inAlphabet c E) in Hc; discriminate|].
    rewrite (IH H). reflexivity.
Qed.

End Signer.

(** ** State-change validation *)
Section Validation.

Context {L : Libraries}.

Lemma len_le_ltb (bound : Z) (s : string) : len s <= bound -> (bound <? len s) = false.
Proof. intros H. apply Z.ltb_ge. exact H. Qed.

(** The first loop succeeds on services with fresh, distinct and short ids,
    and indexes exactly their ids on top of the index it started from. *)
Lemma indexServices_Ok (toAdd : list Service) (services : gmap string Service) :
  (forall service, In service toAdd -> services !! Service_ID service = None) ->
  NoDup (map Service_ID toAdd) ->
  Forall (fun service => len (Service_ID service) <= maxIDLength
                         /\ len (Service_Type service) <= maxServiceTypeLength) toAdd ->
  exists services',
    indexServices toAdd services = Ok services'
    /\ forall id, is_Some (services' !! id)
                  <-> is_Some (services !! id) \/ In id (map Service_ID toAdd).
Proof.
  revert services. induction toAdd as [|service rest IH]; intros services Hfresh Hnd Hlen.
  - exists services. split; [reflexivity|]. intros id. cbn. tauto.
  - cbn [indexServices]. rewrite (Hfresh service) by (left; reflexivity).
    apply Forall_cons in Hlen as [[Hid Hty] Hlen].
    rewrite (len_le_ltb _ _ Hid), (len_le_ltb _ _ Hty).
    cbn [map] in Hnd. apply NoDup_cons in Hnd as [Hnotin Hnd].
    destruct (IH (<[Service_ID service := service]> services)) as (services' & HOk & Hdom).
    + intros other Hother. rewrite lookup_insert_ne.
      * apply Hfresh. right. exact Hother.
      * intros E. apply Hnotin. rewrite E. apply list_elem_of_In, in_map, Hother.
    + exact Hnd.
    + exact Hlen.
    + exists services'. split; [exact HOk|]. intros id. rewrite Hdom. cbn [map In].
      destruct (decide (Service_ID service = id)) as [->|Hne].
      * rewrite lookup_insert_eq. split; [intros _; right; left; reflexivity|].
        intros _. left. eexists. reflexivity.
      * rewrite lookup_insert_ne by exact Hne. tauto.
Qed.

Lemma indexPublicKeys_Ok (toAdd : list PublicKey) (publicKeys : gmap string PublicKey) :
  (forall publicKey, In publicKey toAdd -> publicKeys !! PublicKey_ID publicKey = None) ->
  NoDup (map PublicKey_ID toAdd) ->
  Forall (fun publicKey => len (PublicKey_ID publicKey) <= maxIDLength) toAdd ->
  exists publicKeys',
    indexPublicKeys toAdd publicKeys = Ok publicKeys'
    /\ forall id, is_Some (publicKeys' !! id)
                  <-> is_Some (publicKeys !! id) \/ In id (map PublicKey_ID toAdd).
Proof.
  revert publicKeys.
  induction toAdd as [|publicKey rest IH]; intros publicKeys Hfresh Hnd Hlen.
  - exists publicKeys. split; [reflexivity|]. intros id. cbn. tauto.
  - cbn [indexPublicKeys]. rewrite (Hfresh publicKey) by (left; reflexivity).
    apply Forall_cons in Hlen as [Hid Hlen].
    rewrite (len_le_ltb _ _ Hid).
    cbn [map] in Hnd. apply NoDup_cons in Hnd as [Hnotin Hnd].
    destruct (IH (<[PublicKey_ID publicKey := publicKey]> publicKeys))
      as (publicKeys' & HOk & Hdom).
    + intros other Hother. rewrite lookup_insert_ne.
      * apply Hfresh. right. exact Hother.
      * intros E. apply Hnotin. rewrite E. apply list_elem_of_In, in_map, Hother.
    + exact Hnd.
    + exact Hlen.
    + exists publicKeys'. split; [exact HOk|]. intros id. rewrite Hdom. cbn [map In].
      destruct (decide (PublicKey_ID publicKey = id)) as [->|Hne].
      * rewrite lookup_insert_eq. split; [intros _; right; left; reflexivity|].
        intros _. left. eexists. reflexivity.
      * rewrite lookup_insert_ne by exact Hne. tauto.
Qed.

(** The scan of the service ids to remove lets a list of removable ids
    through, and stops at the first id that is also added. *)
Lemma checkServiceIDsToRemove_None
      (ids added : list string) (services : gmap string Service) :
  (forall id, is_Some (services !! id) <-> In id added) ->
  Forall (removable added) ids ->
  checkServiceIDsToRemove ids services = None.
Proof.
  intros Hdom. induction ids as [|id rest IH]; intros Hok; [reflexivity|].
  apply Forall_cons in Hok as [[Hnotin Hlen] Hok]. cbn [checkServiceIDsToRemove].
  destruct (services !! id) as [service|] eqn:E.
  - exfalso. apply Hnotin, Hdom. eexists. exact E.
  - rewrite (len_le_ltb _ _ Hlen). auto.
Qed.

Lemma checkServiceIDsToRemove_first
      (pre post added : list string) (id : string) (services : gmap string Service) :
  (forall id, is_Some (services !! id) <-> In id added) ->
  Forall (removable added) pre -> In id added ->
  checkServiceIDsToRemove (pre ++ id :: post) services
  = Some ("service<" +:+ id +:+ "> added and removed in same request").
Proof.
  intros Hdom Hpre Hin. induction pre as [|other pre IH]; cbn [app checkServiceIDsToRemove].
  - apply Hdom in Hin as [service ->]. reflexivity.
  - apply Forall_cons in Hpre as [[Hnotin Hlen] Hpre].
    destruct (services !! other) as [service|] eqn:E.
    + exfalso. apply Hnotin, Hdom. eexists. exact E.
    + rewrite (len_le_ltb _ _ Hlen). auto.
Qed.

Lemma checkServiceIDsToRemove_Some
      (ids added : list string) (id : string) (services : gmap string Service) :
  (forall id, is_Some (services !! id) <-> In id added) ->
  In id ids -> In id added ->
  exists err, checkServiceIDsToRemove ids services = Some err.
Proof.
  intros Hdom Hids Hin. induction ids as [|other rest IH]; [destruct Hids|].
  cbn [checkServiceIDsToRemove].
  destruct (services !! other) as [service|] eqn:E; [eauto|].
  destruct (maxIDLength <? len other); [eauto|].
  destruct Hids as [->|Hids]; [|auto].
  apply Hdom in Hin as [service Hs]. congruence.
Qed.

Lemma checkServiceIDsToRemove_None_inv
      (ids added : list string) (services : gmap string Service) :
  (forall id, is_Some (services !! id) <-> In id added) ->
  checkServiceIDsToRemove ids services = None ->
  Forall (removable added) ids.
Proof.
  intros Hdom. induction ids as [|id rest IH]; intros H; [constructor|].
  cbn [checkServiceIDsToRemove] in H.
  destruct (services !! id) as [service|] eqn:E; [discriminate|].
  destruct (Z.ltb_spec maxIDLength (len id)) as [|Hlen]; [discriminate|].
  constructor; [|auto]. split; [|exact Hlen].
  intros Hin. apply Hdom in Hin as [service Hs]. congruence.
Qed.

Lemma checkPublicKeyIDsToRemove_None_inv
      (ids added : list string) (publicKeys : gmap string PublicKey) :
  (forall id, is_Some (publicKeys !! id) <-> In id added) ->
  checkPublicKeyIDsToRemove ids publicKeys = None ->
  Forall (removable added) ids.
Proof.
  intros Hdom. induction ids as [|id rest IH]; intros H; [constructor|].
  cbn [checkPublicKeyIDsToRemove] in H.
  destruct (publicKeys !! id) as [publicKey|] eqn:E; [discriminate|].
  destruct (Z.ltb_spec maxIDLength (len id)) as [|Hlen]; [discriminate|].
  constructor; [|auto]. split; [|exact Hlen].
  intros Hin. apply Hdom in Hin as [publicKey Hs]. congruence.
Qed.

(** An error of the scan of the service ids to remove is the one of the
    first id that is not removable: which id, and which of the two
    messages. *)
Lemma checkServiceIDsToRemove_Some_inv
      (ids added : list string) (services : gmap string Service) (err : error) :
  (forall id, is_Some (services !! id) <-> In id added) ->
  checkServiceIDsToRemove ids services = Some err ->
  exists pre other post,
    ids = pre ++ other :: post
    /\ Forall (removable added) pre
    /\ ((In other added
         /\ err = "service<" +:+ other +:+ "> added and removed in same request")
        \/ (~ In other added /\ maxIDLength < len other
            /\ err = "service<" +:+ other +:+ "> id is too long")).
Proof.
  intros Hdom. induction ids as [|id rest IH]; intros H; [discriminate|].
  cbn [checkServiceIDsToRemove] in H.
  destruct (services !! id) as [service|] eqn:E.
  - injection H as <-. exists [], id, rest.
    split; [reflexivity|]. split; [constructor|]. left.
    split; [apply Hdom; eexists; exact E|reflexivity].
  - assert (Hnotin : ~ In id added).
    { intros Hin. apply Hdom in Hin as [service Hs]. congruence. }
    destruct (Z.ltb_spec maxIDLength (len id)) as [Hlong|Hshort].
    + injection H as <-. exists [], id, rest.
      split; [reflexivity|]. split; [constructor|]. right. auto.
    + destruct (IH H) as (pre & other & post & -> & Hpre & Hother).
      exists (id :: pre), other, post.
      split; [reflexivity|]. split; [|exact Hother].
      constructor; [split; assumption|exact Hpre].
Qed.

Lemma checkPublicKeyIDsToRemove_Some_inv
      (ids added : list string) (publicKeys : gmap string PublicKey) (err : error) :
  (forall id, is_Some (publicKeys !! id) <-> In id added) ->
  checkPublicKeyIDsToRemove ids publicKeys = Some err ->
  exists pre other post,
    ids = pre ++ other :: post
    /\ Forall (removable added) pre
    /\ ((In other added
         /\ err = "public key<" +:+ other +:+ "> added and removed in same request")
        \/ (~ In other added /\ maxIDLength < len other
            /\ err = "public key<" +:+ other +:+ "> id is too long")).
Proof.
  intros Hdom. induction ids as [|id rest IH]; intros H; [discriminate|].
  cbn [checkPublicKeyIDsToRemove] in H.
  destruct (publicKeys !! id) as [publicKey|] eqn:E.
  - injection H as <-. exists [], id, rest.
    split; [reflexivity|]. split; [constructor|]. left.
    split; [apply Hdom; eexists; exact E|reflexivity].
  - assert (Hnotin : ~ In id added).
    { intros Hin. apply Hdom in Hin as [publicKey Hs]. congruence. }
    destruct (Z.ltb_spec maxIDLength (len id)) as [Hlong|Hshort].
    + injection H as <-. exists [], id, rest.
      split; [reflexivity|]. split; [constructor|]. right. auto.
    + destruct (IH H) as (pre & other & post & -> & Hpre & Hother).
      exists (id :: pre), other, post.
      split; [reflexivity|]. split; [|exact Hother].
      constructor; [split; assumption|exact Hpre].
Qed.

Lemma checkPublicKeyIDsToRemove_None
      (ids added : list string) (publicKeys : gmap string PublicKey) :
  (forall id, is_Some (publicKeys !! id) <-> In id added) ->
  Forall (removable added) ids ->
  checkPublicKeyIDsToRemove ids publicKeys = None.
Proof.
  intros Hdom. induction ids as [|id rest IH]; intros Hok; [reflexivity|].
  apply Forall_cons in Hok as [[Hnotin Hlen] Hok]. cbn [checkPublicKeyIDsToRemove].
  destruct (publicKeys !! id) as [publicKey|] eqn:E.
  - exfalso. apply Hnotin, Hdom. eexists. exact E.
  - rewrite (len_le_ltb _ _ Hlen). auto.
Qed.

Lemma checkPublicKeyIDsToRemove_first
      (pre post added : list string) (id : string) (publicKeys : gmap string PublicKey) :
  (forall id, is_Some (publicKeys !! id) <-> In id added) ->
  Forall (removable added) pre -> In id added ->
  checkPublicKeyIDsToRemove (pre ++ id :: post) publicKeys
  = Some ("public key<" +:+ id +:+ "> added and removed in same request").
Proof.
  intros Hdom Hpre Hin.
  induction pre as [|other pre IH]; cbn [app checkPublicKeyIDsToRemove].
  - apply Hdom in Hin as [publicKey ->]. reflexivity.
  - apply Forall_cons in Hpre as [[Hnotin Hlen] Hpre].
    destruct (publicKeys !! other) as [publicKey|] eqn:E.
    + exfalso. apply Hnotin, Hdom. eexists. exact E.
    + rewrite (len_le_ltb _ _ Hlen). auto.
Qed.

Lemma checkPublicKeyIDsToRemove_Some
      (ids added : list string) (id : string) (publicKeys : gmap string PublicKey) :
  (forall id, is_Some (publicKeys !! id) <-> In id added) ->
  In id ids -> In id added ->
  exists err, checkPublicKeyIDsToRemove ids publicKeys = Some err.
Proof.
  intros Hdom Hids Hin. induction ids as [|other rest IH]; [destruct Hids|].
  cbn [checkPublicKeyIDsToRemove].
  destruct (publicKeys !! other) as [publicKey|] eqn:E; [eauto|].
  destruct (maxIDLength <? len other); [eauto|].
  destruct Hids as [->|Hids]; [|auto].
  apply Hdom in Hin as [publicKey Hs]. congruence.
Qed.

(** Conversely, the two indexing loops succeed only on valid additions. *)
Lemma indexServices_Ok_inv (toAdd : list Service) (services services' : gmap string Service) :
  indexServices toAdd services = Ok services' ->
  (forall service, In service toAdd -> services !! Service_ID service = None)
  /\ NoDup (map Service_ID toAdd)
  /\ Forall (fun service => len (Service_ID service) <= maxIDLength
                            /\ len (Service_Type service) <= maxServiceTypeLength) toAdd.
Proof.
  revert services. induction toAdd as [|service rest IH]; intros services H.
  - split; [intros ? []|]. split; constructor.
  - cbn [indexServices] in H.
    destruct (services !! Service_ID service) eqn:Efresh; [discriminate|].
    destruct (Z.ltb_spec maxIDLength (len (Service_ID service))) as [|Hid]; [discriminate|].
    destruct (Z.ltb_spec maxServiceTypeLength (len (Service_Type service))) as [|Hty];
      [discriminate|].
    apply IH in H as (Hfresh & Hnd & Hlen).
    assert (Hne : forall other, In other rest -> Service_ID service <> Service_ID other).
    { intros other Hother E. specialize (Hfresh other Hother).
      rewrite <- E, lookup_insert_eq in Hfresh. discriminate. }
    split; [|split].
    + intros other [<-|Hother]; [exact Efresh|].
      specialize (Hfresh other Hother).
      rewrite lookup_insert_ne in Hfresh by (apply Hne; exact Hother). exact Hfresh.
    + cbn [map]. apply NoDup_cons. split; [|exact Hnd].
      intros Hin. apply list_elem_of_In, in_map_iff in Hin as (other & E & Hother).
      exact (Hne other Hother (eq_sym E)).
    + constructor; [split; assumption | exact Hlen].
Qed.

Lemma indexPublicKeys_Ok_inv
      (toAdd : list PublicKey) (publicKeys publicKeys' : gmap string PublicKey) :
  indexPublicKeys toAdd publicKeys = Ok publicKeys' ->
  (forall publicKey, In publicKey toAdd -> publicKeys !! PublicKey_ID publicKey = None)
  /\ NoDup (map PublicKey_ID toAdd)
  /\ Forall (fun publicKey => len (PublicKey_ID publicKey) <= maxIDLength) toAdd.
Proof.
  revert publicKeys. induction toAdd as [|publicKey rest IH]; intros publicKeys H.
  - split; [intros ? []|]. split; constructor.
  - cbn [indexPublicKeys] in H.
    destruct (publicKeys !! PublicKey_ID publicKey) eqn:Efresh; [discriminate|].
    destruct (Z.ltb_spec maxIDLength (len (PublicKey_ID publicKey))) as [|Hid];
      [discriminate|].
    apply IH in H as (Hfresh & Hnd & Hlen).
    assert (Hne : forall other, In other rest -> PublicKey_ID publicKey <> PublicKey_ID other).
    { intros other Hother E. specialize (Hfresh other Hother).
      rewrite <- E, lookup_insert_eq in Hfresh. discriminate. }
    split; [|split].
    + intros other [<-|Hother]; [exact Efresh|].
      specialize (Hfresh other Hother).
      rewrite lookup_insert_ne in Hfresh by (apply Hne; exact Hother). exact Hfresh.
    + cbn [map]. apply NoDup_cons. split; [|exact Hnd].
      intros Hin. apply list_elem_of_In, in_map_iff in Hin as (other & E & Hother).
      exact (Hne other Hother (eq_sym E)).
    + constructor; [assumption | exact Hlen].
Qed.

(** [additionsValid] says exactly that the two loops over the additions pass. *)
Lemma additionsValid_iff (s : StateChange) :
  additionsValid s
  <-> is_Ok (indexServices (ServicesToAdd s) ∅) = true
      /\ is_Ok (indexPublicKeys (PublicKeysToAdd s) ∅) = true.
Proof.
  split.
  - intros (HndS & HlenS & HndK & HlenK).
    destruct (indexServices_Ok (ServicesToAdd s) ∅) as (services & -> & _);
      [intros; apply lookup_empty | exact HndS | exact HlenS |].
    destruct (indexPublicKeys_Ok (PublicKeysToAdd s) ∅) as (publicKeys & -> & _);
      [intros; apply lookup_empty | exact HndK | exact HlenK |].
    split; reflexivity.
  - intros [HS HK].
    destruct (indexServices (ServicesToAdd s) ∅) as [services|] eqn:ES; [|discriminate].
    destruct (indexPublicKeys (PublicKeysToAdd s) ∅) as [publicKeys|] eqn:EK;
      [|discriminate].
    apply indexServices_Ok_inv in ES as (_ & HndS & HlenS).
    apply indexPublicKeys_Ok_inv in EK as (_ & HndK & HlenK).
    repeat split; assumption.
Qed.

(** With valid additions, [IsValid] is the scan of the service ids to remove
    followed by the scan of the key ids to remove, against the ids added. *)
Lemma IsValid_additionsValid (s : StateChange) :
  additionsValid s ->
  exists services publicKeys,
    (forall id, is_Some (services !! id) <-> In id (map Service_ID (ServicesToAdd s)))
    /\ (forall id, is_Some (publicKeys !! id)
                   <-> In id (map PublicKey_ID (PublicKeysToAdd s)))
    /\ IsValid s =
       match checkServiceIDsToRemove (ServiceIDsToRemove s) services with
       | Some err => Some err
       | None => checkPublicKeyIDsToRemove (PublicKeyIDsToRemove s) publicKeys
       end.
Proof.
  intros (HndS & HlenS & HndK & HlenK).
  destruct (indexServices_Ok (ServicesToAdd s) ∅) as (services & ES & HS);
    [intros; apply lookup_empty | exact HndS | exact HlenS |].
  destruct (indexPublicKeys_Ok (PublicKeysToAdd s) ∅) as (publicKeys & EK & HK);
    [intros; apply lookup_empty | exact HndK | exact HlenK |].
  exists services, publicKeys. unfold IsValid. rewrite ES, EK.
  split; [|split; [|reflexivity]]; intros id.
  - rewrite HS, lookup_empty. split; [intros [[? H]|H]; [discriminate|exact H] | auto].
  - rewrite HK, lookup_empty. split; [intros [[? H]|H]; [discriminate|exact H] | auto].
Qed.

End Validation.

(** ** The operation builders *)
Section Builders.

Context {L : Libraries}.

(** A rejected state change stops [NewUpdateRequest] before anything else. *)
Lemma NewUpdateRequest_invalid
      (didSuffix : string) (updateKey nextUpdateKey : PublicKeyJWK)
      (signer : BTCSignerVerifier) (stateChange : StateChange) (l : Log) (err : error) :
  IsValid stateChange = Some err ->
  NewUpdateRequest didSuffix updateKey nextUpdateKey signer stateChange l = (Err err, l).
Proof.
  intros H. unfold NewUpdateRequest. rewrite H. reflexivity.
Qed.

(** A request built by [NewUpdateRequest] comes from a valid state change and
    carries the patches compiled from it. *)
Lemma NewUpdateRequest_Ok
      (didSuffix : string) (updateKey nextUpdateKey : PublicKeyJWK)
      (signer : BTCSignerVerifier) (stateChange : StateChange) (l l' : Log)
      (request : UpdateRequest) :
  NewUpdateRequest didSuffix updateKey nextUpdateKey signer stateChange l
  = (Ok request, l') ->
  IsValid stateChange = None
  /\ Patches (UpdateRequest_Delta request) = updatePatches stateChange.
Proof.
  unfold NewUpdateRequest.
  destruct (IsValid stateChange); [discriminate|].
  unfold bind, lift, ret. intros H.
  run_steps H; try discriminate.
  injection H as <- _. split; reflexivity.
Qed.



(** C3: the patches [NewUpdateRequest] compiles from a valid state change,
    which are the patches of the request it returns, follow the order
    AddServices, RemoveServices, AddPublicKeys, RemovePublicKeys: their actions
    are the categories of that order the state change has entries for, each
    patch carries the whole list of its category, and none is empty.  With
    services and keys to add and nothing to remove, the patches are exactly
    [AddServices; AddPublicKeys]. *)
Theorem NewUpdateRequest_patch_order (stateChange : StateChange) :
  IsValid stateChange = None ->
  let patches := updatePatches stateChange in
  (forall didSuffix updateKey nextUpdateKey signer l request l',
      NewUpdateRequest didSuffix updateKey nextUpdateKey signer stateChange l
      = (Ok request, l') ->
      Patches (UpdateRequest_Delta request) = patches)
  /\ map Action patches = List.filter (requested stateChange) updateOrder
  /\ Forall (fun p => p = AddServicesAction AddServices (ServicesToAdd stateChange)
                      \/ p = RemoveServicesAction RemoveServices
                                                  (ServiceIDsToRemove stateChange)
                      \/ p = AddPublicKeysAction AddPublicKeys
                                                 (PublicKeysToAdd stateChange)
                      \/ p = RemovePublicKeysAction RemovePublicKeys
                                                    (PublicKeyIDsToRemove stateChange))
            patches
  /\ Forall (fun p => (0 < patchSize p)%nat) patches
  /\ (ServicesToAdd stateChange <> [] -> PublicKeysToAdd stateChange <> [] ->
      ServiceIDsToRemove stateChange = [] -> PublicKeyIDsToRemove stateChange = [] ->
      patches = [AddServicesAction AddServices (ServicesToAdd stateChange);
                 AddPublicKeysAction AddPublicKeys (PublicKeysToAdd stateChange)]).
Proof.
  intros _ patches. split.
  { intros didSuffix updateKey nextUpdateKey signer l request l' H.
    apply NewUpdateRequest_Ok in H as [_ H]. exact H. }
  subst patches. unfold updatePatches, updateOrder, requested.
  destruct (ServicesToAdd stateChange) as [|service services],
           (ServiceIDsToRemove stateChange) as [|sid sids],
           (PublicKeysToAdd stateChange) as [|publicKey publicKeys],
           (PublicKeyIDsToRemove stateChange) as [|kid kids];
    cbn [List.length Nat.ltb Nat.leb Nat.eqb negb app map Action List.filter];
    (split; [reflexivity|]);
    (split; [repeat (constructor; [auto 6|]); constructor|]);
    (split; [repeat (constructor; [cbn [patchSize List.length]; lia|]); constructor|]);
    intros; congruence.
Qed.


(** C7, as the code has it: with valid additions, a state change that removes
    an id it also adds (a service id or a key id) is rejected by [IsValid],
    and [NewUpdateRequest] returns that error without building a request or
    logging.  The message is the one of the first removal id the scans stop
    at, the service ids being scanned before the key ids: it references the
    given id when every removal id scanned before it is removable.  In every
    case the error is pinned: it is the one of the first removal id that is
    not removable, "added and removed in same request" when that id is added,
    "id is too long" otherwise. *)
Theorem IsValid_rejects_contradiction
        (stateChange : StateChange) (id : string)
        (didSuffix : string) (updateKey nextUpdateKey : PublicKeyJWK)
        (signer : BTCSignerVerifier) (l : Log) :
  additionsValid stateChange ->
  (In id (map Service_ID (ServicesToAdd stateChange))
   /\ In id (ServiceIDsToRemove stateChange))
  \/ (In id (map PublicKey_ID (PublicKeysToAdd stateChange))
      /\ In id (PublicKeyIDsToRemove stateChange)) ->
  exists err,
    IsValid stateChange = Some err
    /\ NewUpdateRequest didSuffix updateKey nextUpdateKey signer stateChange l
       = (Err err, l)
    /\ (forall pre post,
          ServiceIDsToRemove stateChange = pre ++ id :: post ->
          In id (map Service_ID (ServicesToAdd stateChange)) ->
          Forall (removable (map Service_ID (ServicesToAdd stateChange))) pre ->
          err = "service<" +:+ id +:+ "> added and removed in same request"
          /\ references err id)
    /\ (forall pre post,
          Forall (removable (map Service_ID (ServicesToAdd stateChange)))
                 (ServiceIDsToRemove stateChange) ->
          PublicKeyIDsToRemove stateChange = pre ++ id :: post ->
          In id (map PublicKey_ID (PublicKeysToAdd stateChange)) ->
          Forall (removable (map PublicKey_ID (PublicKeysToAdd stateChange))) pre ->
          err = "public key<" +:+ id +:+ "> added and removed in same request"
          /\ references err id)
    /\ ((exists pre other post,
            ServiceIDsToRemove stateChange = pre ++ other :: post
            /\ Forall (removable (map Service_ID (ServicesToAdd stateChange))) pre
            /\ ((In other (map Service_ID (ServicesToAdd stateChange))
                 /\ err = "service<" +:+ other +:+ "> added and removed in same request")
                \/ (~ In other (map Service_ID (ServicesToAdd stateChange))
                    /\ maxIDLength < len other
                    /\ err = "service<" +:+ other +:+ "> id is too long")))
        \/ (Forall (removable (map Service_ID (ServicesToAdd stateChange)))
                   (ServiceIDsToRemove stateChange)
            /\ exists pre other post,
                PublicKeyIDsToRemove stateChange = pre ++ other :: post
                /\ Forall (removable (map PublicKey_ID (PublicKeysToAdd stateChange))) pre
                /\ ((In other (map PublicKey_ID (PublicKeysToAdd stateChange))
                     /\ err = "public key<" +:+ other
                              +:+ "> added and removed in same request")
                    \/ (~ In other (map PublicKey_ID (PublicKeysToAdd stateChange))
                        /\ maxIDLength < len other
                        /\ err = "public key<" +:+ other +:+ "> id is too long")))).
Proof.
  intros Hadd Hboth.
  destruct (IsValid_additionsValid stateChange Hadd)
    as (services & publicKeys & HdS & HdK & HV).
  assert (Hrej : exists err, IsValid stateChange = Some err).
  { rewrite HV.
    destruct (checkServiceIDsToRemove (ServiceIDsToRemove stateChange) services)
      as [err|] eqn:ES; [eauto|].
    destruct Hboth as [[Hin Hrm]|[Hin Hrm]].
    - destruct (checkServiceIDsToRemove_Some _ _ _ _ HdS Hrm Hin) as [err E]. congruence.
    - exact (checkPublicKeyIDsToRemove_Some _ _ _ _ HdK Hrm Hin). }
  destruct Hrej as [err Herr]. exists err.
  split; [exact Herr|]. split; [apply NewUpdateRequest_invalid; exact Herr|].
  split; [|split].
  - intros pre post Hrm Hin Hpre.
    rewrite HV, Hrm, (checkServiceIDsToRemove_first _ _ _ _ _ HdS Hpre Hin) in Herr.
    injection Herr as <-. split; [reflexivity|]. apply Contains_middle.
  - intros pre post HS Hrm Hin Hpre.
    rewrite HV, (checkServiceIDsToRemove_None _ _ _ HdS HS), Hrm,
      (checkPublicKeyIDsToRemove_first _ _ _ _ _ HdK Hpre Hin) in Herr.
    injection Herr as <-. split; [reflexivity|]. apply Contains_middle.
  - rewrite HV in Herr.
    destruct (checkServiceIDsToRemove (ServiceIDsToRemove stateChange) services)
      as [errS|] eqn:ES.
    + injection Herr as ->. left.
      exact (checkServiceIDsToRemove_Some_inv _ _ _ _ HdS ES).
    + right. split.
      * exact (checkServiceIDsToRemove_None_inv _ _ _ HdS ES).
      * exact (checkPublicKeyIDsToRemove_Some_inv _ _ _ _ HdK Herr).
Qed.

End Builders.

(** ** Builders and a signing step that fails *)
Section UnsignedRequests.

Context {L : Libraries}.

Lemma SignJWT_signingFails_run {T : Type} (sv : BTCSignerVerifier) (data : T)
      (l l' : Log) (signedJWT : result string) :
  signingFails sv data -> SignJWT sv data l = (signedJWT, l') -> signedJWT = Ok "".
Proof.
  intros Hfail Hrun. pose proof (SignJWT_signingFails sv data l Hfail) as H.
  rewrite Hrun in H. exact H.
Qed.

(** C4, what the code does: when the signing step of [SignJWT] fails (the
    header or the payload cannot be encoded, or [Sign] returns an error), the
    builders do not return an error.  [NewDeactivateRequest] returns a request
    whose signed data is the empty string as soon as [Commit] succeeded, and
    every request [NewRecoverRequest] and [NewUpdateRequest] return has the
    empty string as its signed data. *)
Theorem builders_return_unsigned_requests (signer : BTCSignerVerifier) :
  (forall (T : Type) (data : T), signingFails signer data) ->
  (forall didSuffix recoveryKey l rc l1,
      Commit recoveryKey l = (Ok rc, l1) ->
      exists l2,
        NewDeactivateRequest didSuffix recoveryKey signer l =
        (Ok {| DeactivateRequest_Type := Deactivate;
               DeactivateRequest_DIDSuffix := didSuffix;
               DeactivateRequest_RevealValue := fst rc;
               DeactivateRequest_SignedData := "" |}, l2))
  /\ (forall didSuffix recoveryKey nextRecoveryKey nextUpdateKey document l request l',
        NewRecoverRequest didSuffix recoveryKey nextRecoveryKey nextUpdateKey
                          document signer l = (Ok request, l') ->
        RecoverRequest_SignedData request = "")
  /\ (forall didSuffix updateKey nextUpdateKey stateChange l request l',
        NewUpdateRequest didSuffix updateKey nextUpdateKey signer stateChange l
        = (Ok request, l') ->
        UpdateRequest_SignedData request = "").
Proof.
  intros Hfail. split; [|split].
  - intros didSuffix recoveryKey l rc l1 HC.
    unfold NewDeactivateRequest, bind, wrapSignError, ret. rewrite HC.
    destruct (SignJWT signer _ l1) as [signedJWT l2] eqn:ES.
    rewrite (SignJWT_signingFails_run _ _ _ _ _ (Hfail _ _) ES).
    exists l2. reflexivity.
  - intros didSuffix recoveryKey nextRecoveryKey nextUpdateKey document l request l' H.
    unfold NewRecoverRequest, bind, lift, ret in H.
    run_steps H; try discriminate. injection H as <- _. cbn.
    match goal with
    | E : SignJWT signer _ _ = (Ok ?s, _) |- ?s = _ =>
        pose proof (SignJWT_signingFails_run _ _ _ _ _ (Hfail _ _) E) as Hs
    end.
    congruence.
  - intros didSuffix updateKey nextUpdateKey stateChange l request l' H.
    unfold NewUpdateRequest in H.
    destruct (IsValid stateChange); [discriminate|].
    unfold bind, lift, ret in H.
    run_steps H; try discriminate. injection H as <- _. cbn.
    match goal with
    | E : SignJWT signer _ _ = (Ok ?s, _) |- ?s = _ =>
        pose proof (SignJWT_signingFails_run _ _ _ _ _ (Hfail _ _) E) as Hs
    end.
    congruence.
Qed.

End UnsignedRequests.

(** ** The encoding round trip *)

(** C9: [Decode] after [Encode] succeeds and gives the bytes back, for every
    byte sequence; the empty sequence is encoded as the empty string and
    decoded from it. *)
Theorem Decode_Encode_roundtrip :
  (forall b : list byte, Decode (Encode b) = Ok b)
  /\ Encode [] = ""
  /\ Decode (Encode []) = Ok [].
Proof.
  split; [intros b; apply DecodeString_EncodeToString|].
  split; reflexivity.
Qed.

(** * Examples on the sample libraries *)

Lemma Commit_reveal_commitment_witness :
  Commit (L := Sample.libraries) "jwk" [] = (Ok ("EgMCe30", "EgQDAnt9"), [])
  /\ exists gotJWK canonicalKey revealHash commitmentHash,
      JWKFromPublicKeyJWK (Libraries := Sample.libraries) "jwk" = Ok gotJWK
      /\ CanonicalizeAny (L := Sample.libraries) gotJWK = Ok canonicalKey
      /\ Multihash (L := Sample.libraries) canonicalKey [] = (Ok revealHash, [])
      /\ Sample.frame (Sample.digest canonicalKey) SHA2_256 = Ok revealHash
      /\ "EgMCe30" = Encode revealHash
      /\ Multihash (L := Sample.libraries) (Hash (L := Sample.libraries) canonicalKey) []
         = (Ok commitmentHash, [])
      /\ Sample.frame (Sample.digest (Sample.digest canonicalKey)) SHA2_256
         = Ok commitmentHash
      /\ "EgQDAnt9" = Encode commitmentHash.
Proof.
  assert (Hrun : Commit (L := Sample.libraries) "jwk" [] = (Ok ("EgMCe30", "EgQDAnt9"), []))
    by (vm_compute; reflexivity).
  split; [exact Hrun|].
  exact (Commit_reveal_commitment (L := Sample.libraries) "jwk" [] []
                                  "EgMCe30" "EgQDAnt9" Hrun).
Defined.



(** With a digest that reads the state, a second call of [Commit] does not
    return what the first returned: the hypothesis on the libraries is
    needed, and the embedding can tell the difference. *)
Example Commit_salted :
  fst (stateful.Commit (L := Fixture.salted) "jwk" 0%nat)
  <> fst (stateful.Commit (L := Fixture.salted) "jwk"
            (snd (stateful.Commit (L := Fixture.salted) "jwk" 0%nat))).
Proof. vm_compute. discriminate. Qed.

Lemma NewUpdateRequest_patch_order_witness :
  NewUpdateRequest (L := Sample.libraries) "abc123" "jwk" "jwk2"
                   Sample.signer Sample.additions [] = (Ok Sample.updated, [])
  /\ map Action (Patches (UpdateRequest_Delta Sample.updated))
     = [AddServices; AddPublicKeys]
  /\ Patches (UpdateRequest_Delta Sample.updated)
     = [AddServicesAction AddServices [Sample.service "svc1"];
        AddPublicKeysAction AddPublicKeys [Sample.key "key1"]].
Proof.
  assert (Hvalid : IsValid (L := Sample.libraries) Sample.additions = None)
    by (vm_compute; reflexivity).
  assert (Hrun : NewUpdateRequest (L := Sample.libraries) "abc123" "jwk" "jwk2"
                                  Sample.signer Sample.additions []
                 = (Ok Sample.updated, [])) by (vm_compute; reflexivity).
  split; [exact Hrun|].
  destruct (NewUpdateRequest_patch_order (L := Sample.libraries) Sample.additions Hvalid)
    as (Hrequest & Horder & _ & _ & Htwo).
  rewrite (Hrequest _ _ _ _ _ _ _ Hrun).
  split; [exact Horder|].
  apply Htwo; [discriminate | discriminate | reflexivity | reflexivity].
Defined.

Lemma builders_return_unsigned_requests_witness :
  (forall (T : Type) (data : T), signingFails (L := Sample.unsignable) Sample.deadSigner data)
  /\ exists l2,
      NewDeactivateRequest (L := Sample.unsignable) "abc123" "jwk" Sample.deadSigner []
      = (Ok Sample.unsigned, l2).
Proof.
  assert (Hfail : forall (T : Type) (data : T),
             signingFails (L := Sample.unsignable) Sample.deadSigner data)
    by (intros T data; vm_compute; reflexivity).
  split; [exact Hfail|].
  destruct (builders_return_unsigned_requests (L := Sample.unsignable)
              Sample.deadSigner Hfail) as (Hdeactivate & _ & _).
  apply (Hdeactivate "abc123" "jwk" [] ("EgMCe30", "EgQDAnt9") []).
  vm_compute. reflexivity.
Defined.

Lemma JWS_double_hash_consistent_witness :
  fst (SignJWT (L := Sample.libraries) Sample.signer tt []) = Ok Sample.jws
  /\ VerifyJWS (L := Sample.libraries) Sample.signer Sample.jws = (false, None).
Proof.
  destruct (JWS_double_hash_consistent (L := Sample.libraries) Sample.signer tt []
              "e30" "e30" eq_refl eq_refl) as (_ & _ & Hmeet).
  destruct (Hmeet 1 2 Sample.signature eq_refl ltac:(vm_compute; reflexivity))
    as (jws & Hsigned & Hverified).
  assert (Hjws : jws = Sample.jws).
  { assert (Hrun : fst (SignJWT (L := Sample.libraries) Sample.signer tt [])
                   = Ok Sample.jws) by (vm_compute; reflexivity).
    congruence. }
  subst jws. split; [exact Hsigned | exact Hverified].
Defined.

Lemma VerifyJWS_malformed_witness :
  VerifyJWS (L := Sample.libraries) Sample.signer "only.two"
  = (false, Some "invalid JWS: only.two")
  /\ VerifyJWS (L := Sample.libraries) Sample.signer "e30.e30.e30.e30"
     = (false, Some "invalid JWS: e30.e30.e30.e30")
  /\ VerifyJWS (L := Sample.libraries) Sample.signer "e30.e30.AAA="
     = (false, Some "could not decode signature: illegal base64 data at input byte 3")
  /\ (exists err,
        Decode "A" = Err err
        /\ VerifyJWS (L := Sample.libraries) Sample.signer "e30.e30.A"
           = (false, Some ("could not decode signature: " +:+ err)))
  /\ (exists signature,
        Decode ("AA" +:+ String "010" "") = Ok signature
        /\ snd (VerifyJWS (L := Sample.libraries) Sample.signer
                          ("e30.e30.AA" +:+ String "010" "")) = None).
Proof.
  destruct (VerifyJWS_malformed (L := Sample.libraries) Sample.signer)
    as (Hparts & Hdots & _ & Hdecode & Hinvalid & Hvalid & _).
  split; [|split; [|split; [|split]]].
  - apply Hparts. vm_compute. discriminate.
  - apply Hdots. vm_compute. discriminate.
  - apply (Hdecode "e30.e30.AAA=" "e30" "e30" "AAA=" "illegal base64 data at input byte 3");
      vm_compute; reflexivity.
  - apply (Hinvalid "e30.e30.A" "e30" "e30" "A"); vm_compute; reflexivity.
  - destruct (Hvalid ("e30.e30.AA" +:+ String "010" "") "e30" "e30"
                     ("AA" +:+ String "010" "") eq_refl eq_refl)
      as (signature & HD & HV).
    exists signature. split; [exact HD|]. rewrite HV. reflexivity.
Defined.

(** The third part of "e30.e30.AA" followed by a line feed is not valid
    unpadded URL-safe base64: the line feed is not of the alphabet.  Yet
    [VerifyJWS] returns no error on it: the decoder skips the line feed. *)
Lemma VerifyJWS_line_feed_no_error :
  strings.Split ("e30.e30.AA" +:+ String "010" "") "."
  = ["e30"; "e30"; "AA" +:+ String "010" ""]
  /\ base64.valid ("AA" +:+ String "010" "") = false
  /\ VerifyJWS (L := Sample.libraries) Sample.signer ("e30.e30.AA" +:+ String "010" "")
     = (false, None)
  /\ ~ (exists err,
          snd (VerifyJWS (L := Sample.libraries) Sample.signer
                         ("e30.e30.AA" +:+ String "010" "")) = Some err).
Proof.
  assert (Hrun : VerifyJWS (L := Sample.libraries) Sample.signer
                           ("e30.e30.AA" +:+ String "010" "") = (false, None))
    by (vm_compute; reflexivity).
  split; [reflexivity|]. split; [reflexivity|]. split; [exact Hrun|].
  intros [err H]. rewrite Hrun in H. discriminate H.
Qed.

Lemma additionsValid_contradiction : additionsValid (L := Sample.libraries) Sample.contradiction.
Proof.
  unfold additionsValid. cbn. split; [|split; [|split]].
  - apply NoDup_singleton.
  - constructor; [|constructor]. split; vm_compute; discriminate.
  - constructor.
  - constructor.
Defined.

Lemma additionsValid_shadowed : additionsValid (L := Sample.libraries) Sample.shadowed.
Proof.
  unfold additionsValid. cbn. split; [|split; [|split]].
  - apply NoDup_singleton.
  - constructor; [|constructor]. split; vm_compute; discriminate.
  - constructor.
  - constructor.
Defined.


Lemma IsValid_rejects_contradiction_witness :
  IsValid (L := Sample.libraries) Sample.contradiction
  = Some "service<svc1> added and removed in same request"
  /\ NewUpdateRequest (L := Sample.libraries) "abc123" "jwk" "jwk2"
                      Sample.signer Sample.contradiction []
     = (Err "service<svc1> added and removed in same request", [])
  /\ references "service<svc1> added and removed in same request" "svc1"
  /\ IsValid (L := Sample.libraries) Sample.shadowed
     = Some ("service<" +:+ Sample.longID +:+ "> id is too long").
Proof.
  destruct (IsValid_rejects_contradiction (L := Sample.libraries)
              Sample.contradiction "svc1" "abc123" "jwk" "jwk2" Sample.signer []
              additionsValid_contradiction
              (or_introl (conj (or_introl eq_refl) (or_introl eq_refl))))
    as (err & Hinvalid & Hrequest & Hservice & _).
  destruct (Hservice [] [] eq_refl (or_introl eq_refl) (List.Forall_nil _)) as (-> & Href).
  split; [exact Hinvalid|]. split; [exact Hrequest|]. split; [exact Href|].
  assert (Hlong : ~ len Sample.longID <= maxIDLength) by (vm_compute; auto).
  destruct (IsValid_rejects_contradiction (L := Sample.libraries)
              Sample.shadowed "svc1" "abc123" "jwk" "jwk2" Sample.signer []
              additionsValid_shadowed
              (or_introl (conj (or_introl eq_refl) (or_intror (or_introl eq_refl)))))
    as (err & Hshadowed & _ & _ & _ & Hfirst).
  rewrite Hshadowed. f_equal.
  destruct Hfirst as [(pre & other & post & Hrm & Hpre & Hcase)|(Hall & _)].
  - destruct pre as [|a pre].
    + injection Hrm as <- _.
      destruct Hcase as [(Hin & _)|(_ & _ & ->)]; [|reflexivity].
      destruct Hin as [Hin|[]]. vm_compute in Hin. discriminate Hin.
    + injection Hrm as <- _. apply Forall_cons in Hpre as [[_ Hlen] _]. contradiction.
  - apply Forall_cons in Hall as [[_ Hlen] _]. contradiction.
Defined.

(** On [Sample.shadowed] the service "svc1" is added and removed, the
    additions are valid, and the error [IsValid] returns is about another
    removal id: it does not reference "svc1". *)
Lemma contradiction_error_names_another_id :
  additionsValid (L := Sample.libraries) Sample.shadowed
  /\ In "svc1" (map Service_ID (ServicesToAdd Sample.shadowed))
  /\ In "svc1" (ServiceIDsToRemove Sample.shadowed)
  /\ IsValid (L := Sample.libraries) Sample.shadowed
     = Some ("service<" +:+ Sample.longID +:+ "> id is too long")
  /\ ~ (exists err, IsValid (L := Sample.libraries) Sample.shadowed = Some err
                    /\ references err "svc1").
Proof.
  assert (Hrun : IsValid (L := Sample.libraries) Sample.shadowed
                 = Some ("service<" +:+ Sample.longID +:+ "> id is too long"))
    by (vm_compute; reflexivity).
  split; [exact additionsValid_shadowed|].
  split; [left; reflexivity|].
  split; [right; left; reflexivity|].
  split; [exact Hrun|].
  intros (err & Herr & Href). rewrite Hrun in Herr. injection Herr as <-.
  unfold references in Href. vm_compute in Href. discriminate.
Qed.


(** * Test vectors of the library models *)

Example Encode_foobar :
  base64.EncodeToString (bytes_of_string "foobar") = "Zm9vYmFy".
Proof. reflexivity. Qed.

Example Encode_remainders :
  base64.EncodeToString (bytes_of_string "fo") = "Zm8"
  /\ base64.EncodeToString (bytes_of_string "f") = "Zg"
  /\ base64.EncodeToString [xfb; xff] = "-_8".
Proof. repeat split. Qed.

Example Decode_samples :
  base64.DecodeString "Zm9vYmFy" = Ok (bytes_of_string "foobar")
  /\ base64.DecodeString "Zm8" = Ok (bytes_of_string "fo")
  /\ base64.DecodeString "Zg" = Ok (bytes_of_string "f")
  /\ base64.DecodeString "Z" = Err "illegal base64 data at input byte 0"
  /\ base64.DecodeString "Zm9v=" = Err "illegal base64 data at input byte 4"
  /\ base64.DecodeString "Zm+v" = Err "illegal base64 data at input byte 2".
Proof. repeat split. Qed.

Example Split_samples :
  strings.Split "only.two" "." = ["only"; "two"]
  /\ strings.Split "" "." = [""]
  /\ strings.Split "a..b." "." = ["a"; ""; "b"; ""].
Proof. repeat split. Qed.

Example toCompactHex_samples :
  toCompactHex 1 2 = Ok Sample.signature
  /\ toCompactHex (2 ^ 256) 2 = Err "received invalid unpadded hex"
  /\ toCompactHex (-1) 2 = Err "invalid byte sequence".
Proof. repeat split; vm_compute; reflexivity. Qed.

(** * Further properties of the package *)

(** ** StateChange.IsValid, completely *)
Section ValidationComplete.

Context {L : Libraries}.

(** X1: [IsValid] returns nil exactly on the state changes whose additions
    have distinct ids of at most 50 bytes (and service types of at most 30)
    and whose removal ids are at most 50 bytes long and not among the ids
    added to the same list.  Nothing else is looked at: not the type of a
    key, not an endpoint, not a repetition among the removals. *)
Theorem IsValid_nil_iff (s : StateChange) :
  IsValid s = None
  <-> additionsValid s
      /\ Forall (removable (map Service_ID (ServicesToAdd s))) (ServiceIDsToRemove s)
      /\ Forall (removable (map PublicKey_ID (PublicKeysToAdd s))) (PublicKeyIDsToRemove s).
Proof.
  split.
  - intros H.
    assert (Hadd : additionsValid s).
    { apply additionsValid_iff. unfold IsValid in H.
      destruct (indexServices (ServicesToAdd s) ∅); [|discriminate].
      destruct (indexPublicKeys (PublicKeysToAdd s) ∅); [|discriminate].
      split; reflexivity. }
    split; [exact Hadd|].
    destruct (IsValid_additionsValid s Hadd) as (services & publicKeys & HdS & HdK & HV).
    rewrite HV in H.
    destruct (checkServiceIDsToRemove (ServiceIDsToRemove s) services) eqn:ES;
      [discriminate|].
    split.
    + exact (checkServiceIDsToRemove_None_inv _ _ _ HdS ES).
    + exact (checkPublicKeyIDsToRemove_None_inv _ _ _ HdK H).
  - intros (Hadd & HS & HK).
    destruct (IsValid_additionsValid s Hadd) as (services & publicKeys & HdS & HdK & ->).
    rewrite (checkServiceIDsToRemove_None _ _ _ HdS HS).
    exact (checkPublicKeyIDsToRemove_None _ _ _ HdK HK).
Qed.

Lemma indexServices_app (pre rest : list Service) (services : gmap string Service) :
  indexServices (pre ++ rest) services =
  match indexServices pre services with
  | Ok services' => indexServices rest services'
  | Err err => Err err
  end.
Proof.
  revert services. induction pre as [|service pre IH]; intros services; [reflexivity|].
  cbn [app indexServices].
  destruct (services !! Service_ID service); [reflexivity|].
  destruct (maxIDLength <? len (Service_ID service)); [reflexivity|].
  destruct (maxServiceTypeLength <? len (Service_Type service)); [reflexivity|].
  apply IH.
Qed.

Lemma indexPublicKeys_app (pre rest : list PublicKey) (publicKeys : gmap string PublicKey) :
  indexPublicKeys (pre ++ rest) publicKeys =
  match indexPublicKeys pre publicKeys with
  | Ok publicKeys' => indexPublicKeys rest publicKeys'
  | Err err => Err err
  end.
Proof.
  revert publicKeys. induction pre as [|publicKey pre IH]; intros publicKeys; [reflexivity|].
  cbn [app indexPublicKeys].
  destruct (publicKeys !! PublicKey_ID publicKey); [reflexivity|].
  destruct (maxIDLength <? len (PublicKey_ID publicKey)); [reflexivity|].
  apply IH.
Qed.

(** X2: [IsValid] reports the first service to add that breaks a rule, and
    which rule: with the services before it valid, a service whose id one of
    them has is reported as duplicated; otherwise an id of more than 50 bytes
    is reported as too long; otherwise a type of more than 30 bytes is.  No
    later service, key or removal is looked at. *)
Theorem IsValid_first_invalid_service
        (s : StateChange) (pre post : list Service) (service : Service) :
  ServicesToAdd s = pre ++ service :: post ->
  NoDup (map Service_ID pre) ->
  Forall (fun service => len (Service_ID service) <= maxIDLength
                         /\ len (Service_Type service) <= maxServiceTypeLength) pre ->
  (In (Service_ID service) (map Service_ID pre) ->
   IsValid s = Some ("service " +:+ Service_ID service +:+ " duplicated"))
  /\ (~ In (Service_ID service) (map Service_ID pre) ->
      maxIDLength < len (Service_ID service) ->
      IsValid s = Some ("service<" +:+ Service_ID service +:+ "> id is too long"))
  /\ (~ In (Service_ID service) (map Service_ID pre) ->
      len (Service_ID service) <= maxIDLength ->
      maxServiceTypeLength < len (Service_Type service) ->
      IsValid s = Some ("service<" +:+ Service_ID service +:+ "> type "
                        +:+ Service_Type service +:+ " is too long")).
Proof.
  intros Hadd Hnd Hlen.
  destruct (indexServices_Ok pre ∅) as (services & HOk & Hdom);
    [intros; apply lookup_empty | exact Hnd | exact Hlen |].
  assert (Hdom' : forall id, is_Some (services !! id) <-> In id (map Service_ID pre)).
  { intros id. rewrite Hdom, lookup_empty.
    split; [intros [[? H]|H]; [discriminate|exact H] | auto]. }
  unfold IsValid. rewrite Hadd, indexServices_app, HOk. cbn [indexServices].
  split; [|split].
  - intros Hin. apply Hdom' in Hin as [other ->]. reflexivity.
  - intros Hnotin Hlong.
    destruct (services !! Service_ID service) eqn:E;
      [exfalso; apply Hnotin, Hdom'; eexists; exact E|].
    apply Z.ltb_lt in Hlong. rewrite Hlong. reflexivity.
  - intros Hnotin Hid Hlong.
    destruct (services !! Service_ID service) eqn:E;
      [exfalso; apply Hnotin, Hdom'; eexists; exact E|].
    rewrite (len_le_ltb _ _ Hid). apply Z.ltb_lt in Hlong. rewrite Hlong. reflexivity.
Qed.

(** X3: with all the services to add valid, [IsValid] reports the first
    public key to add that breaks a rule: a key whose id an earlier key has is
    reported as duplicated, otherwise an id of more than 50 bytes as too
    long.  The removal lists are not looked at. *)
Theorem IsValid_first_invalid_key
        (s : StateChange) (pre post : list PublicKey) (publicKey : PublicKey) :
  is_Ok (indexServices (ServicesToAdd s) ∅) = true ->
  PublicKeysToAdd s = pre ++ publicKey :: post ->
  NoDup (map PublicKey_ID pre) ->
  Forall (fun publicKey => len (PublicKey_ID publicKey) <= maxIDLength) pre ->
  (In (PublicKey_ID publicKey) (map PublicKey_ID pre) ->
   IsValid s = Some ("public key<" +:+ PublicKey_ID publicKey +:+ "> is duplicated"))
  /\ (~ In (PublicKey_ID publicKey) (map PublicKey_ID pre) ->
      maxIDLength < len (PublicKey_ID publicKey) ->
      IsValid s = Some ("public key<" +:+ PublicKey_ID publicKey +:+ "> id is too long")).
Proof.
  intros HS Hadd Hnd Hlen.
  destruct (indexPublicKeys_Ok pre ∅) as (publicKeys & HOk & Hdom);
    [intros; apply lookup_empty | exact Hnd | exact Hlen |].
  assert (Hdom' : forall id, is_Some (publicKeys !! id) <-> In id (map PublicKey_ID pre)).
  { intros id. rewrite Hdom, lookup_empty.
    split; [intros [[? H]|H]; [discriminate|exact H] | auto]. }
  unfold IsValid.
  destruct (indexServices (ServicesToAdd s) ∅) as [services|]; [|discriminate].
  rewrite Hadd, indexPublicKeys_app, HOk. cbn [indexPublicKeys].
  split.
  - intros Hin. apply Hdom' in Hin as [other ->]. reflexivity.
  - intros Hnotin Hlong.
    destruct (publicKeys !! PublicKey_ID publicKey) eqn:E;
      [exfalso; apply Hnotin, Hdom'; eexists; exact E|].
    apply Z.ltb_lt in Hlong. rewrite Hlong. reflexivity.
Qed.

End ValidationComplete.

(** ** The builders, field by field *)
Section BuildersComplete.

Context {L : Libraries}.

(** X4: compiling the patches loses nothing: two state changes with the same
    patches are the same state change (their lists have the same elements),
    and the patch list is empty only for the state change that adds and
    removes nothing. *)
Theorem updatePatches_lossless (s1 s2 : StateChange) :
  (updatePatches s1 = updatePatches s2 -> s1 = s2)
  /\ (updatePatches s1 = []
      <-> ServicesToAdd s1 = [] /\ ServiceIDsToRemove s1 = []
          /\ PublicKeysToAdd s1 = [] /\ PublicKeyIDsToRemove s1 = []).
Proof.
  split.
  - destruct s1 as [a1 b1 c1 d1], s2 as [a2 b2 c2 d2]. unfold updatePatches.
    cbn [ServicesToAdd ServiceIDsToRemove PublicKeysToAdd PublicKeyIDsToRemove].
    destruct a1, b1, c1, d1, a2, b2, c2, d2;
      cbn [List.length Nat.ltb Nat.leb app]; intros H; congruence.
  - destruct s1 as [a1 b1 c1 d1]. unfold updatePatches.
    cbn [ServicesToAdd ServiceIDsToRemove PublicKeysToAdd PublicKeyIDsToRemove].
    destruct a1, b1, c1, d1; cbn [List.length Nat.ltb Nat.leb app];
      split; intros H; try discriminate; try tauto;
      destruct H as (H1 & H2 & H3 & H4); discriminate.
Qed.

(** What a successful [Commit] returns, read off the library calls. *)
Lemma Commit_Ok_inv (key : PublicKeyJWK) (l l' : Log) (reveal commitment : string) :
  Commit key l = (Ok (reveal, commitment), l') ->
  exists gotJWK canonicalKey revealHash commitmentHash,
    JWKFromPublicKeyJWK key = Ok gotJWK
    /\ CanonicalizeAny gotJWK = Ok canonicalKey
    /\ multihash_Encode (sha256_Sum256 canonicalKey) SHA2_256 = Ok revealHash
    /\ reveal = Encode revealHash
    /\ multihash_Encode (sha256_Sum256 (sha256_Sum256 canonicalKey)) SHA2_256
       = Ok commitmentHash
    /\ commitment = Encode commitmentHash.
Proof.
  rewrite Commit_run. intros H.
  destruct (JWKFromPublicKeyJWK key) as [gotJWK|] eqn:EJ; [|discriminate].
  destruct (CanonicalizeAny gotJWK) as [canonicalKey|] eqn:EC; [|discriminate].
  destruct (multihash_Encode (sha256_Sum256 canonicalKey) SHA2_256)
    as [revealHash|] eqn:ER; [|discriminate].
  destruct (multihash_Encode (sha256_Sum256 (Hash canonicalKey)) SHA2_256)
    as [commitmentHash|] eqn:EM; [|discriminate].
  injection H as <- <- _.
  exists gotJWK, canonicalKey, revealHash, commitmentHash. auto 10.
Qed.

(** The value of [Commit] in one log is its value in any other. *)
Lemma Commit_in_any_log (key : PublicKeyJWK) (l l' l0 : Log) (rc : string * string) :
  Commit key l = (Ok rc, l') -> fst (Commit key l0) = Ok rc.
Proof.
  intros H. rewrite (Commit_value key l0 l), H. reflexivity.
Qed.

(** The fields of the requests the builders return. *)
Lemma NewCreateRequest_Ok
      (recoveryKey updateKey : PublicKeyJWK) (document : Document) (l l' : Log)
      (request : CreateRequest) :
  NewCreateRequest recoveryKey updateKey document l = (Ok request, l') ->
  exists uc rc deltaCanonical,
    fst (Commit updateKey l) = Ok uc
    /\ fst (Commit recoveryKey l) = Ok rc
    /\ CreateRequest_Type request = Create
    /\ CreateRequest_Delta request
       = {| UpdateCommitment := snd uc; Patches := [ReplaceAction Replace document] |}
    /\ CanonicalizeAny (CreateRequest_Delta request) = Ok deltaCanonical
    /\ fst (HashEncode deltaCanonical l) = Ok (DeltaHash (CreateRequest_SuffixData request))
    /\ RecoveryCommitment (CreateRequest_SuffixData request) = snd rc
    /\ l' = l.
Proof.
  unfold NewCreateRequest, bind, lift, ret. intros H.
  destruct (Commit updateKey l) as [[uc|] l1] eqn:EU; [|discriminate].
  pose proof (Commit_Ok_log _ _ _ _ EU) as ->.
  destruct (CanonicalizeAny _) as [deltaCanonical|] eqn:EC; [|discriminate].
  destruct (HashEncode deltaCanonical l) as [[deltaHash|] l2] eqn:EH; [|discriminate].
  assert (l2 = l) as ->.
  { rewrite HashEncode_run in EH. destruct (multihash_Encode _ _); congruence. }
  destruct (Commit recoveryKey l) as [[rc|] l3] eqn:ER; [|discriminate].
  pose proof (Commit_Ok_log _ _ _ _ ER) as ->.
  injection H as <- <-. exists uc, rc, deltaCanonical.
  cbn [CreateRequest_Type CreateRequest_Delta CreateRequest_SuffixData DeltaHash
       RecoveryCommitment].
  rewrite EC, EH. cbn [fst]. repeat split; reflexivity.
Qed.

Lemma NewUpdateRequest_fields
      (didSuffix : string) (updateKey nextUpdateKey : PublicKeyJWK)
      (signer : BTCSignerVerifier) (stateChange : StateChange) (l l' : Log)
      (request : UpdateRequest) :
  NewUpdateRequest didSuffix updateKey nextUpdateKey signer stateChange l
  = (Ok request, l') ->
  exists uc nuc,
    fst (Commit updateKey l) = Ok uc
    /\ fst (Commit nextUpdateKey l) = Ok nuc
    /\ UpdateRequest_Type request = Update
    /\ UpdateRequest_DIDSuffix request = didSuffix
    /\ UpdateRequest_RevealValue request = fst uc
    /\ UpdateRequest_Delta request
       = {| UpdateCommitment := snd nuc; Patches := updatePatches stateChange |}.
Proof.
  unfold NewUpdateRequest. destruct (IsValid stateChange); [discriminate|].
  unfold bind, lift, ret. intros H.
  destruct (Commit updateKey l) as [[uc|] l1] eqn:EU; [|discriminate].
  pose proof (Commit_Ok_log _ _ _ _ EU) as ->.
  destruct (Commit nextUpdateKey l) as [[nuc|] l2] eqn:EN; [|discriminate].
  run_steps H; try discriminate. injection H as <- _.
  exists uc, nuc. cbn [fst]. repeat split; reflexivity.
Qed.

Lemma NewRecoverRequest_fields
      (didSuffix : string) (recoveryKey nextRecoveryKey nextUpdateKey : PublicKeyJWK)
      (document : Document) (signer : BTCSignerVerifier) (l l' : Log)
      (request : RecoverRequest) :
  NewRecoverRequest didSuffix recoveryKey nextRecoveryKey nextUpdateKey document signer l
  = (Ok request, l') ->
  exists rc uc,
    fst (Commit recoveryKey l) = Ok rc
    /\ fst (Commit nextUpdateKey l) = Ok uc
    /\ RecoverRequest_Type request = Recover
    /\ RecoverRequest_DIDSuffix request = didSuffix
    /\ RecoverRequest_RevealValue request = fst rc
    /\ RecoverRequest_Delta request
       = {| UpdateCommitment := snd uc; Patches := [ReplaceAction Replace document] |}.
Proof.
  unfold NewRecoverRequest, bind, lift, ret. intros H.
  destruct (Commit recoveryKey l) as [[rc|] l1] eqn:ER; [|discriminate].
  pose proof (Commit_Ok_log _ _ _ _ ER) as ->.
  destruct (Commit nextUpdateKey l) as [[uc|] l2] eqn:EN; [|discriminate].
  run_steps H; try discriminate. injection H as <- _.
  exists rc, uc. cbn [fst]. repeat split; reflexivity.
Qed.

Lemma NewDeactivateRequest_fields
      (didSuffix : string) (recoveryKey : PublicKeyJWK) (signer : BTCSignerVerifier)
      (l l' : Log) (request : DeactivateRequest) :
  NewDeactivateRequest didSuffix recoveryKey signer l = (Ok request, l') ->
  exists rc,
    fst (Commit recoveryKey l) = Ok rc
    /\ DeactivateRequest_Type request = Deactivate
    /\ DeactivateRequest_DIDSuffix request = didSuffix
    /\ DeactivateRequest_RevealValue request = fst rc.
Proof.
  unfold NewDeactivateRequest, bind, wrapSignError, ret. intros H.
  destruct (Commit recoveryKey l) as [[rc|] l1] eqn:ER; [|discriminate].
  run_steps H; try discriminate. injection H as <- _.
  exists rc. cbn [fst]. repeat split; reflexivity.
Qed.

(** X5: the commitment chain.  For a key on which [Commit] gives (reveal,
    commitment), every request that publishes a commitment to that key
    (Create and Recover and Update as the next update key, Create as the
    recovery key) carries that commitment, and every request that reveals the
    key (Update as the update key, Recover and Deactivate as the recovery key)
    carries that reveal value; the two are the encoded multihash frames of the
    digest of one canonical key and of the digest of that digest. *)
Theorem commitment_chain (key : PublicKeyJWK) (l0 : Log) (reveal commitment : string) :
  fst (Commit key l0) = Ok (reveal, commitment) ->
  (forall recoveryKey document l request l',
      NewCreateRequest recoveryKey key document l = (Ok request, l') ->
      UpdateCommitment (CreateRequest_Delta request) = commitment)
  /\ (forall didSuffix recoveryKey nextRecoveryKey document signer l request l',
        NewRecoverRequest didSuffix recoveryKey nextRecoveryKey key document signer l
        = (Ok request, l') ->
        UpdateCommitment (RecoverRequest_Delta request) = commitment)
  /\ (forall didSuffix updateKey signer stateChange l request l',
        NewUpdateRequest didSuffix updateKey key signer stateChange l = (Ok request, l') ->
        UpdateCommitment (UpdateRequest_Delta request) = commitment)
  /\ (forall updateKey document l request l',
        NewCreateRequest key updateKey document l = (Ok request, l') ->
        RecoveryCommitment (CreateRequest_SuffixData request) = commitment)
  /\ (forall didSuffix nextUpdateKey signer stateChange l request l',
        NewUpdateRequest didSuffix key nextUpdateKey signer stateChange l
        = (Ok request, l') ->
        UpdateRequest_RevealValue request = reveal)
  /\ (forall didSuffix nextRecoveryKey nextUpdateKey document signer l request l',
        NewRecoverRequest didSuffix key nextRecoveryKey nextUpdateKey document signer l
        = (Ok request, l') ->
        RecoverRequest_RevealValue request = reveal)
  /\ (forall didSuffix signer l request l',
        NewDeactivateRequest didSuffix key signer l = (Ok request, l') ->
        DeactivateRequest_RevealValue request = reveal)
  /\ (exists canonicalKey revealHash commitmentHash,
        multihash_Encode (sha256_Sum256 canonicalKey) SHA2_256 = Ok revealHash
        /\ reveal = Encode revealHash
        /\ multihash_Encode (sha256_Sum256 (sha256_Sum256 canonicalKey)) SHA2_256
           = Ok commitmentHash
        /\ commitment = Encode commitmentHash).
Proof.
  intros HC.
  assert (Hany : forall l rc, fst (Commit key l) = Ok rc -> rc = (reveal, commitment)).
  { intros l rc H. rewrite (Commit_value key l l0), HC in H. congruence. }
  repeat split.
  - intros recoveryKey document l request l' H.
    apply NewCreateRequest_Ok in H as (uc & rc & dc & HU & _ & _ & HD & _).
    rewrite HD. cbn. apply Hany in HU. subst uc. reflexivity.
  - intros didSuffix recoveryKey nextRecoveryKey document signer l request l' H.
    apply NewRecoverRequest_fields in H as (rc & uc & _ & HU & _ & _ & _ & HD).
    rewrite HD. cbn. apply Hany in HU. subst uc. reflexivity.
  - intros didSuffix updateKey signer stateChange l request l' H.
    apply NewUpdateRequest_fields in H as (uc & nuc & _ & HN & _ & _ & _ & HD).
    rewrite HD. cbn. apply Hany in HN. subst nuc. reflexivity.
  - intros updateKey document l request l' H.
    apply NewCreateRequest_Ok in H as (uc & rc & dc & _ & HR & _ & _ & _ & _ & HRC & _).
    rewrite HRC. apply Hany in HR. subst rc. reflexivity.
  - intros didSuffix nextUpdateKey signer stateChange l request l' H.
    apply NewUpdateRequest_fields in H as (uc & nuc & HU & _ & _ & _ & HR & _).
    rewrite HR. apply Hany in HU. subst uc. reflexivity.
  - intros didSuffix nextRecoveryKey nextUpdateKey document signer l request l' H.
    apply NewRecoverRequest_fields in H as (rc & uc & HR & _ & _ & _ & HRV & _).
    rewrite HRV. apply Hany in HR. subst rc. reflexivity.
  - intros didSuffix signer l request l' H.
    apply NewDeactivateRequest_fields in H as (rc & HR & _ & _ & HRV).
    rewrite HRV. apply Hany in HR. subst rc. reflexivity.
  - destruct (Commit key l0) as [r l1] eqn:E. cbn in HC. subst r.
    apply Commit_Ok_inv in E
      as (gotJWK & canonicalKey & revealHash & commitmentHash & _ & _ & H1 & H2 & H3 & H4).
    exists canonicalKey, revealHash, commitmentHash. auto.
Qed.

(** X6: a recovery sets what a creation would have set: for the same (next)
    update key and the same document, [NewCreateRequest] and
    [NewRecoverRequest] build the same delta, a single Replace patch with the
    document under the commitment to the key. *)
Theorem Create_Recover_same_delta
        (didSuffix : string) (recoveryKey recoveryKey' nextRecoveryKey updateKey : PublicKeyJWK)
        (document : Document) (signer : BTCSignerVerifier) (l1 l1' l2 l2' : Log)
        (created : CreateRequest) (recovered : RecoverRequest) :
  NewCreateRequest recoveryKey updateKey document l1 = (Ok created, l1') ->
  NewRecoverRequest didSuffix recoveryKey' nextRecoveryKey updateKey document signer l2
  = (Ok recovered, l2') ->
  CreateRequest_Delta created = RecoverRequest_Delta recovered
  /\ map Action (Patches (RecoverRequest_Delta recovered)) = [Replace].
Proof.
  intros HC HR.
  apply NewCreateRequest_Ok in HC as (uc & _ & _ & HU & _ & _ & HD & _).
  apply NewRecoverRequest_fields in HR as (_ & uc' & _ & HU' & _ & _ & _ & HD').
  rewrite (Commit_value updateKey l2 l1), HU in HU'. injection HU' as <-.
  rewrite HD, HD'. split; reflexivity.
Qed.

(** [SignJWT] never returns an error. *)
Lemma SignJWT_never_errors {T : Type} (sv : BTCSignerVerifier) (data : T) (l : Log) :
  exists jws l', SignJWT sv data l = (Ok jws, l').
Proof.
  unfold SignJWT.
  destruct (EncodeAny (GetJWSHeader sv)); [|eauto].
  destruct (EncodeAny data); [|eauto].
  cbv zeta. destruct (Sign sv _); eauto.
Qed.

(** X7: [NewDeactivateRequest] fails exactly when [Commit] fails on the
    recovery key, and returns the error of [Commit]: the error "failed to sign
    JWT" of its signing step is never returned, whatever the signer. *)
Theorem NewDeactivateRequest_errors
        (didSuffix : string) (recoveryKey : PublicKeyJWK) (signer : BTCSignerVerifier)
        (l : Log) (err : error) :
  fst (NewDeactivateRequest didSuffix recoveryKey signer l) = Err err
  <-> fst (Commit recoveryKey l) = Err err.
Proof.
  unfold NewDeactivateRequest, bind, wrapSignError, ret.
  destruct (Commit recoveryKey l) as [[rc|e] l1];
    [|cbn; split; intros [= ->]; reflexivity].
  destruct (SignJWT_never_errors signer
              {| dsd_DIDSuffix := didSuffix; dsd_RecoveryKey := recoveryKey |} l1)
    as (jws & l2 & ->).
  cbn. split; discriminate.
Qed.

End BuildersComplete.

(** ** strings.Split, once more *)

Lemma Split_nonempty (s : string) (sep : ascii) : strings.Split s sep <> [].
Proof.
  intros H. pose proof (Split_length s sep) as HL. rewrite H in HL. discriminate.
Qed.

(** Joining the pieces gives the string back. *)
Lemma Join_Split (s : string) (sep : ascii) :
  strings.Join (strings.Split s sep) sep = s.
Proof.
  induction s as [|c s IH]; [reflexivity|]. cbn [strings.Split].
  destruct (Ascii.eqb_spec c sep) as [->|Hne].
  - pose proof (Split_nonempty s sep) as Hne.
    destruct (strings.Split s sep) as [|piece pieces]; [contradiction|].
    cbn [strings.Join] in *. rewrite append_empty, IH. reflexivity.
  - pose proof (Split_nonempty s sep) as Hn.
    destruct (strings.Split s sep) as [|piece pieces]; [contradiction|].
    destruct pieces as [|piece' pieces]; cbn [strings.Join] in *.
    + rewrite IH. reflexivity.
    + rewrite append_String, IH. reflexivity.
Qed.

(** No piece holds the separator. *)
Lemma Split_pieces_no_sep (s : string) (sep : ascii) :
  Forall (fun piece => strings.Count piece sep = 0%nat) (strings.Split s sep).
Proof.
  induction s as [|c s IH]; cbn [strings.Split].
  - constructor; [reflexivity|constructor].
  - destruct (Ascii.eqb c sep) eqn:E.
    + constructor; [reflexivity|exact IH].
    + destruct (strings.Split s sep) as [|piece pieces];
        [constructor; [cbn; rewrite E; reflexivity|constructor]|].
      apply Forall_cons in IH as [Hp Hps].
      constructor; [|exact Hps]. cbn [strings.Count]. rewrite E, Hp. reflexivity.
Qed.

(** Splitting two strings joined by the separator. *)
Lemma Split_append_sep (s t : string) (sep : ascii) :
  strings.Split (s +:+ String sep t) sep = strings.Split s sep ++ strings.Split t sep.
Proof.
  induction s as [|c s IH]; rewrite ?append_empty, ?append_String; cbn [strings.Split].
  - rewrite Ascii.eqb_refl. reflexivity.
  - destruct (Ascii.eqb c sep); rewrite IH; [reflexivity|].
    pose proof (Split_nonempty s sep) as Hn.
    destruct (strings.Split s sep) as [|piece pieces]; [contradiction|]. reflexivity.
Qed.

Lemma Split_three_inv (s a b c : string) (sep : ascii) :
  strings.Split s sep = [a; b; c] ->
  s = a +:+ String sep (b +:+ String sep c)
  /\ strings.Count a sep = 0%nat /\ strings.Count b sep = 0%nat
  /\ strings.Count c sep = 0%nat.
Proof.
  intros H. pose proof (Join_Split s sep) as HJ.
  pose proof (Split_pieces_no_sep s sep) as HP. rewrite H in HJ, HP.
  apply Forall_cons in HP as [Ha HP]. apply Forall_cons in HP as [Hb HP].
  apply Forall_cons in HP as [Hc _].
  cbn [strings.Join] in HJ. auto.
Qed.

(** ** The compact JWS *)
Section CompactJWS.

Context {L : Libraries}.

Lemma EncodeAny_Ok_inv {T : Type} (data : T) (encoded : string) :
  EncodeAny data = Ok encoded ->
  exists anyBytes, json_Marshal T data = Ok anyBytes /\ encoded = Encode anyBytes
                   /\ Decode encoded = Ok anyBytes.
Proof.
  unfold EncodeAny. destruct (json_Marshal T data) as [anyBytes|]; [|discriminate].
  intros [= <-]. exists anyBytes. rewrite Decode_Encode. auto.
Qed.

(** A non-empty result of [SignJWT], taken apart. *)
Lemma SignJWT_Ok_inv {T : Type} (sv : BTCSignerVerifier) (data : T) (l l' : Log)
      (jws : string) :
  SignJWT sv data l = (Ok jws, l') -> jws <> "" ->
  exists h p g headerBytes payloadBytes signed,
    jws = h +:+ "." +:+ p +:+ "." +:+ g
    /\ strings.Split jws "." = [h; p; g]
    /\ json_Marshal _ (GetJWSHeader sv) = Ok headerBytes /\ Decode h = Ok headerBytes
    /\ json_Marshal T data = Ok payloadBytes /\ Decode p = Ok payloadBytes
    /\ Sign sv (Hash (bytes_of_string (h +:+ "." +:+ p))) = Ok signed
    /\ Decode g = Ok signed
    /\ l' = l.
Proof.
  unfold SignJWT. intros H Hne.
  destruct (EncodeAny (GetJWSHeader sv)) as [h|] eqn:EH;
    [|injection H as <- _; contradiction].
  destruct (EncodeAny data) as [p|] eqn:EP; [|injection H as <- _; contradiction].
  cbv zeta in H.
  destruct (Sign sv _) as [signed|] eqn:ES; [|injection H as <- _; contradiction].
  injection H as <- <-.
  pose proof (EncodeAny_no_dot _ _ EH) as Hh. pose proof (EncodeAny_no_dot _ _ EP) as Hp.
  apply EncodeAny_Ok_inv in EH as (headerBytes & MH & _ & DH).
  apply EncodeAny_Ok_inv in EP as (payloadBytes & MP & _ & DP).
  exists h, p, (Encode signed), headerBytes, payloadBytes, signed.
  rewrite Decode_Encode.
  repeat split; try assumption; try reflexivity.
  apply Split_compact; [exact Hh | exact Hp | apply Encode_no_dot].
Qed.

(** X8: [SignJWT] never returns an error.  What it returns is the empty
    string, exactly when its signing step fails, or a compact JWS of exactly
    three segments without line breaks or padding: the first decodes to the
    JSON of the header, the second to the JSON of the payload, the third to
    the signature [Sign] makes of the hash of the first two joined by a dot;
    in that case nothing is logged. *)
Theorem SignJWT_compact {T : Type} (sv : BTCSignerVerifier) (data : T) (l : Log) :
  exists jws l',
    SignJWT sv data l = (Ok jws, l')
    /\ (jws = "" <-> signingFails sv data)
    /\ (jws <> "" ->
        exists h p g headerBytes payloadBytes signed,
          strings.Split jws "." = [h; p; g]
          /\ json_Marshal _ (GetJWSHeader sv) = Ok headerBytes
          /\ Decode h = Ok headerBytes
          /\ json_Marshal T data = Ok payloadBytes /\ Decode p = Ok payloadBytes
          /\ Sign sv (Hash (bytes_of_string (h +:+ "." +:+ p))) = Ok signed
          /\ Decode g = Ok signed
          /\ l' = l).
Proof.
  destruct (SignJWT_never_errors sv data l) as (jws & l' & Hrun).
  exists jws, l'. split; [exact Hrun|]. split.
  - split.
    + intros ->. unfold signingFails. unfold SignJWT in Hrun.
      destruct (EncodeAny (GetJWSHeader sv)) as [h|]; [|exact I].
      destruct (EncodeAny data) as [p|]; [|exact I].
      cbv zeta in Hrun. destruct (Sign sv _); [|reflexivity].
      injection Hrun as Hjws _. destruct h; discriminate.
    + intros Hfail. pose proof (SignJWT_signingFails sv data l Hfail) as H.
      rewrite Hrun in H. cbn in H. congruence.
  - intros Hne.
    destruct (SignJWT_Ok_inv sv data l l' jws Hrun Hne)
      as (h & p & g & hb & pb & signed & _ & H).
    exists h, p, g, hb, pb, signed. exact H.
Qed.

(** X9: [VerifyJWS] answers true only without an error, and only for a
    string of exactly three segments whose third decodes and which
    [ecdsa.VerifyASN1] accepts against the double hash of the first two
    segments; the first two segments are hashed as they are, never decoded. *)
Theorem VerifyJWS_true_only_if (sv : BTCSignerVerifier) (jws : string) (err : option error) :
  VerifyJWS sv jws = (true, err) ->
  err = None
  /\ exists p0 p1 p2 signature,
      jws = p0 +:+ "." +:+ p1 +:+ "." +:+ p2
      /\ strings.Count p0 "." = 0%nat /\ strings.Count p1 "." = 0%nat
      /\ strings.Count p2 "." = 0%nat
      /\ Decode p2 = Ok signature
      /\ ecdsa_VerifyASN1 (publicKey sv)
                          (Hash (Hash (bytes_of_string (p0 +:+ "." +:+ p1)))) signature
         = true.
Proof.
  intros H.
  destruct (Nat.eq_dec (List.length (strings.Split jws ".")) 3%nat) as [E|E].
  - destruct (strings.Split jws ".") as [|p0 [|p1 [|p2 [|]]]] eqn:HS; try discriminate.
    rewrite (VerifyJWS_three_parts sv jws p0 p1 p2 HS) in H.
    destruct (Decode p2) as [signature|] eqn:HD; [|discriminate].
    injection H as HV <-. split; [reflexivity|].
    apply Split_three_inv in HS as (Hj & H0 & H1 & H2).
    exists p0, p1, p2, signature. auto 10.
  - unfold VerifyJWS in H.
    destruct (Nat.eqb_spec (List.length (strings.Split jws ".")) 3%nat); [contradiction|].
    discriminate.
Qed.

End CompactJWS.

(** ** What the builders sign *)
Section SignedRequests.

Context {L : Libraries}.

Lemma HashEncode_Ok_inv (data : list byte) (l l' : Log) (encoded : string) :
  HashEncode data l = (Ok encoded, l') ->
  l' = l /\ exists multiHashed,
      multihash_Encode (sha256_Sum256 data) SHA2_256 = Ok multiHashed
      /\ encoded = Encode multiHashed.
Proof.
  rewrite HashEncode_run.
  destruct (multihash_Encode _ _) as [multiHashed|]; [|discriminate].
  intros [= <- <-]. eauto.
Qed.

Lemma SignJWT_signedBy {T : Type} (sv : BTCSignerVerifier) (data : T) (l l' : Log)
      (jws : string) :
  SignJWT sv data l = (Ok jws, l') -> jws <> "" -> signedBy sv data jws /\ l' = l.
Proof.
  intros H Hne.
  destruct (SignJWT_Ok_inv sv data l l' jws H Hne)
    as (h & p & g & hb & pb & signed & _ & HS & H1 & H2 & H3 & H4 & H5 & H6 & ->).
  split; [|reflexivity]. exists h, p, g, hb, pb, signed. auto 10.
Qed.

(** X10: a create request carries the hash of its own delta: the delta hash
    of the suffix data is the encoded multihash frame of the digest of the
    canonical JSON of the delta in the request; the request has the type
    Create, and building it logs nothing. *)
Theorem NewCreateRequest_suffix_data
        (recoveryKey updateKey : PublicKeyJWK) (document : Document) (l l' : Log)
        (request : CreateRequest) :
  NewCreateRequest recoveryKey updateKey document l = (Ok request, l') ->
  CreateRequest_Type request = Create
  /\ hashOfDelta (CreateRequest_Delta request)
                 (DeltaHash (CreateRequest_SuffixData request))
  /\ l' = l.
Proof.
  intros H.
  apply NewCreateRequest_Ok in H as (uc & rc & dc & _ & _ & HT & _ & HC & HH & _ & ->).
  split; [exact HT|]. split; [|reflexivity].
  destruct (HashEncode dc l) as [r l1] eqn:E. cbn [fst] in HH. subst r.
  apply HashEncode_Ok_inv in E as (_ & multiHashed & HM & HE).
  exists dc, multiHashed. auto.
Qed.

(** X11: the signed data of an update request, when it is not empty, is a
    compact JWS the signer made of the update key and of the hash of the
    delta the request carries; building the request logged nothing. *)
Theorem NewUpdateRequest_signed_data
        (didSuffix : string) (updateKey nextUpdateKey : PublicKeyJWK)
        (signer : BTCSignerVerifier) (stateChange : StateChange) (l l' : Log)
        (request : UpdateRequest) :
  NewUpdateRequest didSuffix updateKey nextUpdateKey signer stateChange l
  = (Ok request, l') ->
  UpdateRequest_SignedData request <> "" ->
  exists deltaHash,
    hashOfDelta (UpdateRequest_Delta request) deltaHash
    /\ signedBy signer {| usd_UpdateKey := updateKey; usd_DeltaHash := deltaHash |}
                (UpdateRequest_SignedData request)
    /\ l' = l.
Proof.
  unfold NewUpdateRequest. destruct (IsValid stateChange); [discriminate|].
  unfold bind, lift, ret. intros H Hne.
  destruct (Commit updateKey l) as [[uc|] l1] eqn:EU; [|discriminate].
  pose proof (Commit_Ok_log _ _ _ _ EU) as ->.
  destruct (Commit nextUpdateKey l) as [[nuc|] l2] eqn:EN; [|discriminate].
  pose proof (Commit_Ok_log _ _ _ _ EN) as ->.
  destruct (CanonicalizeAny _) as [deltaCanonical|] eqn:EC; [|discriminate].
  destruct (HashEncode deltaCanonical l) as [[deltaHash|] l3] eqn:EH; [|discriminate].
  apply HashEncode_Ok_inv in EH as (-> & multiHashed & HM & HE).
  destruct (SignJWT signer _ l) as [[signedJWT|] l4] eqn:ES; [|discriminate].
  injection H as <- <-. cbn [UpdateRequest_SignedData UpdateRequest_Delta] in *.
  apply SignJWT_signedBy in ES as (HS & ->); [|exact Hne].
  exists deltaHash. split; [exists deltaCanonical, multiHashed; auto|]. auto.
Qed.

(** X12: the signed data of a recover request, when it is not empty, is a
    compact JWS the signer made of the commitment to the next recovery key,
    of the recovery key and of the hash of the delta the request carries;
    building the request logged nothing. *)
Theorem NewRecoverRequest_signed_data
        (didSuffix : string) (recoveryKey nextRecoveryKey nextUpdateKey : PublicKeyJWK)
        (document : Document) (signer : BTCSignerVerifier) (l l' : Log)
        (request : RecoverRequest) :
  NewRecoverRequest didSuffix recoveryKey nextRecoveryKey nextUpdateKey document signer l
  = (Ok request, l') ->
  RecoverRequest_SignedData request <> "" ->
  exists deltaHash nrc,
    hashOfDelta (RecoverRequest_Delta request) deltaHash
    /\ fst (Commit nextRecoveryKey l) = Ok nrc
    /\ signedBy signer {| rsd_RecoveryCommitment := snd nrc;
                          rsd_RecoveryKey := recoveryKey;
                          rsd_DeltaHash := deltaHash |}
                (RecoverRequest_SignedData request)
    /\ l' = l.
Proof.
  unfold NewRecoverRequest, bind, lift, ret. intros H Hne.
  destruct (Commit recoveryKey l) as [[rc|] l1] eqn:ER; [|discriminate].
  pose proof (Commit_Ok_log _ _ _ _ ER) as ->.
  destruct (Commit nextUpdateKey l) as [[uc|] l2] eqn:EN; [|discriminate].
  pose proof (Commit_Ok_log _ _ _ _ EN) as ->.
  destruct (CanonicalizeAny _) as [deltaCanonical|] eqn:EC; [|discriminate].
  destruct (HashEncode deltaCanonical l) as [[deltaHash|] l3] eqn:EH; [|discriminate].
  apply HashEncode_Ok_inv in EH as (-> & multiHashed & HM & HE).
  destruct (Commit nextRecoveryKey l) as [[nrc|] l5] eqn:ENR; [|discriminate].
  pose proof (Commit_Ok_log _ _ _ _ ENR) as ->.
  destruct (SignJWT signer _ l) as [[signedJWT|] l4] eqn:ES; [|discriminate].
  injection H as <- <-. cbn [RecoverRequest_SignedData RecoverRequest_Delta] in *.
  apply SignJWT_signedBy in ES as (HS & ->); [|exact Hne].
  exists deltaHash, nrc. split; [exists deltaCanonical, multiHashed; auto|]. auto.
Qed.

(** X13: the signed data of a deactivate request, when it is not empty, is a
    compact JWS the signer made of the DID suffix and of the recovery key;
    building the request logged nothing. *)
Theorem NewDeactivateRequest_signed_data
        (didSuffix : string) (recoveryKey : PublicKeyJWK) (signer : BTCSignerVerifier)
        (l l' : Log) (request : DeactivateRequest) :
  NewDeactivateRequest didSuffix recoveryKey signer l = (Ok request, l') ->
  DeactivateRequest_SignedData request <> "" ->
  signedBy signer {| dsd_DIDSuffix := didSuffix; dsd_RecoveryKey := recoveryKey |}
           (DeactivateRequest_SignedData request)
  /\ l' = l.
Proof.
  unfold NewDeactivateRequest, bind, wrapSignError, ret. intros H Hne.
  destruct (Commit recoveryKey l) as [[rc|] l1] eqn:ER; [|discriminate].
  pose proof (Commit_Ok_log _ _ _ _ ER) as ->.
  destruct (SignJWT signer _ l) as [[signedJWT|] l4] eqn:ES; [|discriminate].
  injection H as <- <-. cbn [DeactivateRequest_SignedData] in *.
  apply SignJWT_signedBy in ES as (HS & ->); [|exact Hne]. auto.
Qed.

End SignedRequests.

(** ** The compact signature *)
Section CompactSignature.

Import HexadecimalFacts hex.

Context {L : Libraries}.

Lemma digitValue_range d : 0 <= digitValue d < 16.
Proof. destruct d; cbn; lia. Qed.

Lemma hexDigit_digitChar d : strconv.hexDigit (digitChar d) = Some (digitValue d).
Proof. destruct d; reflexivity. Qed.

Lemma render_to_list u : HexadecimalString.NilEmpty.string_of_uint u = render (to_list u).
Proof. induction u; cbn; rewrite ?IHu; reflexivity. Qed.

Lemma render_app a b : render (a ++ b) = render a +:+ render b.
Proof.
  induction a as [|d a IH]; [reflexivity|]. cbn. rewrite IH. reflexivity.
Qed.

Lemma render_length l : String.length (render l) = List.length l.
Proof. induction l; cbn; congruence. Qed.

Lemma zeros_render k : fmt.zeros k = render (repeat d0 k).
Proof. induction k; cbn; congruence. Qed.

Lemma list_ind_by_2 {A} (P : list A -> Prop) :
  P [] -> (forall a, P [a]) -> (forall a b l, P l -> P (a :: b :: l)) -> forall l, P l.
Proof.
  intros H0 H1 H2. fix IH 1. intros [|a [|b l]]; [apply H0 | apply H1 | apply H2, IH].
Qed.

Lemma parseHexBytes_render l : parseHexBytes (render l) = Ok (pairs l).
Proof.
  induction l as [|a|a b l IH] using list_ind_by_2; [reflexivity|reflexivity|].
  cbn [render parseHexBytes pairs]. unfold strconv.ParseUint_16_8.
  rewrite !hexDigit_digitChar, IH. reflexivity.
Qed.

Lemma digitsValue_acc l acc :
  fold_left (fun acc d => 16 * acc + digitValue d) l acc
  = acc * 16 ^ Z.of_nat (List.length l) + digitsValue l.
Proof.
  unfold digitsValue. revert acc. induction l as [|d l IH]; intros acc.
  - cbn. lia.
  - cbn [fold_left List.length]. rewrite IH, (IH (16 * 0 + digitValue d)).
    rewrite Nat2Z.inj_succ, Z.pow_succ_r by lia. lia.
Qed.

Lemma digitsValue_cons d l :
  digitsValue (d :: l) = digitValue d * 16 ^ Z.of_nat (List.length l) + digitsValue l.
Proof.
  unfold digitsValue at 1. cbn [fold_left]. rewrite digitsValue_acc. lia.
Qed.

Lemma digitsValue_range l : 0 <= digitsValue l < 16 ^ Z.of_nat (List.length l).
Proof.
  induction l as [|d l IH]; [cbn; lia|].
  rewrite digitsValue_cons. cbn [List.length]. rewrite Nat2Z.inj_succ, Z.pow_succ_r by lia.
  pose proof (digitValue_range d). nia.
Qed.

Lemma digitsValue_zeros k l : digitsValue (repeat d0 k ++ l) = digitsValue l.
Proof.
  induction k as [|k IH]; [reflexivity|].
  cbn [repeat app]. rewrite digitsValue_cons, IH. cbn. lia.
Qed.

Lemma byte_of_Z_mod (a b : Z) : a mod 256 = b mod 256 -> byte_of_Z a = byte_of_Z b.
Proof. unfold byte_of_Z. intros ->. reflexivity. Qed.

(** The bytes above the width do not count. *)
Lemma bigEndian_high (k m : nat) (x y : Z) :
  (k <= m)%nat -> bigEndian k (x * 2 ^ (8 * Z.of_nat m) + y) = bigEndian k y.
Proof.
  induction k as [|k IH]; intros Hk; [reflexivity|].
  cbn [bigEndian]. rewrite IH by lia. f_equal.
  apply byte_of_Z_mod. rewrite !Z.shiftr_div_pow2 by lia.
  replace (8 * Z.of_nat m) with (8 + 8 * Z.of_nat (m - k - 1) + 8 * Z.of_nat k) by lia.
  rewrite !Z.pow_add_r by lia.
  rewrite Z.mul_assoc, Z.div_add_l by lia.
  change (2 ^ 8) with 256.
  set (p := 2 ^ (8 * Z.of_nat (m - k - 1))). set (q := y / 2 ^ (8 * Z.of_nat k)).
  replace (x * (256 * p) + q) with (q + (x * p) * 256) by lia.
  apply Z_mod_plus_full.
Qed.

Lemma pairs_bigEndian (l : list digits) (m : nat) :
  List.length l = (2 * m)%nat -> pairs l = bigEndian m (digitsValue l).
Proof.
  revert m. induction l as [|a|a b l IH] using list_ind_by_2; intros m Hm.
  - destruct m; [reflexivity|discriminate].
  - cbn in Hm. lia.
  - destruct m as [|m]; [discriminate|]. cbn [List.length] in Hm.
    assert (Hl : List.length l = (2 * m)%nat) by lia.
    cbn [pairs bigEndian]. rewrite (IH m Hl).
    rewrite !digitsValue_cons. cbn [List.length]. rewrite Hl.
    pose proof (digitsValue_range l) as Hr. rewrite Hl in Hr.
    assert (Hp : 16 ^ Z.of_nat (2 * m) = 2 ^ (8 * Z.of_nat m)).
    { change 16 with (2 ^ 4). rewrite <- Z.pow_mul_r by lia. f_equal. lia. }
    rewrite Hp in Hr.
    replace (Z.of_nat (S (2 * m))) with (1 + Z.of_nat (2 * m)) by lia.
    rewrite Z.pow_add_r, Hp by lia. change (16 ^ 1) with 16.
    set (p := 2 ^ (8 * Z.of_nat m)) in *.
    replace (digitValue a * (16 * p) + (digitValue b * p + digitsValue l))
      with ((16 * digitValue a + digitValue b) * p + digitsValue l) by lia.
    f_equal.
    + f_equal. rewrite Z.shiftr_div_pow2 by lia. fold p.
      rewrite Z.div_add_l by lia. rewrite Z.div_small by lia. lia.
    + symmetry. apply bigEndian_high. lia.
Qed.

(** Stdlib's value of a numeral, on the list of its digits. *)
Lemma of_lu_to_list u :
  Z.of_N (HexadecimalPos.Unsigned.of_lu u) = digitsValue (List.rev (to_list u)).
Proof.
  induction u; cbn [HexadecimalPos.Unsigned.of_lu to_list List.rev];
    [reflexivity|..];
    unfold digitsValue; rewrite fold_left_app; cbn [fold_left];
    fold (digitsValue (List.rev (to_list u))); rewrite <- IHu; cbn [digitValue]; lia.
Qed.

Lemma of_hex_uint_to_list u : Z.of_N (N.of_hex_uint u) = digitsValue (to_list u).
Proof.
  unfold N.of_hex_uint. rewrite HexadecimalPos.Unsigned.of_uint_alt, of_lu_to_list.
  rewrite rev_spec, List.rev_involutive. reflexivity.
Qed.

Lemma Sprintf_x_hexDigits (num : Z) : 0 <= num -> fmt.Sprintf_x num = render (hexDigits num).
Proof.
  intros H. unfold fmt.Sprintf_x, hexDigits.
  assert (E : Z.to_hex_int num = Hexadecimal.Pos (N.to_hex_uint (Z.to_N num))).
  { destruct num as [|p|p]; [reflexivity|reflexivity|lia]. }
  rewrite E. cbn [HexadecimalString.NilZero.string_of_int].
  unfold HexadecimalString.NilZero.string_of_uint.
  destruct (N.to_hex_uint (Z.to_N num)) eqn:Eu; try reflexivity;
    rewrite render_to_list; reflexivity.
Qed.

Lemma digitsValue_hexDigits (num : Z) : 0 <= num -> digitsValue (hexDigits num) = num.
Proof.
  intros H. unfold hexDigits.
  pose proof (of_hex_uint_to_list (N.to_hex_uint (Z.to_N num))) as E.
  rewrite HexadecimalN.Unsigned.of_to in E. rewrite Z2N.id in E by lia.
  destruct (to_list (N.to_hex_uint (Z.to_N num))); [cbn in E; rewrite E; reflexivity|].
  congruence.
Qed.

Lemma lnzhead_head (l : list digits) :
  lnzhead l = [] \/ exists d l', lnzhead l = d :: l' /\ d <> d0.
Proof.
  induction l as [|d l IH]; [left; reflexivity|].
  destruct d; cbn [lnzhead]; try exact IH; right; eexists _, _; split; try reflexivity;
    discriminate.
Qed.

Lemma hexDigits_length (num : Z) (k : nat) :
  0 <= num < 16 ^ Z.of_nat k -> (0 < k)%nat -> (List.length (hexDigits num) <= k)%nat.
Proof.
  intros H Hk. pose proof (digitsValue_hexDigits num ltac:(lia)) as Hv.
  unfold hexDigits in *.
  pose proof (HexadecimalN.Unsigned.to_of (N.to_hex_uint (Z.to_N num))) as Hu.
  rewrite HexadecimalN.Unsigned.of_to in Hu.
  set (u := N.to_hex_uint (Z.to_N num)) in *.
  assert (Hn : to_list u = lunorm (to_list u))
    by (rewrite <- unorm_spec, <- Hu; reflexivity).
  unfold lunorm in Hn.
  destruct (lnzhead_head (to_list u)) as [E|(d & l' & E & Hd)]; rewrite E in Hn.
  - rewrite Hn. cbn. lia.
  - rewrite Hn in *. rewrite digitsValue_cons in Hv.
    pose proof (digitsValue_range l') as Hr.
    assert (1 <= digitValue d) by (destruct d; cbn; try lia; contradiction).
    cbn [List.length].
    destruct (Nat.le_gt_cases (S (List.length l')) k) as [|Hgt]; [assumption|exfalso].
    assert (16 ^ Z.of_nat k <= 16 ^ Z.of_nat (List.length l'))
      by (apply Z.pow_le_mono_r; lia).
    nia.
Qed.


Lemma even_of_nat (n : nat) : (Z.of_nat n mod 2 =? 0) = Nat.even n.
Proof.
  rewrite <- Zeven_mod.
  induction n as [n IH] using (well_founded_induction Wf_nat.lt_wf).
  destruct n as [|[|n]]; [reflexivity|reflexivity|].
  rewrite !Nat2Z.inj_succ, Z.even_succ_succ. cbn [Nat.even]. apply IH. lia.
Qed.

Lemma string_length_append (s t : string) :
  String.length (s +:+ t) = (String.length s + String.length t)%nat.
Proof.
  induction s as [|c s IH]; [reflexivity|]. rewrite append_String. cbn. rewrite IH.
  reflexivity.
Qed.

Lemma string_append_assoc (s t u : string) : (s +:+ t) +:+ u = s +:+ (t +:+ u).
Proof.
  induction s as [|c s IH]; [reflexivity|]. rewrite !append_String, IH. reflexivity.
Qed.

Lemma pairs_app (a b : list digits) :
  Nat.even (List.length a) = true -> pairs (a ++ b) = pairs a ++ pairs b.
Proof.
  induction a as [|x|x y a IH] using list_ind_by_2; intros H;
    [reflexivity|discriminate|].
  cbn [pairs app]. rewrite IH by exact H. reflexivity.
Qed.

(** [numTo32bStr] on a number that is not negative: its digits, with zeros
    in front up to 64. *)
Lemma numTo32bStr_render (num : Z) :
  0 <= num ->
  numTo32bStr num = render (repeat d0 (64 - List.length (hexDigits num)) ++ hexDigits num).
Proof.
  intros H. unfold numTo32bStr, fmt.Sprintf_064s.
  rewrite (Sprintf_x_hexDigits num H), render_length, zeros_render, render_app.
  reflexivity.
Qed.

Lemma numTo32bStr_64 (num : Z) :
  0 <= num < 2 ^ 256 ->
  exists l, numTo32bStr num = render l /\ List.length l = 64%nat /\ digitsValue l = num.
Proof.
  intros H. eexists. split; [apply numTo32bStr_render; lia|].
  pose proof (hexDigits_length num 64 ltac:(change (16 ^ Z.of_nat 64) with (2 ^ 256); lia)
                ltac:(lia)) as Hlen.
  split.
  - rewrite length_app, repeat_length. lia.
  - rewrite digitsValue_zeros. apply digitsValue_hexDigits. lia.
Qed.

Lemma toCompactHex_in_range (r s : Z) :
  0 <= r < 2 ^ 256 -> 0 <= s < 2 ^ 256 ->
  toCompactHex r s = Ok (bigEndian 32 r ++ bigEndian 32 s).
Proof.
  intros Hr Hs.
  destruct (numTo32bStr_64 r Hr) as (lr & Er & Hlr & Hvr).
  destruct (numTo32bStr_64 s Hs) as (ls & Es & Hls & Hvs).
  unfold toCompactHex. rewrite Er, Es, <- render_app.
  cbv zeta. rewrite even_of_nat, render_length, length_app, Hlr, Hls.
  cbn [Nat.even Nat.add negb].
  rewrite parseHexBytes_render, pairs_app by (rewrite Hlr; reflexivity).
  rewrite (pairs_bigEndian lr 32), (pairs_bigEndian ls 32), Hvr, Hvs by assumption.
  reflexivity.
Qed.

Lemma bigEndian_length (n : nat) (num : Z) : List.length (bigEndian n num) = n.
Proof. induction n; cbn; congruence. Qed.

Lemma parseHexBytes_stops (la : list digits) (c : ascii) (rest : string) :
  strconv.hexDigit c = None ->
  Nat.even (String.length (render la +:+ String c rest)) = true ->
  parseHexBytes (render la +:+ String c rest) = Err "invalid byte sequence".
Proof.
  intros Hc. induction la as [|a|a b la IH] using list_ind_by_2; intros Hlen.
  - cbn [render] in *. rewrite append_empty in *.
    destruct rest as [|c2 rest]; [discriminate|].
    cbn [parseHexBytes]. unfold strconv.ParseUint_16_8. rewrite Hc. reflexivity.
  - cbn [render] in *. rewrite append_String, append_empty in *.
    cbn [parseHexBytes]. unfold strconv.ParseUint_16_8.
    rewrite hexDigit_digitChar, Hc. reflexivity.
  - cbn [render] in *. rewrite !append_String in *.
    cbn [parseHexBytes]. unfold strconv.ParseUint_16_8. rewrite !hexDigit_digitChar.
    rewrite IH by exact Hlen. reflexivity.
Qed.

Lemma numTo32bStr_negative (num : Z) :
  num < 0 -> exists la rest, numTo32bStr num = render la +:+ String "-" rest.
Proof.
  intros H. destruct num as [|p|p]; try lia.
  unfold numTo32bStr, fmt.Sprintf_064s, fmt.Sprintf_x.
  cbn [Z.to_hex_int HexadecimalString.NilZero.string_of_int].
  rewrite zeros_render. eauto.
Qed.

Lemma toCompactHex_negative (r s : Z) :
  r < 0 \/ s < 0 ->
  toCompactHex r s = Err "received invalid unpadded hex"
  \/ toCompactHex r s = Err "invalid byte sequence".
Proof.
  intros H. unfold toCompactHex. cbv zeta. rewrite even_of_nat.
  destruct (Nat.even _) eqn:E; [right|left; reflexivity]. cbn [negb].
  destruct (Z.lt_ge_cases r 0) as [Hr|Hr].
  - destruct (numTo32bStr_negative r Hr) as (la & rest & Er).
    rewrite Er, string_append_assoc, append_String in *.
    apply parseHexBytes_stops; [reflexivity|exact E].
  - destruct H as [H|Hs]; [lia|].
    destruct (numTo32bStr_negative s Hs) as (la & rest & Es).
    rewrite (numTo32bStr_render r Hr), Es, <- string_append_assoc, <- render_app in *.
    apply parseHexBytes_stops; [reflexivity|exact E].
Qed.

(** X14: [Sign] returns 64 bytes when [ecdsa.Sign] gives [r] and [s] below
    2^256 and not negative (as it does on a 256-bit curve): the 32 bytes of
    [r] and the 32 bytes of [s], each with the most significant byte first
    and zeros in front.  The round trip through hexadecimal text in
    [toCompactHex] and [numTo32bStr] changes nothing and never fails
    there. *)
Theorem Sign_fixed_width (sv : BTCSignerVerifier) (data : list byte) (r s : Z) :
  ecdsa_Sign (privateKey sv) (Hash data) = Ok (r, s) ->
  0 <= r < 2 ^ 256 -> 0 <= s < 2 ^ 256 ->
  toCompactHex r s = Ok (bigEndian 32 r ++ bigEndian 32 s)
  /\ Sign sv data = Ok (bigEndian 32 r ++ bigEndian 32 s)
  /\ List.length (bigEndian 32 r ++ bigEndian 32 s) = 64%nat.
Proof.
  intros HS Hr Hs. pose proof (toCompactHex_in_range r s Hr Hs) as HC.
  split; [exact HC|]. split.
  - unfold Sign. cbv zeta. rewrite HS. exact HC.
  - rewrite length_app, !bigEndian_length. reflexivity.
Qed.

(** X15: [toCompactHex] returns an error when [r] or [s] is negative: the
    minus sign [fmt] prints is no hexadecimal digit, so either the text has
    an odd length or the conversion of a byte fails.  [Sign] then returns
    that error. *)
Theorem toCompactHex_rejects_negative (sv : BTCSignerVerifier) (data : list byte) (r s : Z) :
  r < 0 \/ s < 0 ->
  (toCompactHex r s = Err "received invalid unpadded hex"
   \/ toCompactHex r s = Err "invalid byte sequence")
  /\ (ecdsa_Sign (privateKey sv) (Hash data) = Ok (r, s) ->
      Sign sv data = toCompactHex r s).
Proof.
  intros H. split; [apply toCompactHex_negative; exact H|].
  intros HS. unfold Sign. cbv zeta. rewrite HS. reflexivity.
Qed.

End CompactSignature.

(** ** The message rows of the BBS+ verifier *)

Lemma substring_0_all (s : string) : substring 0 (String.length s) s = s.
Proof. induction s as [|c s IH]; [reflexivity|]. cbn. rewrite IH. reflexivity. Qed.

Lemma substring_0_append (a b : string) : substring 0 (String.length a) (a +:+ b) = a.
Proof.
  induction a as [|c a IH]; [destruct b; reflexivity|].
  rewrite append_String. cbn. rewrite IH. reflexivity.
Qed.

Lemma substring_skip (a b : string) (n m : nat) :
  substring (String.length a + n) m (a +:+ b) = substring n m b.
Proof.
  induction a as [|c a IH]; [reflexivity|]. rewrite append_String. cbn. exact IH.
Qed.

Lemma len_append (s t : string) : len (s +:+ t) = len s + len t.
Proof. unfold len. rewrite string_length_append. lia. Qed.

Lemma len_nonneg (s : string) : 0 <= len s.
Proof. unfold len. lia. Qed.

(** Slices of a string made of three parts. *)
Lemma slice_middle (a b c : string) :
  bbs.slice (a +:+ b +:+ c) (len a) (len a + len b) = Some b.
Proof.
  unfold bbs.slice. rewrite !len_append.
  pose proof (len_nonneg a). pose proof (len_nonneg b). pose proof (len_nonneg c).
  replace ((0 <=? len a) && (len a <=? len a + len b)
           && (len a + len b <=? len a + (len b + len c))) with true
    by (symmetry; rewrite !andb_true_iff, !Z.leb_le; lia).
  f_equal. unfold len. rewrite Nat2Z.id.
  replace (Z.to_nat (Z.of_nat (String.length a) + Z.of_nat (String.length b)
                     - Z.of_nat (String.length a))) with (String.length b) by lia.
  rewrite <- (Nat.add_0_r (String.length a)), substring_skip.
  apply substring_0_append.
Qed.

Lemma HasPrefix_split (s prefix : string) :
  strings.HasPrefix s prefix = true -> exists post, s = prefix +:+ post.
Proof.
  revert s. induction prefix as [|a prefix IH]; intros s H; [exists s; reflexivity|].
  destruct s as [|b s]; [discriminate|]. cbn [strings.HasPrefix] in H.
  apply andb_true_iff in H as [Hab H]. apply Ascii.eqb_eq in Hab as ->.
  destruct (IH s H) as [post ->]. exists post. rewrite append_String. reflexivity.
Qed.

Lemma Index_unfold (s substr : string) :
  strings.Index s substr =
  if strings.HasPrefix s substr then 0
  else match s with
       | EmptyString => -1
       | String _ s' =>
           let i := strings.Index s' substr in if i <? 0 then -1 else i + 1
       end.
Proof. destruct s; reflexivity. Qed.

(** [strings.Index] returns -1 or the length of what precedes an occurrence. *)
Lemma Index_split (s substr : string) :
  strings.Index s substr = -1
  \/ exists pre post, s = pre +:+ substr +:+ post /\ strings.Index s substr = len pre.
Proof.
  induction s as [|c s IH]; rewrite Index_unfold.
  - destruct (strings.HasPrefix "" substr) eqn:E; [right|left; reflexivity].
    apply HasPrefix_split in E as [post E]. exists "", post. auto.
  - destruct (strings.HasPrefix (String c s) substr) eqn:E.
    + right. apply HasPrefix_split in E as [post E]. exists "", post. auto.
    + cbv zeta. destruct IH as [->|(pre & post & Hs & ->)]; [left; reflexivity|right].
      pose proof (len_nonneg pre). destruct (Z.ltb_spec (len pre) 0); [lia|].
      exists (String c pre), post. rewrite append_String, <- Hs. split; [reflexivity|].
      unfold len. cbn [String.length]. lia.
Qed.

(** The first occurrence of a byte. *)
Lemma Index_byte (a b : string) (c : ascii) :
  strings.Count a c = 0%nat ->
  strings.Index (a +:+ String c b) (String c "") = len a.
Proof.
  induction a as [|x a IH]; intros H.
  - rewrite append_empty, Index_unfold. cbn [strings.HasPrefix].
    rewrite Ascii.eqb_refl. reflexivity.
  - rewrite append_String, Index_unfold. cbn [strings.HasPrefix strings.Count] in *.
    destruct (Ascii.eqb x c) eqn:E; [discriminate|].
    rewrite (Ascii.eqb_sym c x), E. cbn [andb]. cbv zeta. rewrite IH by exact H.
    pose proof (len_nonneg a). destruct (Z.ltb_spec (len a) 0); [lia|].
    unfold len. cbn [String.length]. lia.
Qed.

Lemma Index_byte_none (a : string) (c : ascii) :
  strings.Count a c = 0%nat -> strings.Index a (String c "") = -1.
Proof.
  induction a as [|x a IH]; intros H; [reflexivity|].
  rewrite Index_unfold. cbn [strings.HasPrefix strings.Count] in *.
  destruct (Ascii.eqb x c) eqn:E; [discriminate|].
  rewrite (Ascii.eqb_sym c x), E. cbn [andb]. cbv zeta. rewrite IH by exact H. reflexivity.
Qed.

(** A string is cut at the first occurrence of a byte, if there is one. *)
Lemma cut_at_byte (s : string) (c : ascii) :
  strings.Count s c = 0%nat
  \/ exists a b, s = a +:+ String c b /\ strings.Count a c = 0%nat.
Proof.
  induction s as [|x s IH]; [left; reflexivity|].
  destruct (Ascii.eqb x c) eqn:E.
  - right. apply Ascii.eqb_eq in E as ->. exists "", s. auto.
  - destruct IH as [H|(a & b & -> & H)].
    + left. cbn. rewrite E. exact H.
    + right. exists (String x a), b. split; [reflexivity|]. cbn. rewrite E. exact H.
Qed.

Lemma append_nil_r (s : string) : s +:+ "" = s.
Proof. induction s as [|c s IH]; [reflexivity|]. rewrite append_String, IH. reflexivity. Qed.

Lemma slice_parts (a b c row : string) (x y : Z) :
  row = a +:+ b +:+ c -> x = len a -> y = len a + len b -> bbs.slice row x y = Some b.
Proof. intros -> -> ->. apply slice_middle. Qed.

Ltac flatten :=
  unfold bbs.emptyNodePlaceholder;
  repeat first [rewrite string_append_assoc | rewrite append_String
               | rewrite append_empty | rewrite append_nil_r].

Ltac lengths :=
  unfold bbs.emptyNodePlaceholder, bbs.emptyNodePrefixLen, len;
  repeat rewrite string_length_append; cbn [String.length]; lia.

(** [transformFromBlankNode] at the first placeholder of a row. *)
Lemma transform_at (pre post : string) :
  strings.Index (pre +:+ bbs.emptyNodePlaceholder +:+ post) bbs.emptyNodePlaceholder
  = len pre ->
  (strings.Count post ">" = 0%nat ->
   bbs.transformFromBlankNode (pre +:+ bbs.emptyNodePlaceholder +:+ post)
   = Some (pre +:+ bbs.emptyNodePlaceholder +:+ post))
  /\ (forall a b, post = a +:+ String ">" b -> strings.Count a ">" = 0%nat ->
      bbs.transformFromBlankNode (pre +:+ bbs.emptyNodePlaceholder +:+ post)
      = Some (pre +:+ "_:c14n" +:+ a +:+ b)).
Proof.
  intros Hi. unfold bbs.transformFromBlankNode. rewrite Hi. cbv zeta.
  pose proof (len_nonneg pre) as Hpre.
  destruct (Z.ltb_spec (len pre) 0) as [|_]; [lia|].
  set (row := pre +:+ bbs.emptyNodePlaceholder +:+ post).
  assert (Htail : bbs.slice row (len pre) (len row)
                  = Some (bbs.emptyNodePlaceholder +:+ post))
    by (apply (slice_parts pre _ ""); subst row; [flatten; reflexivity|lengths..]).
  rewrite Htail. split.
  - intros Hnone.
    rewrite (Index_byte_none (bbs.emptyNodePlaceholder +:+ post) ">")
      by (unfold bbs.emptyNodePlaceholder; rewrite !append_String, append_empty;
          cbn [strings.Count Ascii.eqb Bool.eqb]; exact Hnone).
    reflexivity.
  - intros a b Hpost Ha.
    assert (Hsep : strings.Index (bbs.emptyNodePlaceholder +:+ post) ">"
                   = 16 + len a).
    { subst post.
      replace (bbs.emptyNodePlaceholder +:+ a +:+ String ">" b)
        with (("<urn:bnid:_:c14n" +:+ a) +:+ String ">" b) by (flatten; reflexivity).
      rewrite Index_byte; [lengths|].
      rewrite !append_String, append_empty.
      cbn [strings.Count Ascii.eqb Bool.eqb]. exact Ha. }
    rewrite Hsep. pose proof (len_nonneg a).
    destruct (Z.ltb_spec (16 + len a) 0) as [|_]; [lia|].
    assert (H1 : bbs.slice row 0 (len pre) = Some pre)
      by (apply (slice_parts "" _ (bbs.emptyNodePlaceholder +:+ post)); subst row;
          [flatten; reflexivity|lengths..]).
    assert (H2 : bbs.slice row (len pre + bbs.emptyNodePrefixLen) (16 + len a + len pre)
                 = Some ("_:c14n" +:+ a))
      by (apply (slice_parts (pre +:+ "<urn:bnid:") _ (String ">" b)); subst row post;
          [flatten; reflexivity|lengths..]).
    assert (H3 : bbs.slice row (16 + len a + len pre + 1) (len row) = Some b)
      by (apply (slice_parts (pre +:+ "<urn:bnid:_:c14n" +:+ a +:+ ">") _ "");
          subst row post; [flatten; reflexivity|lengths..]).
    rewrite H1, H2, H3. reflexivity.
Qed.

Lemma Index_range (s substr : string) : -1 <= strings.Index s substr.
Proof.
  destruct (Index_split s substr) as [->|(pre & post & _ & ->)]; [lia|].
  pose proof (len_nonneg pre). lia.
Qed.

Lemma transformFromBlankNode_Some (row : string) :
  exists out, bbs.transformFromBlankNode row = Some out.
Proof.
  destruct (Index_split row bbs.emptyNodePlaceholder) as [Hnone|(pre & post & Hrow & Hi)].
  - exists row. unfold bbs.transformFromBlankNode. rewrite Hnone. reflexivity.
  - rewrite Hrow in Hi |- *. destruct (transform_at pre post Hi) as (Hkeep & Hcut).
    destruct (cut_at_byte post ">") as [Hpost|(a & b & Hpost & Ha)]; eauto.
Qed.

(** X16: [transformFromBlankNode] never panics: its three slice
    expressions are in range on every row.  It returns the row unchanged, or,
    cutting the row at its first placeholder and at the first ">" after it,
    the row without the ten bytes "<urn:bnid:" and without that ">"; a later
    placeholder in the row is left as it is. *)
Theorem transformFromBlankNode_total (row : string) :
  exists out,
    bbs.transformFromBlankNode row = Some out
    /\ (out = row
        \/ exists pre a b,
            row = pre +:+ "<urn:bnid:_:c14n" +:+ a +:+ ">" +:+ b
            /\ out = pre +:+ "_:c14n" +:+ a +:+ b
            /\ strings.Index row bbs.emptyNodePlaceholder = len pre
            /\ strings.Count a ">" = 0%nat).
Proof.
  destruct (Index_split row bbs.emptyNodePlaceholder) as [Hnone|(pre & post & Hrow & Hi)].
  - exists row. split; [|left; reflexivity].
    unfold bbs.transformFromBlankNode. rewrite Hnone. reflexivity.
  - rewrite Hrow in Hi |- *. destruct (transform_at pre post Hi) as (Hkeep & Hcut).
    destruct (cut_at_byte post ">") as [Hpost|(a & b & Hpost & Ha)].
    + eexists. split; [apply Hkeep; exact Hpost|left; reflexivity].
    + eexists. split; [apply (Hcut a b Hpost Ha)|right].
      exists pre, a, b. subst post. repeat split; try assumption. 
Qed.

Lemma string_of_bytes_app (a b : list byte) :
  bbs.string_of_bytes (a ++ b) = bbs.string_of_bytes a +:+ bbs.string_of_bytes b.
Proof.
  unfold bbs.string_of_bytes, string_of_list_byte.
  induction a as [|x a IH]; [reflexivity|].
  cbn [app map string_of_list_ascii]. rewrite IH, append_String. reflexivity.
Qed.

Lemma string_of_bytes_of_string (s : string) :
  bbs.string_of_bytes (bytes_of_string s) = s.
Proof. apply string_of_list_byte_of_string. Qed.

Lemma bytes_of_string_of_bytes (b : list byte) :
  bytes_of_string (bbs.string_of_bytes b) = b.
Proof. apply list_byte_of_string_of_list_byte. Qed.

Lemma messageRows_app (r1 r2 : list string) :
  bbs.messageRows (r1 ++ r2) = bbs.messageRows r1 ++ bbs.messageRows r2.
Proof.
  induction r1 as [|row r1 IH]; [reflexivity|].
  cbn [app bbs.messageRows]. destruct (String.eqb _ _); rewrite IH; reflexivity.
Qed.

(** The rows kept are those that are not blank, as they are. *)
Lemma messageRows_kept (rows : list string) :
  Forall (fun m => exists row, In row rows /\ m = bytes_of_string row
                               /\ strings.TrimSpace row <> "")
         (bbs.messageRows rows).
Proof.
  induction rows as [|row rows IH]; [constructor|].
  cbn [bbs.messageRows]. destruct (String.eqb_spec (strings.TrimSpace row) "") as [E|E].
  - eapply Forall_impl; [exact IH|]. intros m (r & Hin & Hm & Hb).
    exists r. split; [right; exact Hin|auto].
  - constructor.
    + exists row. split; [left; reflexivity|auto].
    + eapply Forall_impl; [exact IH|]. intros m (r & Hin & Hm & Hb).
      exists r. split; [right; exact Hin|auto].
Qed.

Lemma messageRows_all (rows : list string) :
  Forall (fun row => strings.TrimSpace row <> "") rows ->
  bbs.messageRows rows = map bytes_of_string rows.
Proof.
  induction 1 as [|row rows Hrow _ IH]; [reflexivity|].
  cbn [bbs.messageRows map]. destruct (String.eqb_spec (strings.TrimSpace row) "");
    [contradiction|]. rewrite IH. reflexivity.
Qed.

(** Splitting what was joined gives the pieces back. *)
Lemma Split_Join (pieces : list string) (sep : ascii) :
  pieces <> [] -> Forall (fun piece => strings.Count piece sep = 0%nat) pieces ->
  strings.Split (strings.Join pieces sep) sep = pieces.
Proof.
  intros Hne H. induction H as [|piece pieces Hp _ IH]; [contradiction|].
  destruct pieces as [|piece' pieces].
  - cbn [strings.Join]. apply Split_no_sep. exact Hp.
  - change (strings.Join (piece :: piece' :: pieces) sep)
      with (piece +:+ String sep (strings.Join (piece' :: pieces) sep)).
    rewrite Split_append_sep, IH by discriminate.
    rewrite (Split_no_sep piece sep Hp). reflexivity.
Qed.

Lemma prepareBBSMessage_newline (before after : list byte) :
  bbs.prepareBBSMessage (before ++ x0a :: after)
  = bbs.prepareBBSMessage before ++ bbs.prepareBBSMessage after.
Proof.
  unfold bbs.prepareBBSMessage. cbv zeta.
  change (before ++ x0a :: after) with (before ++ [x0a] ++ after).
  rewrite !string_of_bytes_app.
  change (bbs.string_of_bytes [x0a]) with (String "010" "").
  rewrite append_String, append_empty, Split_append_sep. apply messageRows_app.
Qed.

Lemma prepareBBSMessage_kept (msg : list byte) :
  Forall (fun m => strings.Count (bbs.string_of_bytes m) "010" = 0%nat
                   /\ strings.TrimSpace (bbs.string_of_bytes m) <> "")
         (bbs.prepareBBSMessage msg).
Proof.
  unfold bbs.prepareBBSMessage. cbv zeta.
  eapply Forall_impl; [apply messageRows_kept|].
  intros m (row & Hin & -> & Hb). rewrite string_of_bytes_of_string.
  split; [|exact Hb].
  pose proof (Split_pieces_no_sep (bbs.string_of_bytes msg) "010") as H.
  rewrite Forall_forall in H. apply H. apply list_elem_of_In. exact Hin.
Qed.

(** The loop of [prepareBBSMessage] keeps the rows that are not blank, in
    their order and as they are. *)
Lemma messageRows_filter (rows : list string) :
  map bbs.string_of_bytes (bbs.messageRows rows)
  = List.filter (fun row => negb (String.eqb (strings.TrimSpace row) "")) rows.
Proof.
  induction rows as [|row rows IH]; [reflexivity|].
  cbn [bbs.messageRows List.filter].
  destruct (String.eqb (strings.TrimSpace row) ""); cbn [negb map];
    rewrite ?string_of_bytes_of_string, IH; reflexivity.
Qed.

Lemma filter_all {A} (f : A -> bool) (l : list A) :
  Forall (fun x => f x = true) l -> List.filter f l = l.
Proof.
  induction 1 as [|x l Hx _ IH]; [reflexivity|]. cbn. rewrite Hx, IH. reflexivity.
Qed.

(** X18: the messages [prepareBBSMessage] returns are the lines of the
    input that are not blank, in their order and as they are: as strings
    they are the lines of the message, cut at the line feeds, without those
    that are empty or white space only.  So none holds a line feed, none is
    blank, a message cut at a line feed gives the messages of the part
    before followed by those of the part after, and a message without blank
    lines is its messages joined by line feeds. *)
Theorem prepareBBSMessage_rows (msg : list byte) :
  map bbs.string_of_bytes (bbs.prepareBBSMessage msg)
  = List.filter (fun row => negb (String.eqb (strings.TrimSpace row) ""))
                (strings.Split (bbs.string_of_bytes msg) "010")
  /\ Forall (fun m => strings.Count (bbs.string_of_bytes m) "010" = 0%nat
                      /\ strings.TrimSpace (bbs.string_of_bytes m) <> "")
            (bbs.prepareBBSMessage msg)
  /\ (forall before after,
         msg = before ++ x0a :: after ->
         bbs.prepareBBSMessage msg
         = bbs.prepareBBSMessage before ++ bbs.prepareBBSMessage after)
  /\ (Forall (fun row => strings.TrimSpace row <> "")
             (strings.Split (bbs.string_of_bytes msg) "010") ->
      bytes_of_string
        (strings.Join (map bbs.string_of_bytes (bbs.prepareBBSMessage msg)) "010")
      = msg).
Proof.
  assert (Hrows : map bbs.string_of_bytes (bbs.prepareBBSMessage msg)
                  = List.filter (fun row => negb (String.eqb (strings.TrimSpace row) ""))
                                (strings.Split (bbs.string_of_bytes msg) "010"))
    by apply messageRows_filter.
  split; [exact Hrows|]. split; [apply prepareBBSMessage_kept|]. split.
  - intros before after ->. apply prepareBBSMessage_newline.
  - intros Hall. rewrite Hrows, filter_all.
    + rewrite Join_Split. apply bytes_of_string_of_bytes.
    + eapply Forall_impl; [exact Hall|]. intros row Hrow. cbv beta in *.
      destruct (String.eqb_spec (strings.TrimSpace row) ""); [contradiction|reflexivity].
Qed.

(** X19: [prepareBBSMessage] is a normal form: joining the messages it
    returns by line feeds and preparing the result again gives the same
    messages. *)
Theorem prepareBBSMessage_normal_form (msg : list byte) :
  bbs.prepareBBSMessage
    (bytes_of_string
       (strings.Join (map bbs.string_of_bytes (bbs.prepareBBSMessage msg)) "010"))
  = bbs.prepareBBSMessage msg.
Proof.
  pose proof (prepareBBSMessage_kept msg) as H.
  remember (bbs.prepareBBSMessage msg) as rows eqn:E. clear E.
  unfold bbs.prepareBBSMessage. cbv zeta. rewrite string_of_bytes_of_string.
  assert (Hrows : rows = [] \/ rows <> []) by (destruct rows; [left|right]; congruence).
  destruct Hrows as [->|Hne]; [reflexivity|].
  rewrite Split_Join.
  - rewrite messageRows_all, map_map.
    + rewrite <- (map_id rows) at 2. apply map_ext. apply bytes_of_string_of_bytes.
    + apply Forall_map. eapply Forall_impl; [exact H|]. intros ? [_ Hb]. exact Hb.
  - destruct rows; [contradiction|discriminate].
  - apply Forall_map. eapply Forall_impl; [exact H|]. intros ? [Hc _]. exact Hc.
Qed.

Lemma derivedMessageRows_rows (rows : list string) :
  exists out,
    bbs.derivedMessageRows rows = Some out
    /\ Forall2 (fun m d => bbs.transformFromBlankNode (bbs.string_of_bytes m)
                           = Some (bbs.string_of_bytes d))
               (bbs.messageRows rows) out.
Proof.
  induction rows as [|row rows (out & IH & HF)]; [exists []; split; [reflexivity|constructor]|].
  cbn [bbs.derivedMessageRows bbs.messageRows].
  destruct (String.eqb _ _); [exists out; auto|].
  destruct (transformFromBlankNode_Some row) as (row' & Hrow).
  rewrite Hrow, IH. eexists. split; [reflexivity|].
  constructor; [|exact HF]. rewrite !string_of_bytes_of_string. exact Hrow.
Qed.

(** X17: on a row whose first placeholder follows [pre] and opens a label
    without ">", [transformFromBlankNode] drops "<urn:bnid:" and the closing
    ">" of that label and nothing else: the row gets eleven bytes shorter. *)
Theorem transformFromBlankNode_first_placeholder (pre label post : string) :
  strings.Index (pre +:+ "<urn:bnid:_:c14n" +:+ label +:+ ">" +:+ post)
                bbs.emptyNodePlaceholder = len pre ->
  strings.Count label ">" = 0%nat ->
  bbs.transformFromBlankNode (pre +:+ "<urn:bnid:_:c14n" +:+ label +:+ ">" +:+ post)
  = Some (pre +:+ "_:c14n" +:+ label +:+ post)
  /\ len (pre +:+ "_:c14n" +:+ label +:+ post)
     = len (pre +:+ "<urn:bnid:_:c14n" +:+ label +:+ ">" +:+ post) - 11.
Proof.
  intros Hi Hlabel. split; [|lengths].
  destruct (transform_at pre (label +:+ ">" +:+ post) Hi) as (_ & Hcut).
  apply (Hcut label post eq_refl Hlabel).
Qed.

(** X20: [prepareBBSDerivedMessage] never panics, and its messages are those
    of [prepareBBSMessage], each passed through [transformFromBlankNode]. *)
Theorem prepareBBSDerivedMessage_rows (msg : list byte) :
  exists out,
    bbs.prepareBBSDerivedMessage msg = Some out
    /\ Forall2 (fun m d => bbs.transformFromBlankNode (bbs.string_of_bytes m)
                           = Some (bbs.string_of_bytes d))
               (bbs.prepareBBSMessage msg) out.
Proof.
  apply derivedMessageRows_rows.
Qed.

(** ** base64, once more *)

Lemma sextet_inAlphabet (val k : Z) : base64.inAlphabet (base64.sextet val k) = true.
Proof.
  unfold base64.inAlphabet, base64.sextet.
  pose proof (land_63_range (Z.shiftr val k)) as H.
  rewrite decodeMap_encode by exact H.
  destruct (Z.eqb_spec (Z.land (Z.shiftr val k) 63) 255); [lia|reflexivity].
Qed.

Lemma EncodeToString_alphabet (src : list byte) :
  forallb base64.inAlphabet (list_ascii_of_string (base64.EncodeToString src)) = true.
Proof.
  induction src as [|b0|b0 b1|b0 b1 b2 rest IH] using list_ind_by_3;
    cbn [base64.EncodeToString list_ascii_of_string forallb];
    rewrite ?sextet_inAlphabet, ?IH; reflexivity.
Qed.

Lemma EncodeToString_length (src : list byte) :
  String.length (base64.EncodeToString src) = ((4 * List.length src + 2) / 3)%nat.
Proof.
  induction src as [|b0|b0 b1|b0 b1 b2 rest IH] using list_ind_by_3;
    [reflexivity|reflexivity|reflexivity|].
  cbn [base64.EncodeToString String.length List.length]. rewrite IH.
  replace (4 * S (S (S (List.length rest))) + 2)%nat
    with ((4 * List.length rest + 2) + 4 * 3)%nat by lia.
  rewrite Nat.div_add by lia. lia.
Qed.

Lemma decode_offset (s : string) (si si' : Z) (dbuf : list Z) (x : list byte) :
  base64.decode s si dbuf = Ok x -> base64.decode s si' dbuf = Ok x.
Proof.
  revert si si' dbuf x. induction s as [|c s IH]; intros si si' dbuf x.
  - cbn [base64.decode]. destruct dbuf as [|? [|? ?]]; [auto|discriminate|auto].
  - cbn [base64.decode]. cbv zeta.
    destruct (base64.decodeMap c =? 255).
    + destruct (base64.isNewline c); [apply IH|discriminate].
    + destruct (List.length (dbuf ++ [base64.decodeMap c]) =? 4)%nat; [|apply IH].
      destruct (base64.decode s (si + 1) []) as [tl|] eqn:E; [|discriminate].
      rewrite (IH _ (si' + 1) _ _ E). auto.
Qed.

Lemma isNewline_decodeMap (c : ascii) :
  base64.isNewline c = true -> base64.decodeMap c = 255.
Proof.
  unfold base64.isNewline. intros H. apply orb_true_iff in H as [H|H];
    apply Ascii.eqb_eq in H; subst c; reflexivity.
Qed.

Lemma decode_line_break (a b : string) (c : ascii) :
  base64.isNewline c = true ->
  forall si dbuf x,
    base64.decode (a +:+ String c b) si dbuf = Ok x
    <-> base64.decode (a +:+ b) si dbuf = Ok x.
Proof.
  intros Hc. induction a as [|y a IH]; intros si dbuf x.
  - rewrite !append_empty. cbn [base64.decode]. cbv zeta.
    rewrite (isNewline_decodeMap c Hc), Hc. cbn [Z.eqb Pos.eqb].
    split; apply decode_offset.
  - rewrite !append_String. cbn [base64.decode]. cbv zeta.
    destruct (base64.decodeMap y =? 255).
    + destruct (base64.isNewline y); [apply IH|reflexivity].
    + destruct (List.length (dbuf ++ [base64.decodeMap y]) =? 4)%nat; [|apply IH].
      destruct (base64.decode (a +:+ String c b) (si + 1) []) as [tl|] eqn:E1;
        destruct (base64.decode (a +:+ b) (si + 1) []) as [tl'|] eqn:E2;
        try reflexivity.
      * apply IH in E1. rewrite E1 in E2. injection E2 as ->. reflexivity.
      * apply IH in E1. congruence.
      * apply IH in E2. congruence.
      * split; discriminate.
Qed.

Lemma Count_append (s t : string) (c : ascii) :
  strings.Count (s +:+ t) c = (strings.Count s c + strings.Count t c)%nat.
Proof.
  induction s as [|x s IH]; [reflexivity|].
  rewrite append_String. cbn [strings.Count]. rewrite IH. lia.
Qed.

(** X22: [Encode] writes unpadded URL-safe base64: for [n] bytes it returns
    the 4n/3 characters, rounded up, of the alphabet A-Z a-z 0-9 - _, and no
    "=" at the end. *)
Theorem Encode_unpadded (data : list byte) :
  String.length (Encode data) = ((4 * List.length data + 2) / 3)%nat
  /\ forallb base64.inAlphabet (list_ascii_of_string (Encode data)) = true
  /\ strings.Count (Encode data) "=" = 0%nat.
Proof.
  split; [apply EncodeToString_length|]. split; [apply EncodeToString_alphabet|].
  unfold Encode. pose proof (EncodeToString_alphabet data) as H.
  induction (base64.EncodeToString data) as [|c s IH]; [reflexivity|].
  cbn [list_ascii_of_string forallb strings.Count] in *.
  apply andb_true_iff in H as [Hc Hs]. rewrite (IH Hs).
  destruct (Ascii.eqb_spec c "=") as [->|]; [discriminate Hc|reflexivity].
Qed.

Section LineBreaks.

Context {L : Libraries}.

(** X23: a line feed or a carriage return inside the signature segment of a
    compact JWS changes nothing: [Decode] returns the same bytes with and
    without it, and [VerifyJWS] gives the same answer.  Distinct strings so
    verify alike. *)
Theorem VerifyJWS_ignores_line_breaks
        (sv : BTCSignerVerifier) (p0 p1 a b : string) (c : ascii) :
  base64.isNewline c = true ->
  strings.Count p0 "." = 0%nat -> strings.Count p1 "." = 0%nat ->
  strings.Count (a +:+ b) "." = 0%nat ->
  (forall signature, Decode (a +:+ String c b) = Ok signature
                     <-> Decode (a +:+ b) = Ok signature)
  /\ fst (VerifyJWS sv (p0 +:+ "." +:+ p1 +:+ "." +:+ (a +:+ String c b)))
     = fst (VerifyJWS sv (p0 +:+ "." +:+ p1 +:+ "." +:+ (a +:+ b))).
Proof.
  intros Hc H0 H1 Hab.
  assert (HD : forall signature, Decode (a +:+ String c b) = Ok signature
                                 <-> Decode (a +:+ b) = Ok signature)
    by (intros; apply decode_line_break; exact Hc).
  split; [exact HD|].
  assert (Hc' : Ascii.eqb c "." = false).
  { unfold base64.isNewline in Hc. apply orb_true_iff in Hc as [H|H];
      apply Ascii.eqb_eq in H; subst c; reflexivity. }
  assert (Hacb : strings.Count (a +:+ String c b) "." = 0%nat).
  { rewrite Count_append in *. cbn [strings.Count]. rewrite Hc'. exact Hab. }
  rewrite (VerifyJWS_three_parts sv _ p0 p1 (a +:+ String c b))
    by (apply Split_compact; assumption).
  rewrite (VerifyJWS_three_parts sv _ p0 p1 (a +:+ b))
    by (apply Split_compact; assumption).
  destruct (Decode (a +:+ String c b)) as [x|] eqn:E1.
  - rewrite (proj1 (HD x) eq_refl). reflexivity.
  - destruct (Decode (a +:+ b)) as [y|] eqn:E2; [|reflexivity].
    pose proof (proj2 (HD y) eq_refl). discriminate.
Qed.

End LineBreaks.

Section BuildersSucceed.

Context {L : Libraries}.

(** X21: when the builders return a request.  [NewCreateRequest] and
    [NewRecoverRequest] do exactly when [Commit] succeeds on each of their
    keys and the delta can be canonicalized and multihashed;
    [NewUpdateRequest] needs a valid state change besides;
    [NewDeactivateRequest] needs [Commit] on the recovery key only.  Neither
    the signer nor the payload to sign is among the conditions. *)
Theorem builders_succeed_iff
        (didSuffix : string) (recoveryKey nextRecoveryKey updateKey nextUpdateKey : PublicKeyJWK)
        (document : Document) (signer : BTCSignerVerifier) (stateChange : StateChange)
        (l : Log) :
  (is_Ok (fst (NewCreateRequest recoveryKey updateKey document l)) = true
   <-> is_Ok (fst (Commit recoveryKey l)) = true
       /\ exists uc, fst (Commit updateKey l) = Ok uc
          /\ exists deltaHash,
              hashOfDelta {| UpdateCommitment := snd uc;
                             Patches := [ReplaceAction Replace document] |} deltaHash)
  /\ (is_Ok (fst (NewRecoverRequest didSuffix recoveryKey nextRecoveryKey nextUpdateKey
                                    document signer l)) = true
      <-> is_Ok (fst (Commit recoveryKey l)) = true
          /\ is_Ok (fst (Commit nextRecoveryKey l)) = true
          /\ exists uc, fst (Commit nextUpdateKey l) = Ok uc
             /\ exists deltaHash,
                 hashOfDelta {| UpdateCommitment := snd uc;
                                Patches := [ReplaceAction Replace document] |} deltaHash)
  /\ (is_Ok (fst (NewUpdateRequest didSuffix updateKey nextUpdateKey signer stateChange l))
      = true
      <-> IsValid stateChange = None
          /\ is_Ok (fst (Commit updateKey l)) = true
          /\ exists nuc, fst (Commit nextUpdateKey l) = Ok nuc
             /\ exists deltaHash,
                 hashOfDelta {| UpdateCommitment := snd nuc;
                                Patches := updatePatches stateChange |} deltaHash)
  /\ (is_Ok (fst (NewDeactivateRequest didSuffix recoveryKey signer l)) = true
      <-> is_Ok (fst (Commit recoveryKey l)) = true).
Proof.
  split; [|split; [|split]].
  - unfold NewCreateRequest, bind, lift, ret.
    destruct (Commit updateKey l) as [[uc|] l1] eqn:EU;
      [pose proof (Commit_Ok_log _ _ _ _ EU) as ->|].
    2:{ cbn. split; [discriminate|]. intros (_ & uc & [=] & _). }
    destruct (CanonicalizeAny _) as [dc|] eqn:EC.
    2:{ cbn. split; [discriminate|].
        intros (_ & uc' & [= <-] & h & dc & mh & HC & _). congruence. }
    rewrite HashEncode_run.
    destruct (multihash_Encode (sha256_Sum256 dc) SHA2_256) as [mh|] eqn:EM.
    2:{ cbn. split; [discriminate|].
        intros (_ & uc' & [= <-] & h & dc' & mh & HC & HM & _). congruence. }
    destruct (Commit recoveryKey l) as [[rc|] l3]; cbn.
    + split; [|reflexivity]. intros _. split; [reflexivity|].
      exists uc. split; [reflexivity|]. exists (Encode mh), dc, mh. auto.
    + split; [discriminate|]. intros [[=] _].
  - unfold NewRecoverRequest, bind, lift, ret.
    destruct (Commit recoveryKey l) as [[rc|] l1] eqn:ER;
      [pose proof (Commit_Ok_log _ _ _ _ ER) as ->|].
    2:{ cbn. split; [discriminate|]. intros ([=] & _). }
    destruct (Commit nextUpdateKey l) as [[uc|] l1] eqn:EU;
      [pose proof (Commit_Ok_log _ _ _ _ EU) as ->|].
    2:{ cbn. split; [discriminate|]. intros (_ & _ & uc & [=] & _). }
    destruct (CanonicalizeAny _) as [dc|] eqn:EC.
    2:{ cbn. split; [discriminate|].
        intros (_ & _ & uc' & [= <-] & h & dc & mh & HC & _). congruence. }
    rewrite HashEncode_run.
    destruct (multihash_Encode (sha256_Sum256 dc) SHA2_256) as [mh|] eqn:EM.
    2:{ cbn. split; [discriminate|].
        intros (_ & _ & uc' & [= <-] & h & dc' & mh & HC & HM & _). congruence. }
    destruct (Commit nextRecoveryKey l) as [[nrc|] l3] eqn:EN;
      [pose proof (Commit_Ok_log _ _ _ _ EN) as ->|].
    2:{ cbn. split; [discriminate|]. intros (_ & [=] & _). }
    destruct (SignJWT_never_errors signer
                {| rsd_RecoveryCommitment := snd nrc; rsd_RecoveryKey := recoveryKey;
                   rsd_DeltaHash := Encode mh |} l) as (jws & l4 & ->).
    cbn. split; [|reflexivity]. intros _. split; [reflexivity|]. split; [reflexivity|].
    exists uc. split; [reflexivity|]. exists (Encode mh), dc, mh. auto.
  - unfold NewUpdateRequest.
    destruct (IsValid stateChange) as [err|].
    { cbn. split; [discriminate|]. intros ([=] & _). }
    unfold bind, lift, ret.
    destruct (Commit updateKey l) as [[uc|] l1] eqn:EU;
      [pose proof (Commit_Ok_log _ _ _ _ EU) as ->|].
    2:{ cbn. split; [discriminate|]. intros (_ & [=] & _). }
    destruct (Commit nextUpdateKey l) as [[nuc|] l1] eqn:EN;
      [pose proof (Commit_Ok_log _ _ _ _ EN) as ->|].
    2:{ cbn. split; [discriminate|]. intros (_ & _ & uc' & [=] & _). }
    destruct (CanonicalizeAny _) as [dc|] eqn:EC.
    2:{ cbn. split; [discriminate|].
        intros (_ & _ & uc' & [= <-] & h & dc & mh & HC & _). congruence. }
    rewrite HashEncode_run.
    destruct (multihash_Encode (sha256_Sum256 dc) SHA2_256) as [mh|] eqn:EM.
    2:{ cbn. split; [discriminate|].
        intros (_ & _ & uc' & [= <-] & h & dc' & mh & HC & HM & _). congruence. }
    destruct (SignJWT_never_errors signer
                {| usd_UpdateKey := updateKey; usd_DeltaHash := Encode mh |} l)
      as (jws & l4 & ->).
    cbn. split; [|reflexivity]. intros _. split; [reflexivity|]. split; [reflexivity|].
    exists nuc. split; [reflexivity|]. exists (Encode mh), dc, mh. auto.
  - unfold NewDeactivateRequest, bind, wrapSignError, ret.
    destruct (Commit recoveryKey l) as [[rc|] l1]; [|cbn; split; discriminate].
    destruct (SignJWT_never_errors signer
                {| dsd_DIDSuffix := didSuffix; dsd_RecoveryKey := recoveryKey |} l1)
      as (jws & l2 & ->).
    cbn. split; reflexivity.
Qed.

End BuildersSucceed.

(** ** The BBS+ verifier *)
Section BBSVerifier.

Context {P : crypto.Pairing}.

Lemma prepareBBSMessage_nil : bbs.prepareBBSMessage [] = [].
Proof. reflexivity. Qed.

Lemma derivedMessageRows_unchanged (rows : list string) :
  Forall (fun m => bbs.transformFromBlankNode (bbs.string_of_bytes m)
                   = Some (bbs.string_of_bytes m)) (bbs.messageRows rows) ->
  bbs.derivedMessageRows rows = Some (bbs.messageRows rows).
Proof.
  induction rows as [|row rows IH]; [reflexivity|].
  cbn [bbs.derivedMessageRows bbs.messageRows].
  destruct (String.eqb _ _); [exact IH|]. intros H.
  apply Forall_cons in H as [Hrow Hrows]. rewrite string_of_bytes_of_string in Hrow.
  rewrite Hrow, (IH Hrows). reflexivity.
Qed.

(** X24: line feeds and blank lines do not count for the BBS+ verifier:
    [Verify] gives the same answer on a message and on the message with a
    second line feed after one of its line feeds, or with a line feed at its
    end; and [VerifyBBSMessage] is [Verify] whatever the key id of the
    verifier. *)
Theorem BBS_Verify_line_feeds
        (v : crypto.BBSPlusVerifier) (message before after signature : list byte) :
  crypto.Verify v (before ++ x0a :: x0a :: after) signature
  = crypto.Verify v (before ++ x0a :: after) signature
  /\ crypto.Verify v (message ++ [x0a]) signature = crypto.Verify v message signature
  /\ crypto.VerifyBBSMessage (crypto.PublicKey v) signature message
     = crypto.Verify v message signature.
Proof.
  unfold crypto.VerifyBBSMessage, crypto.Verify. cbv zeta. cbn [crypto.PublicKey].
  rewrite !prepareBBSMessage_newline, prepareBBSMessage_nil, app_nil_r.
  cbn [app]. auto.
Qed.

(** X25: [VerifyDerived] never panics; on a message none of whose rows
    [transformFromBlankNode] changes, it is [Verify]. *)
Theorem VerifyDerived_Verify
        (v : crypto.BBSPlusVerifier) (message signature : list byte) :
  (exists answer, crypto.VerifyDerived v message signature = Some answer)
  /\ (Forall (fun m => bbs.transformFromBlankNode (bbs.string_of_bytes m)
                       = Some (bbs.string_of_bytes m)) (bbs.prepareBBSMessage message) ->
      crypto.VerifyDerived v message signature = Some (crypto.Verify v message signature))
  /\ crypto.VerifyDerivedBBSMessage (crypto.PublicKey v) signature message
     = crypto.VerifyDerived v message signature.
Proof.
  unfold crypto.VerifyDerivedBBSMessage, crypto.VerifyDerived, crypto.Verify.
  cbv zeta. cbn [crypto.PublicKey].
  destruct (crypto.bbsg2_PublicKey_Marshal (crypto.PublicKey v)) as [pubKeyBytes|err];
    [|eauto].
  split; [|split; [|reflexivity]].
  - destruct (derivedMessageRows_rows (strings.Split (bbs.string_of_bytes message) "010"))
      as (out & Hout & _).
    unfold bbs.prepareBBSDerivedMessage. cbv zeta. rewrite Hout. eauto.
  - intros H. unfold bbs.prepareBBSDerivedMessage, bbs.prepareBBSMessage in *.
    cbv zeta in *. rewrite (derivedMessageRows_unchanged _ H). reflexivity.
Qed.

End BBSVerifier.

(** ** The further statements on concrete inputs *)

Lemma IsValid_first_invalid_service_witness :
  IsValid (L := Sample.libraries) Fixture.duplicated = Some "service svc1 duplicated".
Proof.
  destruct (IsValid_first_invalid_service (L := Sample.libraries) Fixture.duplicated
              [Sample.service "svc1"] [] (Sample.service "svc1") eq_refl
              ltac:(apply NoDup_singleton)
              ltac:(repeat constructor; vm_compute; discriminate))
    as (Hduplicated & _).
  apply Hduplicated. left. reflexivity.
Defined.

Lemma IsValid_first_invalid_key_witness :
  IsValid (L := Sample.libraries) Fixture.longKey
  = Some ("public key<" +:+ Sample.longID +:+ "> id is too long").
Proof.
  destruct (IsValid_first_invalid_key (L := Sample.libraries) Fixture.longKey
              [Sample.key "key1"] [] (Sample.key Sample.longID)
              ltac:(vm_compute; reflexivity) eq_refl
              ltac:(apply NoDup_singleton)
              ltac:(repeat constructor; vm_compute; discriminate))
    as (_ & Hlong).
  apply Hlong.
  - intros [H|[]]. vm_compute in H. discriminate H.
  - vm_compute. reflexivity.
Defined.

Lemma commitment_chain_witness :
  fst (Commit (L := Sample.libraries) "jwk" []) = Ok ("EgMCe30", "EgQDAnt9")
  /\ UpdateCommitment (CreateRequest_Delta Fixture.created) = "EgQDAnt9"
  /\ RecoverRequest_RevealValue Fixture.recovered = "EgMCe30"
  /\ DeactivateRequest_RevealValue Fixture.deactivated = "EgMCe30".
Proof.
  assert (HC : fst (Commit (L := Sample.libraries) "jwk" []) = Ok ("EgMCe30", "EgQDAnt9"))
    by (vm_compute; reflexivity).
  destruct (commitment_chain (L := Sample.libraries) "jwk" [] "EgMCe30" "EgQDAnt9" HC)
    as (Hcreate & _ & _ & _ & _ & Hrecover & Hdeactivate & _).
  split; [exact HC|]. split; [|split].
  - apply (Hcreate "rjwk" tt [] Fixture.created []). vm_compute. reflexivity.
  - apply (Hrecover "abc123" "rjwk2" "jwk2" tt Sample.signer [] Fixture.recovered []).
    vm_compute. reflexivity.
  - apply (Hdeactivate "abc123" Sample.signer [] Fixture.deactivated []).
    vm_compute. reflexivity.
Defined.

Lemma Create_Recover_same_delta_witness :
  CreateRequest_Delta Fixture.created = RecoverRequest_Delta Fixture.recovered
  /\ map Action (Patches (RecoverRequest_Delta Fixture.recovered)) = [Replace].
Proof.
  apply (Create_Recover_same_delta (L := Sample.libraries) "abc123" "rjwk" "rjwk" "rjwk2"
           "jwk" tt Sample.signer [] [] [] []);
    vm_compute; reflexivity.
Defined.

Lemma VerifyJWS_true_only_if_witness :
  VerifyJWS (L := Fixture.credulous) Fixture.verifier Sample.jws = (true, None)
  /\ exists p0 p1 p2 signature,
      Sample.jws = p0 +:+ "." +:+ p1 +:+ "." +:+ p2
      /\ strings.Count p0 "." = 0%nat /\ strings.Count p1 "." = 0%nat
      /\ strings.Count p2 "." = 0%nat
      /\ Decode p2 = Ok signature
      /\ @ecdsa_VerifyASN1 Fixture.credulous (publicKey Fixture.verifier)
           (Hash (L := Fixture.credulous)
                 (Hash (L := Fixture.credulous) (bytes_of_string (p0 +:+ "." +:+ p1))))
           signature
         = true.
Proof.
  assert (Hrun : VerifyJWS (L := Fixture.credulous) Fixture.verifier Sample.jws
                 = (true, None)) by (vm_compute; reflexivity).
  split; [exact Hrun|].
  apply (VerifyJWS_true_only_if (L := Fixture.credulous) _ _ _ Hrun).
Defined.

Lemma NewCreateRequest_suffix_data_witness :
  NewCreateRequest (L := Sample.libraries) "rjwk" "jwk" tt [] = (Ok Fixture.created, [])
  /\ hashOfDelta (CreateRequest_Delta Fixture.created) "EgMCe30".
Proof.
  assert (Hrun : NewCreateRequest (L := Sample.libraries) "rjwk" "jwk" tt []
                 = (Ok Fixture.created, [])) by (vm_compute; reflexivity).
  split; [exact Hrun|].
  apply (NewCreateRequest_suffix_data (L := Sample.libraries) _ _ _ _ _ _ Hrun).
Defined.

Lemma NewUpdateRequest_signed_data_witness :
  NewUpdateRequest (L := Sample.libraries) "abc123" "jwk" "jwk2"
                   Sample.signer Sample.additions [] = (Ok Sample.updated, [])
  /\ exists deltaHash,
      hashOfDelta (UpdateRequest_Delta Sample.updated) deltaHash
      /\ signedBy Sample.signer (@Build_UpdateSignedData Sample.libraries "jwk" deltaHash)
                  Sample.jws.
Proof.
  assert (Hrun : NewUpdateRequest (L := Sample.libraries) "abc123" "jwk" "jwk2"
                                  Sample.signer Sample.additions []
                 = (Ok Sample.updated, [])) by (vm_compute; reflexivity).
  split; [exact Hrun|].
  destruct (NewUpdateRequest_signed_data (L := Sample.libraries) _ _ _ _ _ _ _ _ Hrun)
    as (deltaHash & Hhash & Hsigned & _); [discriminate|].
  exists deltaHash. split; [exact Hhash | exact Hsigned].
Defined.

Lemma NewRecoverRequest_signed_data_witness :
  NewRecoverRequest (L := Sample.libraries) "abc123" "rjwk" "rjwk2" "jwk" tt
                    Sample.signer [] = (Ok Fixture.recovered, [])
  /\ exists deltaHash nrc,
      hashOfDelta (RecoverRequest_Delta Fixture.recovered) deltaHash
      /\ fst (Commit (L := Sample.libraries) "rjwk2" []) = Ok nrc
      /\ signedBy Sample.signer
                  (@Build_RecoverSignedData Sample.libraries (snd nrc) "rjwk" deltaHash)
                  Sample.jws.
Proof.
  assert (Hrun : NewRecoverRequest (L := Sample.libraries) "abc123" "rjwk" "rjwk2" "jwk" tt
                                   Sample.signer [] = (Ok Fixture.recovered, []))
    by (vm_compute; reflexivity).
  split; [exact Hrun|].
  destruct (NewRecoverRequest_signed_data (L := Sample.libraries) _ _ _ _ _ _ _ _ _ Hrun)
    as (deltaHash & nrc & Hhash & Hcommit & Hsigned & _); [discriminate|].
  exists deltaHash, nrc. auto.
Defined.

Lemma NewDeactivateRequest_signed_data_witness :
  NewDeactivateRequest (L := Sample.libraries) "abc123" "rjwk" Sample.signer []
  = (Ok Fixture.deactivated, [])
  /\ signedBy Sample.signer (@Build_DeactivateSignedData Sample.libraries "abc123" "rjwk")
              Sample.jws.
Proof.
  assert (Hrun : NewDeactivateRequest (L := Sample.libraries) "abc123" "rjwk"
                                      Sample.signer [] = (Ok Fixture.deactivated, []))
    by (vm_compute; reflexivity).
  split; [exact Hrun|].
  apply (NewDeactivateRequest_signed_data (L := Sample.libraries) _ _ _ _ _ _ Hrun).
  discriminate.
Defined.

Lemma Sign_fixed_width_witness :
  Sign (L := Sample.libraries) Sample.signer [] = Ok Sample.signature
  /\ List.length Sample.signature = 64%nat.
Proof.
  destruct (Sign_fixed_width (L := Sample.libraries) Sample.signer [] 1 2 eq_refl
              ltac:(lia) ltac:(lia)) as (_ & Hsign & Hlen).
  split; [exact Hsign | exact Hlen].
Defined.

Lemma toCompactHex_rejects_negative_witness :
  toCompactHex (-1) 2 = Err "invalid byte sequence".
Proof.
  destruct (toCompactHex_rejects_negative (L := Sample.libraries) Sample.signer []
              (-1) 2 (or_introl eq_refl)) as ([Hodd|Hbyte] & _).
  - vm_compute in Hodd. discriminate Hodd.
  - exact Hbyte.
Defined.

Lemma transformFromBlankNode_first_placeholder_witness :
  bbs.transformFromBlankNode "<s> <p> <urn:bnid:_:c14n0> <urn:bnid:_:c14n1> ."
  = Some "<s> <p> _:c14n0 <urn:bnid:_:c14n1> .".
Proof.
  apply (transformFromBlankNode_first_placeholder "<s> <p> " "0" " <urn:bnid:_:c14n1> .");
    vm_compute; reflexivity.
Defined.

Lemma VerifyJWS_ignores_line_breaks_witness :
  fst (VerifyJWS (L := Fixture.credulous) Fixture.verifier
                 ("e30" +:+ "." +:+ "e30" +:+ "." +:+ ("AA" +:+ String "010" "")))
  = fst (VerifyJWS (L := Fixture.credulous) Fixture.verifier
                   ("e30" +:+ "." +:+ "e30" +:+ "." +:+ ("AA" +:+ ""))).
Proof.
  apply (VerifyJWS_ignores_line_breaks (L := Fixture.credulous) Fixture.verifier
           "e30" "e30" "AA" "" "010" eq_refl eq_refl eq_refl eq_refl).
Defined.

Lemma VerifyDerived_Verify_witness :
  crypto.VerifyDerived Fixture.bbsVerifier Fixture.statements Fixture.statements
  = Some (crypto.Verify Fixture.bbsVerifier Fixture.statements Fixture.statements).
Proof.
  destruct (VerifyDerived_Verify (P := Fixture.pairing) Fixture.bbsVerifier
              Fixture.statements Fixture.statements) as (_ & Hsame & _).
  apply Hsame. vm_compute. repeat constructor.
Defined.

Lemma prepareBBSMessage_rows_witness :
  map bbs.string_of_bytes (bbs.prepareBBSMessage Fixture.statements)
  = ["<s> <p> <o> ."; "<s> <q> <o> ."]
  /\ bytes_of_string
       (strings.Join (map bbs.string_of_bytes (bbs.prepareBBSMessage Fixture.statements))
                     "010")
     = Fixture.statements.
Proof.
  destruct (prepareBBSMessage_rows Fixture.statements) as (Hrows & _ & _ & Hjoin).
  split.
  - rewrite Hrows. vm_compute. reflexivity.
  - apply Hjoin. vm_compute. repeat constructor; discriminate.
Defined.
